(** * slobypy: the live-reload orchestrator of [slobypy/manager.py]
      and the URI check of [slobypy/react/tools.py]

    A shallow embedding.  The interpreter state that the watch loop reads
    and writes (the dict [self.modules], the list [SlApp._components],
    [sys.modules], [sys.meta_path], the calls made on the RPC object) is one
    record; every function of the source is a computation in a state-and-
    exception monad over it, so that a Python exception leaves the
    mutations made before it in place, as it does in the interpreter. *)

From Stdlib Require Import ZArith Lia Ascii.
From stdpp Require Import base gmap list strings.

(** ** Paths: the part of [pathlib.Path] the source uses *)

Module Pathlib.

(** A path object: whether it is anchored at the root, and its parts. *)
Record Path := mkPath { is_absolute : bool; parts : list string }.

#[global] Instance Path_eq_dec : EqDecision Path.
Proof. solve_decision. Defined.

#[global] Instance Path_countable : Countable Path :=
  inj_countable' (fun p => (is_absolute p, parts p))
                 (fun '(a, l) => mkPath a l)
                 (fun p => match p with mkPath _ _ => eq_refl end).

(** [p.name]: the last part, empty for the root and for [Path()]. *)
Definition name (p : Path) : string := List.last (parts p) "".

(** [s.rfind('.')] *)
Fixpoint rfind_dot (s : string) : option nat :=
  match s with
  | EmptyString => None
  | String c s' =>
      match rfind_dot s' with
      | Some i => Some (S i)
      | None => if Ascii.eqb c "."%char then Some 0 else None
      end
  end.

(** [i = name.rfind('.'); 0 < i < len(name) - 1] *)
Definition suffix_index (n : string) : option nat :=
  match rfind_dot n with
  | Some i => if (0 <? i) && (i <? String.length n - 1) then Some i else None
  | None => None
  end.

(** [p.suffix] *)
Definition suffix (p : Path) : string :=
  match suffix_index (name p) with
  | Some i => String.substring i (String.length (name p) - i) (name p)
  | None => ""
  end.

(** [p.stem] *)
Definition stem (p : Path) : string :=
  match suffix_index (name p) with
  | Some i => String.substring 0 i (name p)
  | None => name p
  end.

(** [p / child] for a one-part relative child. *)
Definition joinpath (p : Path) (child : string) : Path :=
  mkPath (is_absolute p) (parts p ++ [child]).

(** The proper prefixes of a list, longest first. *)
Fixpoint proper_prefixes {A} (l : list A) : list (list A) :=
  match l with
  | [] => []
  | x :: l' => List.map (cons x) (proper_prefixes l') ++ [[]]
  end.

(** [p.parents]: the logical ancestors, nearest first. *)
Definition parents (p : Path) : list Path :=
  List.map (mkPath (is_absolute p)) (proper_prefixes (parts p)).

(** [p.parent] *)
Definition parent (p : Path) : Path :=
  List.hd p (parents p).

(** [str(p)] *)
Definition str (p : Path) : string :=
  match is_absolute p, parts p with
  | true, l => "/" +:+ String.concat "/" l
  | false, [] => "."
  | false, l => String.concat "/" l
  end.

(** [s.split("/")] *)
Fixpoint split_slash (s : string) : list string :=
  match s with
  | EmptyString => [EmptyString]
  | String c s' =>
      if Ascii.eqb c "/"%char then EmptyString :: split_slash s'
      else match split_slash s' with
           | x :: l => String c x :: l
           | [] => [String c EmptyString]
           end
  end.

(** [Path(s)]: the path a str names.  It is anchored when [s] starts with
    a slash; the empty and the "." pieces between slashes drop out. *)
Definition of_str (s : string) : Path :=
  mkPath (match s with String c _ => Ascii.eqb c "/"%char | _ => false end)
         (List.filter (fun x => negb (String.eqb x "") && negb (String.eqb x "."))
                      (split_slash s)).

End Pathlib.
Import Pathlib.

(** ** Interpreter objects *)

(** The exception classes that can cross the functions modelled here. *)
Inductive Exn :=
| AttributeError | KeyError | TypeError | ImportError | ValueError
| FileNotFoundError | SyntaxError | URIError
| OtherException (cls : string).

#[global] Instance Exn_eq_dec : EqDecision Exn.
Proof. solve_decision. Defined.

(** ModuleNotFoundError, the subclass of ImportError that [reload] raises
    when no finder knows the name. *)
Definition ModuleNotFoundError : Exn := OtherException "ModuleNotFoundError".

(** A module object, as made by [importlib.util.module_from_spec]: its
    identity, its [__name__] (the spec's name) and the file of the spec it
    was made from. *)
Record Module := mkModule { mod_id : nat; mod_name : string; mod_file : Path }.

#[global] Instance Module_eq_dec : EqDecision Module.
Proof. solve_decision. Defined.

(** An entry of [SlApp._components]: the dict
    [{"uri": .., "component": .., "source_path": ..}]; the component class
    is an opaque handle. *)
Record Registration :=
  mkRegistration { uri : string; component : nat; source_path : Path }.

#[global] Instance Registration_eq_dec : EqDecision Registration.
Proof. solve_decision. Defined.

(** The keys found in the dict [modules]: a [Path], or the bound method
    [p.resolve] of a path object (line 93 of manager.py uses one). A bound
    method never compares equal to a [Path]. *)
Inductive Key := KPath (p : Path) | KResolveMethod (p : Path).

#[global] Instance Key_eq_dec : EqDecision Key.
Proof. solve_decision. Defined.

#[global] Instance Key_countable : Countable Key :=
  inj_countable'
    (fun k => match k with KPath p => inl p | KResolveMethod p => inr p end)
    (fun s => match s with inl p => KPath p | inr p => KResolveMethod p end)
    (fun k => match k with KPath _ => eq_refl | KResolveMethod _ => eq_refl end).

(** What executing the top-level code of a source file does. *)
Inductive Exec :=
| Ran (regs : list Registration)
| Failed (e : Exn) (regs : list Registration).

Definition registered (x : Exec) : list Registration :=
  match x with Ran regs => regs | Failed _ regs => regs end.

(** Modelled from the spec: slobypy/app.py, whose [SlApp.component]
    decorator fills [SlApp._components], is not among the sources; the
    registry is "populated by side effect when component modules execute".
    The world gives, for a file, the registrations its top-level code
    appends and whether it then returns or raises.  The world also holds
    the answers of the filesystem and of importlib's loader table. *)
Record World := mkWorld {
  resolve : Path -> Path;                  (* [p.resolve()] *)
  loader_for : Path -> bool;               (* spec_from_file_location finds a loader *)
  exec_source : Path -> Exec;              (* [spec.loader.exec_module(module)] *)
  iterdir : Path -> option (list Path);    (* [p.iterdir()], None: it raises *)
  iterdir_error : Path -> Exn;             (* the OSError of a failing [p.iterdir()] *)
  has_path : Module -> bool;               (* the module has a [__path__]: a package *)
  sys_find_spec : string -> option Module -> option Path
    (* the file found for a name, searched along the [__path__] of its
       parent package if it has one, by the finders that stand on
       [sys.meta_path] before the program appends its own:
       BuiltinImporter, FrozenImporter, PathFinder *)
}.

(** [ModuleFinder], lines 111-122: a meta-path finder over one [path_map]. *)
Record ModuleFinder := mkModuleFinder { path_map : list (string * string) }.

(** [find_spec]: None for a name outside [path_map], else the spec of that
    name at the mapped location, written as the pair of the two. *)
Definition find_spec (self : ModuleFinder) (fullname : string)
    : option (string * string) :=
  match List.find (fun kv => String.eqb (fst kv) fullname) (path_map self) with
  | None => None
  | Some kv => Some (fullname, snd kv)
  end.

(** [find_module]: always None. *)
Definition find_module (self : ModuleFinder) (fullname : string)
    : option (string * string) := None.

(** The mutable state the watch loop works on. *)
Record State := mkState {
  modules : gmap Key (option Module);      (* [self.modules]; [None] is Python's None *)
  components : list Registration;          (* [SlApp._components] *)
  sys_modules : gmap string Module;        (* [sys.modules] *)
  meta_path : list ModuleFinder;           (* the finders appended to [sys.meta_path] *)
  next_id : nat;                           (* identity of the next module object *)
  echoed : list string;                    (* [typer.echo] output *)
  notified : list (list string)            (* calls of [rpc.hot_reload_routes], oldest first *)
}.

Definition set_modules (f : gmap Key (option Module) -> gmap Key (option Module))
    (s : State) : State :=
  mkState (f (modules s)) (components s) (sys_modules s) (meta_path s)
          (next_id s) (echoed s) (notified s).

Definition set_components (f : list Registration -> list Registration)
    (s : State) : State :=
  mkState (modules s) (f (components s)) (sys_modules s) (meta_path s)
          (next_id s) (echoed s) (notified s).

Definition set_sys_modules (f : gmap string Module -> gmap string Module)
    (s : State) : State :=
  mkState (modules s) (components s) (f (sys_modules s)) (meta_path s)
          (next_id s) (echoed s) (notified s).

Definition set_meta_path (f : list ModuleFinder -> list ModuleFinder)
    (s : State) : State :=
  mkState (modules s) (components s) (sys_modules s) (f (meta_path s))
          (next_id s) (echoed s) (notified s).

Definition set_next_id (f : nat -> nat) (s : State) : State :=
  mkState (modules s) (components s) (sys_modules s) (meta_path s)
          (f (next_id s)) (echoed s) (notified s).

Definition set_echoed (f : list string -> list string) (s : State) : State :=
  mkState (modules s) (components s) (sys_modules s) (meta_path s)
          (next_id s) (f (echoed s)) (notified s).

Definition set_notified (f : list (list string) -> list (list string))
    (s : State) : State :=
  mkState (modules s) (components s) (sys_modules s) (meta_path s)
          (next_id s) (echoed s) (f (notified s)).

(** ** The state-and-exception monad *)

Inductive Result (A : Type) := Ok (a : A) | Raise (e : Exn).
Arguments Ok {A} a.
Arguments Raise {A} e.

Definition M (A : Type) : Type := State -> Result A * State.

Definition ret {A} (a : A) : M A := fun s => (Ok a, s).

Definition raise {A} (e : Exn) : M A := fun s => (Raise e, s).

Definition bind {A B} (c : M A) (k : A -> M B) : M B :=
  fun s => match c s with
           | (Ok a, s') => k a s'
           | (Raise e, s') => (Raise e, s')
           end.

Definition gets {A} (f : State -> A) : M A := fun s => (Ok (f s), s).

Definition modify (f : State -> State) : M unit := fun s => (Ok tt, f s).

(** [try: c except cls: h] *)
Definition try_except {A} (c : M A) (cls : Exn) (h : M A) : M A :=
  fun s => match c s with
           | (Raise e, s') => if decide (e = cls) then h s' else (Raise e, s')
           | r => r
           end.

Declare Scope py_scope.
Delimit Scope py_scope with py.
Notation "'let*' x := c 'in' k" := (bind c (fun x => k))
  (at level 10, x name, c at level 100, k at level 200) : py_scope.
Notation "c ;; k" := (bind c (fun _ => k))
  (at level 100, k at level 200, right associativity) : py_scope.
Open Scope py_scope.

(** The state a computation leaves, and the value it returns. *)
Definition exec_state {A} (c : M A) (s : State) : State := snd (c s).
Definition outcome {A} (c : M A) (s : State) : Result A := fst (c s).

(** ** manager.py *)

Definition echo (msg : string) : M unit :=
  modify (set_echoed (fun l => l ++ [msg])).

(** [SlApp._components.extend(regs)]: the registrations a module's
    top-level code makes, in order. *)
Definition register_all (regs : list Registration) : M unit :=
  modify (set_components (fun l => l ++ regs)).

(** [importlib.util.module_from_spec(spec)] for the spec of [name] at the
    resolved [file]: a new module object. *)
Definition module_from_spec (name : string) (file : Path) : M Module :=
  let* i := gets next_id in
  modify (set_next_id S) ;;
  ret (mkModule i name file).

(** [spec.loader.exec_module(module)] *)
Definition exec_module (w : World) (m : Module) : M unit :=
  match exec_source w (mod_file m) with
  | Ran regs => register_all regs
  | Failed e regs => register_all regs ;; raise e
  end.

(** [import_file(path)], lines 125-135.  When no loader is known for the
    file, [spec_from_file_location] returns None and [module_from_spec]
    raises AttributeError on it; the result [None] is Python's None. *)
Definition import_file (w : World) (path : Path) : M (option Module) :=
  try_except
    (if loader_for w (resolve w path) then
       let* module := module_from_spec (stem path) (resolve w path) in
       modify (set_meta_path
                 (fun l => l ++ [mkModuleFinder
                                   [(stem path, str (resolve w path))]])) ;;
       modify (set_sys_modules <[stem path := module]>) ;;
       exec_module w module ;;
       ret (Some module)
     else raise AttributeError)
    AttributeError
    (echo "File not found" ;; ret None).

(** [name.rpartition('.')[0]]: the text before the last dot, empty when
    the name has none. *)
Definition parent_name (name : string) : string :=
  match rfind_dot name with
  | Some i => String.substring 0 i name
  | None => ""
  end.

(** Lines 153-164 of importlib/__init__.py: the parent package of a dotted
    name, looked up in [sys.modules] and asked for its [__path__]. *)
Definition reload_parent (w : World) (name : string) : M (option Module) :=
  if String.eqb (parent_name name) "" then ret None
  else
    let* sm := gets sys_modules in
    match sm !! parent_name name with
    | None => raise ImportError
    | Some parent =>
        if has_path w parent then ret (Some parent) else raise AttributeError
    end.

(** The loop of [_bootstrap._find_spec] over the finders the program has
    appended: the first one whose [find_spec] gives a spec wins;
    [spec_from_file_location] gives none for a location without a loader.
    The result is the file of the spec. *)
Fixpoint find_appended (w : World) (name : string) (finders : list ModuleFinder)
    : option Path :=
  match finders with
  | [] => None
  | finder :: rest =>
      match find_spec finder name with
      | Some (_, location) =>
          if loader_for w (of_str location) then Some (of_str location)
          else find_appended w name rest
      | None => find_appended w name rest
      end
  end.

(** [_bootstrap._find_spec(name, pkgpath, module)] over [sys.meta_path]:
    the finders of the interpreter first, then the appended ones. *)
Definition _find_spec (w : World) (name : string) (parent : option Module)
    : M (option Path) :=
  match sys_find_spec w name parent with
  | Some file => ret (Some file)
  | None =>
      let* finders := gets meta_path in
      ret (find_appended w name finders)
  end.

(** Lines 146-168 of importlib/__init__.py, the part of [reload(module)]
    before anything is executed: ImportError when [sys.modules] no longer
    binds the module's name to this very object or the parent package of
    a dotted name is not in [sys.modules], AttributeError when that parent
    has no [__path__], ModuleNotFoundError when no finder knows the name.
    The result is the file of the spec found by name, which need not be
    the file the module was made from. *)
Definition reload_spec (w : World) (m : Module) : M Path :=
  let* sm := gets sys_modules in
  if decide (sm !! mod_name m = Some m) then
    let* parent := reload_parent w (mod_name m) in
    let* spec := _find_spec w (mod_name m) parent in
    match spec with
    | Some file => ret file
    | None => raise ModuleNotFoundError
    end
  else raise ImportError.

(** [importlib.reload(module)], library code: TypeError on None; otherwise
    [_bootstrap._exec(spec, module)] gives the module object the
    attributes of the spec found and executes the file of that spec in
    it, and [sys.modules[name]] is returned. *)
Definition reload (w : World) (module : option Module) : M (option Module) :=
  match module with
  | None => raise TypeError
  | Some m =>
      let* file := reload_spec w m in
      exec_module w (mkModule (mod_id m) (mod_name m) file) ;;
      let* sm' := gets sys_modules in
      match sm' !! mod_name m with
      | Some m' => ret (Some m')
      | None => raise KeyError
      end
  end.

(** [l.remove(x)]: drops the first element equal to [x]; ValueError when
    there is none. *)
Fixpoint list_remove (x : Registration) (l : list Registration)
    : option (list Registration) :=
  match l with
  | [] => None
  | y :: l' =>
      if decide (y = x) then Some l'
      else match list_remove x l' with
           | Some r => Some (y :: r)
           | None => None
           end
  end.

Definition components_remove (x : Registration) : M unit :=
  let* l := gets components in
  match list_remove x l with
  | Some l' => modify (set_components (fun _ => l'))
  | None => raise ValueError
  end.

(** The methods that can sit in a [watch_callbacks] dict. *)
Inductive Callback :=
| watch_component_added_cb
| watch_component_modified_cb
| empty_list_callback_cb.

(** A [SloDash] object: [self.path] and [self.watch_callbacks];
    [self.modules] is the [modules] field of the state. *)
Record SloDash := mkSloDash {
  dash_path : Path;
  watch_callbacks : list (list (string * Callback))
}.

(** [self.watch_callbacks] as [__init__] builds it, lines 146-152. *)
Definition init_callbacks : list (list (string * Callback)) :=
  [[("added", watch_component_added_cb);
    ("modified", watch_component_modified_cb);
    ("removed", watch_component_modified_cb)]].

(** The [SloDash] object whose [self.path] is [path]. *)
Definition dash (path : Path) : SloDash := mkSloDash path init_callbacks.

(** [SloDash.__init__], lines 139-154. *)
Definition SloDash_init (modules0 : gmap Key (option Module)) (path : Path)
    : M SloDash :=
  modify (set_modules (fun _ => modules0)) ;;
  ret (dash path).

(** [(self.path / 'components').resolve() in path.parents] *)
Definition in_components (w : World) (self : SloDash) (path : Path) : bool :=
  bool_decide (elem_of (resolve w (joinpath (dash_path self) "components"))
                       (parents path)).

(** [watch_component_added], lines 162-166. *)
Definition watch_component_added (w : World) (self : SloDash) (path : Path)
    : M (list string) :=
  if in_components w self path then
    let* l := gets components in
    ret (List.map uri
           (List.filter (fun c => bool_decide (source_path c = path)) l))
  else ret [].

(** [str(component["source_path"].resolve()) == str(path.resolve())] *)
Definition same_source (w : World) (path : Path) (c : Registration) : bool :=
  String.eqb (str (resolve w (source_path c))) (str (resolve w path)).

(** The loop of [watch_component_modified] over the copy of the registry. *)
Fixpoint purge_loop (w : World) (path : Path) (copy : list Registration)
    (routes : list string) : M (list string) :=
  match copy with
  | [] => ret routes
  | c :: rest =>
      if same_source w path c then
        components_remove c ;;
        purge_loop w path rest (routes ++ [uri c])
      else purge_loop w path rest routes
  end.

(** [watch_component_modified], lines 168-176. *)
Definition watch_component_modified (w : World) (self : SloDash) (path : Path)
    : M (list string) :=
  if in_components w self path then
    let* copy := gets components in
    purge_loop w path copy []
  else ret [].

(** [empty_list_callback], lines 178-180. *)
Definition empty_list_callback : M (list string) := ret [].

Definition call (w : World) (self : SloDash) (cb : Callback) (path : Path)
    : M (list string) :=
  match cb with
  | watch_component_added_cb => watch_component_added w self path
  | watch_component_modified_cb => watch_component_modified w self path
  | empty_list_callback_cb => empty_list_callback
  end.

(** [d.get(key, default)] on a dict written as its item list. *)
Fixpoint dict_get {V} (d : list (string * V)) (key : string) (default : V) : V :=
  match d with
  | [] => default
  | (k, v) :: d' => if String.eqb k key then v else dict_get d' key default
  end.

(** [for callback in self.watch_callbacks:
       routes.extend(await (callback.get(key, self.empty_list_callback))(path))] *)
Fixpoint run_callbacks (w : World) (self : SloDash)
    (cbs : list (list (string * Callback))) (key : string) (path : Path)
    (routes : list string) : M (list string) :=
  match cbs with
  | [] => ret routes
  | callback :: rest =>
      let* r := call w self (dict_get callback key empty_list_callback_cb) path in
      run_callbacks w self rest key path (routes ++ r)
  end.

(** Modelled from the spec: slobypy/rpc.py is not among the sources; the
    Notification Sink is "consumed as a single notification call", recorded
    here with the route list it is given. *)
Definition hot_reload_routes (routes : list string) : M unit :=
  modify (set_notified (fun l => l ++ [routes])).

(** A change reported by [awatch]: [change[0]._value_] and
    [Path(change[1])]. *)
Record Change := mkChange { kind : Z; cpath : Path }.

(** [self.modules[key]] and [del self.modules[key]] *)
Definition modules_getitem (k : Key) : M (option Module) :=
  let* d := gets modules in
  match d !! k with
  | Some v => ret v
  | None => raise KeyError
  end.

Definition modules_delitem (k : Key) : M unit :=
  let* d := gets modules in
  match d !! k with
  | Some _ => modify (set_modules (delete k))
  | None => raise KeyError
  end.

(** Lines 189-205: the three branches, which leave the list [routes]. *)
Definition change_routes (w : World) (self : SloDash) (change : Change)
    : M (list string) :=
  let path := cpath change in
  if (kind change =? 1)%Z then                                   (* Added *)
    let* module := import_file w path in
    modify (set_modules <[KPath (resolve w path) := module]>) ;;
    run_callbacks w self (watch_callbacks self) "added" path []
  else if (kind change =? 2)%Z then                              (* Modified *)
    let* routes :=
      run_callbacks w self (watch_callbacks self) "modified" path [] in
    let* module := modules_getitem (KPath (resolve w path)) in
    let* module' := reload w module in
    modify (set_modules <[KPath (resolve w path) := module']>) ;;
    ret routes
  else                                                           (* Deleted *)
    let* routes :=
      run_callbacks w self (watch_callbacks self) "deleted" path [] in
    modules_delitem (KPath (resolve w path)) ;;
    ret routes.

(** The body of the inner loop of [watch_root], lines 186-207. *)
Definition handle_change (w : World) (self : SloDash) (change : Change)
    : M unit :=
  if String.eqb (suffix (cpath change)) ".py" then
    let* routes := change_routes w self change in
    hot_reload_routes routes
  else ret tt.

(** [for change in changes: ...] *)
Fixpoint watch_batch (w : World) (self : SloDash) (changes : list Change)
    : M unit :=
  match changes with
  | [] => ret tt
  | change :: rest => handle_change w self change ;; watch_batch w self rest
  end.

(** [watch_root], lines 182-207: [async for changes in awatch(..)], over
    the batches the watcher yields before it is cancelled, each with the
    world as it is when the batch is handled. *)
Fixpoint watch_root (self : SloDash) (batches : list (World * list Change))
    : M unit :=
  match batches with
  | [] => ret tt
  | (w, changes) :: rest => watch_batch w self changes ;; watch_root self rest
  end.

(** The parsed sloby.config.json, as far as [run] reads it: a dict that
    has the keys "main" and "components", whose values are given already
    wrapped in [Path(..)]; a non-empty [config["preprocessor"]], wrapped in
    the same way; and [config["runtime_tasks"]], None when the dict has no
    such key. *)
Record Config := mkConfig {
  cfg_main : Path;
  cfg_components : Path;
  cfg_preprocessor : option Path;
  cfg_runtime_tasks : option (list string)
}.

(** [{component.resolve(): import_file(component) for component in component_paths}] *)
Fixpoint import_components (w : World) (component_paths : list Path)
    (d : gmap Key (option Module)) : M (gmap Key (option Module)) :=
  match component_paths with
  | [] => ret d
  | c :: rest =>
      let* module := import_file w c in
      import_components w rest (<[KPath (resolve w c) := module]> d)
  end.

(** [run], lines 65-103, up to the construction of the [SloDash] object. *)
Definition run (w : World) (config_path : Path) (config : Config) : M SloDash :=
  let path := cfg_main config in
  (match cfg_runtime_tasks config with                        (* line 84 *)
   | Some _ => ret tt
   | None => raise KeyError
   end) ;;
  (match cfg_preprocessor config with
   | Some p => import_file w p
   | None => ret None
   end) ;;
  let* main := import_file w path in
  let modules0 : gmap Key (option Module) := {[ KResolveMethod path := main ]} in
  let* entries :=
    match iterdir w (cfg_components config) with
    | Some l => ret l
    | None => raise (iterdir_error w (cfg_components config))
    end in
  let component_paths :=
    List.filter (fun c => String.eqb (suffix c) ".py") entries in
  let* loaded := import_components w component_paths ∅ in
  SloDash_init (loaded ∪ modules0) (parent config_path).

(** ** react/tools.py *)

Module Tools.

(** The result of [urllib.parse.urlparse]. *)
Record ParseResult := mkParseResult {
  scheme : string; netloc : string; path : string;
  params : string; query : string; fragment : string
}.

(** The two kinds of object that meet in [scheme is not True]. *)
Inductive PyObj := PyStr (s : string) | PyBool (b : bool).

(** [o is not True] *)
Definition is_not_True (o : PyObj) : bool :=
  match o with
  | PyBool true => false
  | _ => true
  end.

(** Truth value of a str. *)
Definition truthy (s : string) : bool := negb (String.eqb s "").

Section UriChecker.

(** [urlparse] is library code; it returns a parse or raises. *)
Variable urlparse : string -> Result ParseResult.

(** [uri_checker], lines 22-40. *)
Definition uri_checker (uri : string) : Result string :=
  if negb (truthy uri) then Ok ""
  else
    match urlparse uri with
    | Raise e => Raise e
    | Ok slobypy_result =>
        if truthy (path slobypy_result)
           && is_not_True (PyStr (scheme slobypy_result))
        then Ok uri
        else Raise URIError
    end.

End UriChecker.

(** *** [urllib.parse.urlparse], library code

    The part of [urlsplit] and [urlparse] that works on the characters of
    the URL.  The two checks that call into ipaddress, re and unicodedata
    are parameters: they are consulted only for a netloc that holds both
    brackets, or a character that is not ASCII. *)

(** [s.find(c)] and [s.rfind(c)] *)
Fixpoint find_char (c : ascii) (s : string) : option nat :=
  match s with
  | EmptyString => None
  | String a s' =>
      if Ascii.eqb a c then Some 0
      else match find_char c s' with
           | Some i => Some (S i)
           | None => None
           end
  end.

Fixpoint rfind_char (c : ascii) (s : string) : option nat :=
  match s with
  | EmptyString => None
  | String a s' =>
      match rfind_char c s' with
      | Some i => Some (S i)
      | None => if Ascii.eqb a c then Some 0 else None
      end
  end.

(** [c in s] *)
Definition contains (c : ascii) (s : string) : bool :=
  match find_char c s with Some _ => true | None => false end.

(** [s[:i]] and [s[i:]] *)
Definition take (i : nat) (s : string) : string := String.substring 0 i s.

Definition drop (i : nat) (s : string) : string :=
  String.substring i (String.length s - i) s.

(** [s.split(c, 1)] when [c] is in [s]. *)
Definition split_at (c : ascii) (s : string) : option (string * string) :=
  match find_char c s with
  | Some i => Some (take i s, drop (S i) s)
  | None => None
  end.

(** [url.lstrip(_WHATWG_C0_CONTROL_OR_SPACE)] *)
Fixpoint lstrip_c0 (s : string) : string :=
  match s with
  | EmptyString => EmptyString
  | String c s' => if nat_of_ascii c <=? 32 then lstrip_c0 s' else s
  end.

(** The tab, the line feed and the carriage return are removed. *)
Fixpoint remove_unsafe (s : string) : string :=
  match s with
  | EmptyString => EmptyString
  | String c s' =>
      let n := nat_of_ascii c in
      if (n =? 9) || (n =? 10) || (n =? 13) then remove_unsafe s'
      else String c (remove_unsafe s')
  end.

Definition is_upper (c : ascii) : bool :=
  (65 <=? nat_of_ascii c) && (nat_of_ascii c <=? 90).

Definition is_lower (c : ascii) : bool :=
  (97 <=? nat_of_ascii c) && (nat_of_ascii c <=? 122).

Definition is_digit (c : ascii) : bool :=
  (48 <=? nat_of_ascii c) && (nat_of_ascii c <=? 57).

(** [c.isascii() and c.isalpha()] *)
Definition is_ascii_alpha (c : ascii) : bool := is_upper c || is_lower c.

(** [c in scheme_chars] *)
Definition scheme_char (c : ascii) : bool :=
  is_ascii_alpha c || is_digit c
  || Ascii.eqb c "+"%char || Ascii.eqb c "-"%char || Ascii.eqb c "."%char.

Fixpoint all_chars (f : ascii -> bool) (s : string) : bool :=
  match s with
  | EmptyString => true
  | String c s' => f c && all_chars f s'
  end.

(** [s.lower()] on ASCII text. *)
Fixpoint lower (s : string) : string :=
  match s with
  | EmptyString => EmptyString
  | String c s' =>
      String (if is_upper c then ascii_of_nat (nat_of_ascii c + 32) else c)
             (lower s')
  end.

(** [s.isascii()] *)
Definition isascii (s : string) : bool :=
  all_chars (fun c => nat_of_ascii c <? 128) s.

Definition uses_params : list string :=
  [""; "ftp"; "hdl"; "prospero"; "http"; "imap"; "https"; "shttp"; "rtsp";
   "rtspu"; "sip"; "sips"; "mms"; "sftp"; "tel"].

(** Lines 503-509 of urllib/parse.py: the scheme, when the text before the
    first colon starts with a letter and holds scheme characters only. *)
Definition split_scheme (url : string) : string * string :=
  match url, find_char ":"%char url with
  | String c _, Some (S i) =>
      if is_ascii_alpha c && all_chars scheme_char (take (S i) url)
      then (lower (take (S i) url), drop (S (S i)) url)
      else ("", url)
  | _, _ => ("", url)
  end.

(** [_splitnetloc(url, 2)]: the netloc runs to the first of / ? #. *)
Definition _splitnetloc (url : string) : string * string :=
  let rest := drop 2 url in
  let delim :=
    List.fold_right
      (fun c d => match find_char c rest with
                  | Some i => Nat.min i d
                  | None => d
                  end)
      (String.length rest) ["/"%char; "?"%char; "#"%char] in
  (take delim rest, drop delim rest).

(** [_splitparams(url)], for a [url] that holds a semicolon. *)
Definition _splitparams (url : string) : string * string :=
  match rfind_char "/"%char url with
  | Some j =>
      match find_char ";"%char (drop j url) with
      | Some i => (take (j + i) url, drop (S (j + i)) url)
      | None => (url, "")
      end
  | None =>
      match find_char ";"%char url with
      | Some i => (take i url, drop (S i) url)
      | None => (url, "")
      end
  end.

Section Urlparse.

(** [_check_bracketed_netloc] and [_checknetloc]: the ValueError they
    raise, if they do. *)
Variable check_bracketed_netloc : string -> option Exn.
Variable checknetloc : string -> option Exn.

(** [urlsplit(url)], lines 470-523. *)
Definition urlsplit (url : string)
    : Result (string * string * string * string * string) :=
  let url := remove_unsafe (lstrip_c0 url) in
  let (scheme, url) := split_scheme url in
  let '(netloc, url, invalid) :=
    if String.prefix "//" url then
      let (netloc, url) := _splitnetloc url in
      let opens := contains "["%char netloc in
      let closes := contains "]"%char netloc in
      (netloc, url,
       if (opens && negb closes) || (closes && negb opens) then Some ValueError
       else if opens && closes then check_bracketed_netloc netloc
       else None)
    else ("", url, None) in
  match invalid with
  | Some e => Raise e
  | None =>
      let (url, fragment) :=
        match split_at "#"%char url with
        | Some (u, f) => (u, f)
        | None => (url, "")
        end in
      let (url, query) :=
        match split_at "?"%char url with
        | Some (u, q) => (u, q)
        | None => (url, "")
        end in
      match (if String.eqb netloc "" || isascii netloc then None
             else checknetloc netloc) with
      | Some e => Raise e
      | None => Ok (scheme, netloc, url, query, fragment)
      end
  end.

(** [urlparse(url)], lines 374-402. *)
Definition urlparse (url : string) : Result ParseResult :=
  match urlsplit url with
  | Raise e => Raise e
  | Ok (scheme, netloc, url, query, fragment) =>
      let (url, params) :=
        if existsb (String.eqb scheme) uses_params && contains ";"%char url
        then _splitparams url else (url, "") in
      Ok (mkParseResult scheme netloc url params query fragment)
  end.

End Urlparse.

(** [urlparse] where the two library checks accept every netloc they are
    asked about. *)
Definition urlparse_lenient : string -> Result ParseResult :=
  urlparse (fun _ => None) (fun _ => None).

End Tools.

(** ** react/tools.py: [find_component_in_app] *)

(** What [find_component_in_app] returns: a registration dict or False. *)
Inductive Found := FoundComponent (c : Registration) | PyFalse.

Section FindComponent.

(** Component instances, and [isinstance(instance, cls)] for a registered
    class handle. *)
Variable Instance : Type.
Variable isinstance : Instance -> nat -> bool.

(** The loop of [find_component_in_app], lines 45-48. *)
Fixpoint find_in (instance : Instance) (l : list Registration) : Found :=
  match l with
  | [] => PyFalse
  | c :: rest =>
      if isinstance instance (component c) then FoundComponent c
      else find_in instance rest
  end.

(** [find_component_in_app], lines 44-48: a read of [SlApp._components]. *)
Definition find_component_in_app (instance : Instance) : M Found :=
  let* l := gets components in
  ret (find_in instance l).

End FindComponent.

(** ** Files on disk: [generate] and [SloDebugHandler] *)

(** JSON values, as [json.load] builds them: a dict is its item list in
    insertion order. *)
#[warnings="-register-all"]
Inductive JSON :=
| JNull
| JBool (b : bool)
| JNum (z : Z)
| JFloat (literal : string)
| JStr (s : string)
| JList (l : list JSON)
| JDict (d : list (string * JSON)).

(** An argument of [json.dump]: a value json can encode, given as the
    JSON value that [json.load] reads back from what is written; or a value
    it cannot encode (a set, an instance of a class of one's own, a
    container that holds one). *)
Inductive PyValue := Encodable (data : JSON) | Unencodable.

Coercion Encodable : JSON >-> PyValue.

(** What a regular file holds: text written as such; the value that
    [json.dump] wrote, which [json.load] reads back; or the beginning of a
    JSON text, cut where [json.dump] met a value it cannot encode, which
    [json.load] rejects. *)
Inductive FileData := Raw (text : string) | Dumped (d : JSON) | Partial.

Inductive Node := Dir | File (data : FileData).

(** The constants of slobypy/_templates.py, which is not among the
    sources, and [json.load] on text that [json.dump] did not write
    (None: JSONDecodeError). *)
Record Env := mkEnv {
  CONFIG : string;
  MAIN_FILE : string;
  COMPONENT_FILE : string;
  SLO_DEBUG_HANDLER : string;
  json_loads : string -> option JSON
}.

(** The state the file functions work on: the directory tree, the output
    of [typer.echo], and the class attribute [SloDebugHandler.path]. *)
Record Host := mkHost {
  disk : gmap Path Node;
  typed : list string;
  handler_path : Path
}.

Definition set_disk (f : gmap Path Node -> gmap Path Node) (h : Host) : Host :=
  mkHost (f (disk h)) (typed h) (handler_path h).

Definition set_typed (f : list string -> list string) (h : Host) : Host :=
  mkHost (disk h) (f (typed h)) (handler_path h).

Definition set_handler_path (p : Path) (h : Host) : Host :=
  mkHost (disk h) (typed h) p.

(** The OSError subclasses and the other classes met here. *)
Definition FileExistsError : Exn := OtherException "FileExistsError".
Definition NotADirectoryError : Exn := OtherException "NotADirectoryError".
Definition IsADirectoryError : Exn := OtherException "IsADirectoryError".
Definition JSONDecodeError : Exn := OtherException "JSONDecodeError".
Definition IndexError : Exn := OtherException "IndexError".

(** Computations over [Host], with exceptions. *)
Definition HM (A : Type) : Type := Host -> Result A * Host.

Definition hret {A} (a : A) : HM A := fun h => (Ok a, h).

Definition hraise {A} (e : Exn) : HM A := fun h => (Raise e, h).

Definition hbind {A B} (c : HM A) (k : A -> HM B) : HM B :=
  fun h => match c h with
           | (Ok a, h') => k a h'
           | (Raise e, h') => (Raise e, h')
           end.

Definition hgets {A} (f : Host -> A) : HM A := fun h => (Ok (f h), h).

Definition hmodify (f : Host -> Host) : HM unit := fun h => (Ok tt, f h).

Declare Scope host_scope.
Delimit Scope host_scope with host.
Notation "'let*' x := c 'in' k" := (hbind c (fun x => k))
  (at level 10, x name, c at level 100, k at level 200) : host_scope.
Notation "c ;; k" := (hbind c (fun _ => k))
  (at level 100, k at level 200, right associativity) : host_scope.

(** The node at a path; the root and the working directory [Path()] are
    directories that are always there. *)
Definition node_at (d : gmap Path Node) (p : Path) : option Node :=
  match parts p with
  | [] => Some Dir
  | _ => d !! p
  end.

(** [p.is_file()], [p.exists()], [p.is_dir()] *)
Definition is_file (d : gmap Path Node) (p : Path) : bool :=
  match node_at d p with Some (File _) => true | _ => false end.

Definition exists_ (d : gmap Path Node) (p : Path) : bool :=
  match node_at d p with Some _ => true | None => false end.

Definition is_dir (d : gmap Path Node) (p : Path) : bool :=
  match node_at d p with Some Dir => true | _ => false end.

(** [q] is an entry of the directory [p]. *)
Definition child_of (p q : Path) : bool :=
  bool_decide (parent q = p) && negb (bool_decide (parts q = [])).

(** [any(p.iterdir())] for a directory [p]. *)
Definition any_iterdir (d : gmap Path Node) (p : Path) : bool :=
  existsb (fun kv => child_of p (fst kv)) (map_to_list d).

(** [os.mkdir(p)] *)
Definition os_mkdir (p : Path) : HM unit :=
  fun h =>
    match node_at (disk h) p with
    | Some _ => (Raise FileExistsError, h)
    | None =>
        match node_at (disk h) (parent p) with
        | None => (Raise FileNotFoundError, h)
        | Some (File _) => (Raise NotADirectoryError, h)
        | Some Dir => (Ok tt, set_disk <[p := Dir]> h)
        end
    end.

(** [p.mkdir(parents=False, exist_ok=True)]: FileNotFoundError is raised
    again, any other OSError is dropped when [p] is a directory. *)
Definition mkdir_exist_ok (p : Path) : HM unit :=
  fun h =>
    match os_mkdir p h with
    | (Raise e, h1) =>
        if decide (e = FileNotFoundError) then (Raise e, h1)
        else if is_dir (disk h1) p then (Ok tt, h1) else (Raise e, h1)
    | r => r
    end.

(** [p.mkdir(parents=True, exist_ok=True)] for the path with the parts
    [rev rparts]: on FileNotFoundError the parent is made in the same way,
    then [p] itself without [parents]; the recursion ends at the path
    that is its own parent. *)
Fixpoint mkdir_parents_rev (anchored : bool) (rparts : list string) : HM unit :=
  fun h =>
    let self := mkPath anchored (rev rparts) in
    match os_mkdir self h with
    | (Raise e, h1) =>
        if decide (e = FileNotFoundError) then
          match rparts with
          | [] => (Raise e, h1)
          | _ :: rparent =>
              match mkdir_parents_rev anchored rparent h1 with
              | (Ok _, h2) => mkdir_exist_ok self h2
              | r => r
              end
          end
        else if is_dir (disk h1) self then (Ok tt, h1) else (Raise e, h1)
    | r => r
    end.

Definition mkdir_parents (p : Path) : HM unit :=
  mkdir_parents_rev (is_absolute p) (rev (parts p)).

(** [with open(p, "w") as f: f.write(..)] or [json.dump(.., f)] *)
Definition write_file (p : Path) (data : FileData) : HM unit :=
  fun h =>
    match node_at (disk h) p with
    | Some Dir => (Raise IsADirectoryError, h)
    | Some (File _) => (Ok tt, set_disk <[p := File data]> h)
    | None =>
        match node_at (disk h) (parent p) with
        | None => (Raise FileNotFoundError, h)
        | Some (File _) => (Raise NotADirectoryError, h)
        | Some Dir => (Ok tt, set_disk <[p := File data]> h)
        end
    end.

(** [with open(p, "r") as f: ..] *)
Definition read_file (p : Path) : HM FileData :=
  fun h =>
    match node_at (disk h) p with
    | Some (File data) => (Ok data, h)
    | Some Dir => (Raise IsADirectoryError, h)
    | None =>
        match node_at (disk h) (parent p) with
        | Some (File _) => (Raise NotADirectoryError, h)
        | _ => (Raise FileNotFoundError, h)
        end
    end.

Definition hecho (msg : string) : HM unit :=
  hmodify (set_typed (fun l => l ++ [msg])).

Section Generate.

Local Open Scope host_scope.

Variable env : Env.

(** [generate], lines 34-61. *)
Definition generate (path : Path) (overwrite : bool) : HM unit :=
  let* d := hgets disk in
  if is_file d path then
    hecho "Path is a file, not a directory"
  else if exists_ d path && negb overwrite && any_iterdir d path then
    hecho "Path is not empty"
  else
    mkdir_parents path ;;
    mkdir_parents (joinpath path "components") ;;
    mkdir_parents (joinpath path "scss") ;;
    write_file (joinpath path "sloby.config.json") (Raw (CONFIG env)) ;;
    write_file (joinpath path "app.py") (Raw (MAIN_FILE env)) ;;
    write_file (joinpath (joinpath path "components") "example_component.py")
               (Raw (COMPONENT_FILE env)).

End Generate.

(** ** react/tools.py: [SloDebugHandler] *)

(** A subscript: a str or an int. *)
Inductive PyKey := KStr (s : string) | KInt (i : Z).

(** The position a list index stands for, None when out of range. *)
Definition list_position {A} (l : list A) (i : Z) : option nat :=
  let n := Z.of_nat (length l) in
  if (0 <=? i)%Z && (i <? n)%Z then Some (Z.to_nat i)
  else if (- n <=? i)%Z && (i <? 0)%Z then Some (Z.to_nat (n + i))
  else None.

(** A dict as its item list: lookup, assignment to a key, deletion. *)
Fixpoint items_get {V} (d : list (string * V)) (k : string) : option V :=
  match d with
  | [] => None
  | (k', v) :: d' => if String.eqb k' k then Some v else items_get d' k
  end.

Fixpoint items_set {V} (d : list (string * V)) (k : string) (v : V)
    : list (string * V) :=
  match d with
  | [] => [(k, v)]
  | (k', v') :: d' =>
      if String.eqb k' k then (k', v) :: d' else (k', v') :: items_set d' k v
  end.

Definition items_del {V} (d : list (string * V)) (k : string)
    : list (string * V) :=
  List.filter (fun kv => negb (String.eqb (fst kv) k)) d.

(** [l[:n] + l[n+1:]] *)
Definition drop_nth {A} (l : list A) (n : nat) : list A :=
  firstn n l ++ skipn (S n) l.

(** The list [l] once [l[n]] has been changed in place into [v]. *)
Definition put_nth {A} (l : list A) (n : nat) (v : A) : list A :=
  firstn n l ++ v :: skipn (S n) l.

(** [data[key]] on a loaded value. *)
Definition json_getitem (data : JSON) (key : PyKey) : Result JSON :=
  match data, key with
  | JDict d, KStr k =>
      match items_get d k with Some v => Ok v | None => Raise KeyError end
  | JDict _, KInt _ => Raise KeyError
  | JList l, KInt i =>
      match list_position l i with
      | Some n => match nth_error l n with
                  | Some v => Ok v
                  | None => Raise IndexError
                  end
      | None => Raise IndexError
      end
  | JList _, KStr _ => Raise TypeError
  | JStr s, KInt i =>
      match list_position (String.list_ascii_of_string s) i with
      | Some n => Ok (JStr (String.substring n 1 s))
      | None => Raise IndexError
      end
  | _, _ => Raise TypeError
  end.

(** The container [data] once the value under [key], which is there, has
    been changed in place into [v]. *)
Definition json_replace (data : JSON) (key : PyKey) (v : JSON) : JSON :=
  match data, key with
  | JDict d, KStr k => JDict (items_set d k v)
  | JList l, KInt i =>
      match list_position l i with
      | Some n => JList (put_nth l n v)
      | None => data
      end
  | _, _ => data
  end.

(** [x.append(item)] *)
Definition json_append (x : JSON) (item : JSON) : Result JSON :=
  match x with
  | JList l => Ok (JList (l ++ [item]))
  | _ => Raise AttributeError
  end.

(** [del x[key]] *)
Definition json_delitem (x : JSON) (key : PyKey) : Result JSON :=
  match x, key with
  | JDict d, KStr k =>
      match items_get d k with
      | Some _ => Ok (JDict (items_del d k))
      | None => Raise KeyError
      end
  | JDict _, KInt _ => Raise KeyError
  | JList l, KInt i =>
      match list_position l i with
      | Some n => Ok (JList (drop_nth l n))
      | None => Raise IndexError
      end
  | _, _ => Raise TypeError
  end.

Definition lift {A} (r : Result A) : HM A := fun h => (r, h).

Section SloDebugHandler.

Local Open Scope host_scope.

Variable env : Env.

(** [SloDebugHandler._create_file], lines 64-67. *)
Definition _create_file (name : Path) : HM unit :=
  write_file name (Raw (SLO_DEBUG_HANDLER env)).

(** [SloDebugHandler.analyse], lines 55-62. *)
Definition analyse : HM bool :=
  let* path := hgets handler_path in
  let* d := hgets disk in
  if exists_ d path then hret true
  else _create_file path ;; hret false.

(** [SloDebugHandler.set_path], lines 69-71. *)
Definition set_path (path : Path) : HM unit :=
  hmodify (set_handler_path path).

(** [SloDebugHandler._load], lines 89-93. *)
Definition _load : HM JSON :=
  let* path := hgets handler_path in
  let* content := read_file path in
  match content with
  | Dumped data => hret data
  | Raw text =>
      match json_loads env text with
      | Some data => hret data
      | None => hraise JSONDecodeError
      end
  | Partial => hraise JSONDecodeError
  end.

(** [SloDebugHandler._dump], lines 95-98: [open(path, "w")] empties the
    file before [json.dump] encodes anything, and [json.dump] writes piece
    by piece, so a value it cannot encode leaves the pieces before it in
    the file and raises TypeError. *)
Definition _dump (data : PyValue) : HM unit :=
  let* path := hgets handler_path in
  match data with
  | Encodable d => write_file path (Dumped d)
  | Unencodable => write_file path Partial ;; hraise TypeError
  end.

(** [SloDebugHandler.add_json], lines 73-79.  A list takes any item; once
    it holds one that json cannot encode, neither can the whole value be
    encoded. *)
Definition add_json (key : PyKey) (add_item : PyValue) : HM unit :=
  let* json_data := _load in
  let* target := lift (json_getitem json_data key) in
  match add_item with
  | Encodable item =>
      let* target' := lift (json_append target item) in
      _dump (json_replace json_data key target')
  | Unencodable =>
      match target with
      | JList _ => _dump Unencodable
      | _ => hraise AttributeError
      end
  end.

(** [SloDebugHandler.delete_json], lines 81-87. *)
Definition delete_json (base_key sub_key : PyKey) : HM unit :=
  let* json_data := _load in
  let* target := lift (json_getitem json_data base_key) in
  let* target' := lift (json_delitem target sub_key) in
  _dump (json_replace json_data base_key target').

End SloDebugHandler.

(** ** Vocabulary for the file functions *)

(** A loaded value other than a str: a container that [data[key] = v]
    changes in place, when it is subscriptable at all. *)
Definition not_str (data : JSON) : Prop :=
  match data with JStr _ => False | _ => True end.

(** [q] is [p] or one of its logical ancestors. *)
Definition path_prefix (q p : Path) : Prop :=
  is_absolute q = is_absolute p /\ parts q `prefix_of` parts p.

#[global] Instance path_prefix_dec q p : Decision (path_prefix q p).
Proof. unfold path_prefix. apply _. Defined.

(** A directory tree: every entry sits in a directory. *)
Definition wf_disk (d : gmap Path Node) : Prop :=
  forall q node, d !! q = Some node -> node_at d (parent q) = Some Dir.

(** The three files [generate] writes under [path]. *)
Definition config_file (path : Path) : Path := joinpath path "sloby.config.json".
Definition main_file (path : Path) : Path := joinpath path "app.py".
Definition component_file (path : Path) : Path :=
  joinpath (joinpath path "components") "example_component.py".

(** The tree a completed [generate] leaves, node by node, from the tree
    [d] it found: the three files with the templates, directories at
    [path], at everything above it, at components and at scss, and every
    other node as in [d]. *)
Definition generated (env : Env) (path : Path) (d : gmap Path Node) (q : Path)
    : option Node :=
  if decide (q = component_file path) then Some (File (Raw (COMPONENT_FILE env)))
  else if decide (q = main_file path) then Some (File (Raw (MAIN_FILE env)))
  else if decide (q = config_file path) then Some (File (Raw (CONFIG env)))
  else if decide (path_prefix q (joinpath path "scss")) then Some Dir
  else if decide (path_prefix q (joinpath path "components")) then Some Dir
  else if decide (path_prefix q path) then Some Dir
  else node_at d q.

(** A project directory /proj that holds the debug file. *)
Module HostScenario.

Definition env : Env :=
  mkEnv "config" "main" "component" "{}"
        (fun text => if String.eqb text "{}" then Some (JDict []) else None).

Definition proj : Path := mkPath true ["proj"].
Definition debug_file : Path := mkPath true ["proj"; "debug.json"].

(** /proj with the debug file holding [data]. *)
Definition host (data : FileData) : Host :=
  mkHost (<[debug_file := File data]> (<[proj := Dir]> ∅)) [] debug_file.

(** An empty disk, [SloDebugHandler.path] at its default [Path()]. *)
Definition fresh : Host := mkHost ∅ [] (mkPath false []).

End HostScenario.

(** * Vocabulary of the statements *)

(** The registrations of the file at [path], by the test of
    [watch_component_modified], and the others. *)
Definition stale (w : World) (path : Path) (l : list Registration)
    : list Registration :=
  List.filter (same_source w path) l.

Definition kept (w : World) (path : Path) (l : list Registration)
    : list Registration :=
  List.filter (fun c => negb (same_source w path c)) l.

(** The URIs [watch_component_added] answers with. *)
Definition added_routes (w : World) (root path : Path) (l : list Registration)
    : list string :=
  if in_components w (dash root) path then
    List.map uri (List.filter (fun c => bool_decide (source_path c = path)) l)
  else [].

(** A computation is quiet when it makes no call on the sink, whether it
    returns or raises. *)
Definition quiet {A} (c : M A) : Prop :=
  forall s, notified (snd (c s)) = notified s.

(** The filter of the loop body: [path.suffix == ".py"]. *)
Definition is_source (c : Change) : bool := String.eqb (suffix (cpath c)) ".py".

(** The calls a batch owes the sink, event by event, from the state [s] in
    which the batch starts: none for an event with another suffix; for a
    source-suffix event whose branch returns, the route list it computed in
    the state the event found, then the calls of the events behind it; when
    the branch raises, none for it and none behind it. *)
Inductive batch_calls (w : World) (self : SloDash)
  : State -> list Change -> list (list string) -> Result unit -> Prop :=
| calls_end s :
    batch_calls w self s [] [] (Ok tt)
| calls_skip s c cs calls r :
    is_source c = false ->
    batch_calls w self s cs calls r ->
    batch_calls w self s (c :: cs) calls r
| calls_notify s c cs routes s1 calls r :
    is_source c = true ->
    change_routes w self c s = (Ok routes, s1) ->
    batch_calls w self (exec_state (hot_reload_routes routes) s1) cs calls r ->
    batch_calls w self s (c :: cs) (routes :: calls) r
| calls_abort s c cs e s1 :
    is_source c = true ->
    change_routes w self c s = (Raise e, s1) ->
    batch_calls w self s (c :: cs) [] (Raise e).

(** The exception a load of [file] ends with, if any: AttributeError when
    no loader is known for it, else what its top-level code raises. *)
Definition load_error (w : World) (file : Path) : option Exn :=
  if loader_for w file then
    match exec_source w file with
    | Ran _ => None
    | Failed e _ => Some e
    end
  else Some AttributeError.


(** ** A concrete project

    [sloby.config.json] in the working directory /proj names the main file
    app.py and the directory components, which holds widget.py.  Paths
    are resolved lexically against /proj. *)

Module Scenario.

Definition config_path : Path := mkPath false ["sloby.config.json"].

Definition config : Config :=
  mkConfig (mkPath false ["app.py"]) (mkPath false ["components"]) None
           (Some []).

Definition root : Path := parent config_path.

Definition lexical_resolve (p : Path) : Path :=
  if is_absolute p then p else mkPath true ("proj" :: parts p).

Definition app_py : Path := mkPath true ["proj"; "app.py"].
Definition widget : Path := mkPath true ["proj"; "components"; "widget.py"].
Definition helper : Path := mkPath true ["proj"; "lib"; "helper.py"].

(** The world in which executing a file does what [exec] says.  No module
    is a package, and the finders of the interpreter know none of the
    names met here. *)
Definition world (exec : Path -> Exec) : World :=
  mkWorld lexical_resolve
          (fun p => String.eqb (suffix p) ".py")
          exec
          (fun d => if decide (d = mkPath false ["components"])
                    then Some [mkPath false ["components"; "widget.py"];
                               mkPath false ["components"; "README.md"]]
                    else None)
          (fun _ => FileNotFoundError)
          (fun _ => false)
          (fun _ _ => None).

(** [file] registers the component classes [classes], each under its
    URI; every other file registers nothing. *)
Definition registers (file : Path) (classes : list (string * nat))
    : Path -> Exec :=
  fun p => if decide (p = file)
           then Ran (List.map (fun c => mkRegistration (fst c) (snd c) file)
                              classes)
           else Ran [].

(** [file] raises [e] at its top level. *)
Definition raises (file : Path) (e : Exn) : Path -> Exec :=
  fun p => if decide (p = file) then Failed e [] else Ran [].

Definition initial : State := mkState ∅ [] ∅ [] 0 [] [].

Definition self : SloDash := dash root.

(** The state [run] leaves when widget.py registers [classes]. *)
Definition started (classes : list (string * nat)) : State :=
  exec_state (run (world (registers widget classes)) config_path config)
             initial.

Definition Added (p : Path) : Change := mkChange 1 p.
Definition Modified (p : Path) : Change := mkChange 2 p.
Definition Removed (p : Path) : Change := mkChange 3 p.

End Scenario.

(** * Properties *)

(** ** Paths *)

Example suffix_widget :
  suffix (mkPath true ["proj"; "components"; "widget.py"]) = ".py"
  /\ stem (mkPath true ["proj"; "components"; "widget.py"]) = "widget"
  /\ suffix (mkPath true ["proj"; ".py"]) = ""
  /\ suffix (mkPath true ["proj"; "notes.txt"]) = ".txt"
  /\ suffix (mkPath true ["proj"; "archive.tar.py"]) = ".py".
Proof. repeat split. Qed.

Example parents_widget :
  parents (mkPath true ["proj"; "components"; "widget.py"])
  = [mkPath true ["proj"; "components"]; mkPath true ["proj"]; mkPath true []].
Proof. reflexivity. Qed.

(** ** Stepping through the monad *)

Lemma bind_ok {A B} (c : M A) (k : A -> M B) s a s1 :
  c s = (Ok a, s1) -> bind c k s = k a s1.
Proof. unfold bind. intros ->. reflexivity. Qed.

Lemma bind_raise {A B} (c : M A) (k : A -> M B) s e s1 :
  c s = (Raise e, s1) -> bind c k s = (Raise e, s1).
Proof. unfold bind. intros ->. reflexivity. Qed.

Lemma set_components_same s l :
  components s = l -> set_components (fun _ => l) s = s.
Proof. destruct s; simpl; intros ->; reflexivity. Qed.

(** ** The purge of [watch_component_modified] *)

Section Purge.

Variables (w : World) (path : Path).



(** [remove] reaches past a prefix that holds no registration of the file. *)
Lemma list_remove_past pre c rest :
  Forall (fun c => same_source w path c = false) pre ->
  same_source w path c = true ->
  list_remove c (pre ++ c :: rest) = Some (pre ++ rest).
Proof.
  induction 1 as [|y pre Hy Hpre IH]; intros Hc; simpl.
  - destruct (decide (c = c)); [reflexivity | contradiction].
  - destruct (decide (y = c)) as [->|Hne]; [congruence|].
    rewrite (IH Hc). reflexivity.
Qed.

(** The loop over the copy never raises: it drops every registration of
    the file from the live list and collects their URIs in order. *)
Lemma purge_loop_spec copy : forall pre routes s,
  components s = pre ++ copy ->
  Forall (fun c => same_source w path c = false) pre ->
  purge_loop w path copy routes s
  = (Ok (routes ++ List.map uri (stale w path copy)),
     set_components (fun _ => pre ++ kept w path copy) s).
Proof.
  induction copy as [|c rest IH]; intros pre routes s Hs Hpre; simpl.
  - unfold ret. rewrite !app_nil_r in *.
    rewrite set_components_same by assumption. reflexivity.
  - destruct (same_source w path c) eqn:E; simpl.
    + unfold bind at 1. unfold components_remove, bind, gets.
      rewrite Hs, (list_remove_past _ _ _ Hpre E). unfold modify.
      rewrite (IH pre (routes ++ [uri c])
                  (set_components (fun _ => pre ++ rest) s));
        [|reflexivity|assumption].
      rewrite <- app_assoc. reflexivity.
    + rewrite (IH (pre ++ [c]) routes s).
      * rewrite <- app_assoc. reflexivity.
      * rewrite <- app_assoc. assumption.
      * apply Forall_app; split; [assumption|]. constructor; [assumption|constructor].
Qed.

Lemma watch_component_modified_inside root s :
  in_components w (dash root) path = true ->
  watch_component_modified w (dash root) path s
  = (Ok (List.map uri (stale w path (components s))),
     set_components (fun _ => kept w path (components s)) s).
Proof.
  intros Hin. unfold watch_component_modified. rewrite Hin.
  erewrite bind_ok; [|reflexivity].
  apply (purge_loop_spec (components s) [] [] s); [reflexivity|constructor].
Qed.

Lemma watch_component_modified_outside root s :
  in_components w (dash root) path = false ->
  watch_component_modified w (dash root) path s = (Ok [], s).
Proof.
  intros Hout. unfold watch_component_modified. rewrite Hout. reflexivity.
Qed.

End Purge.

(** ** The callback table of [__init__] under the three lookups of [watch_root] *)

Section Callbacks.

Variables (w : World) (root : Path).

Lemma run_callbacks_added path s :
  run_callbacks w (dash root) init_callbacks "added" path [] s
  = (Ok (added_routes w root path (components s)), s).
Proof.
  unfold added_routes. cbn. unfold watch_component_added, bind, gets, ret.
  destruct (in_components w (dash root) path); reflexivity.
Qed.

Lemma run_callbacks_modified path s :
  run_callbacks w (dash root) init_callbacks "modified" path [] s
  = if in_components w (dash root) path then
      (Ok (List.map uri (stale w path (components s))),
       set_components (fun _ => kept w path (components s)) s)
    else (Ok [], s).
Proof.
  cbn [init_callbacks run_callbacks dict_get String.eqb Ascii.eqb Bool.eqb call].
  destruct (in_components w (dash root) path) eqn:Hin.
  - erewrite bind_ok; [|apply watch_component_modified_inside; exact Hin].
    reflexivity.
  - erewrite bind_ok; [|apply watch_component_modified_outside; exact Hin].
    reflexivity.
Qed.

(** No dict of the table has a "deleted" key: the default answers. *)
Lemma run_callbacks_deleted path s :
  run_callbacks w (dash root) init_callbacks "deleted" path [] s = (Ok [], s).
Proof. reflexivity. Qed.

End Callbacks.

(** ** What the loader leaves alone *)

Lemma import_file_frame w p s :
  modules (exec_state (import_file w p) s) = modules s
  /\ notified (exec_state (import_file w p) s) = notified s
  /\ components (exec_state (import_file w p) s)
     = components s
       ++ (if loader_for w (resolve w p)
           then registered (exec_source w (resolve w p)) else []).
Proof.
  unfold exec_state, import_file, try_except, exec_module.
  destruct (loader_for w (resolve w p)); cbn.
  - destruct (exec_source w (resolve w p)) as [regs|e regs]; cbn.
    + repeat split.
    + destruct (decide (e = AttributeError)); cbn; repeat split.
  - rewrite app_nil_r. repeat split.
Qed.

(** The checks of [reload] only read the state. *)
Lemma reload_parent_state w name s : snd (reload_parent w name s) = s.
Proof.
  unfold reload_parent. destruct (String.eqb (parent_name name) "");
    [reflexivity|].
  unfold bind, gets. destruct (sys_modules s !! parent_name name) as [parent|];
    [|reflexivity].
  destruct (has_path w parent); reflexivity.
Qed.

Lemma _find_spec_state w name parent s : snd (_find_spec w name parent s) = s.
Proof.
  unfold _find_spec. destruct (sys_find_spec w name parent); reflexivity.
Qed.

Lemma reload_spec_state w m s : snd (reload_spec w m s) = s.
Proof.
  unfold reload_spec, bind, gets.
  destruct (decide (sys_modules s !! mod_name m = Some m)) as [Hb|Hb];
    [|reflexivity].
  pose proof (reload_parent_state w (mod_name m) s) as Hp.
  destruct (reload_parent w (mod_name m) s) as [[parent|e0] s1]; simpl in Hp;
    subst s1; [|reflexivity].
  pose proof (_find_spec_state w (mod_name m) parent s) as Hf.
  destruct (_find_spec w (mod_name m) parent s) as [[spec|e'] s1]; simpl in Hf;
    subst s1; [|reflexivity].
  destruct spec; reflexivity.
Qed.

Lemma reload_spec_eq w m s :
  reload_spec w m s = (outcome (reload_spec w m) s, s).
Proof.
  unfold outcome. pose proof (reload_spec_state w m s) as H.
  destruct (reload_spec w m s) as [r s1]. simpl in *. subst s1. reflexivity.
Qed.

(** They pass only for a module that [sys.modules] binds to its name. *)
Lemma reload_spec_bound w m file s :
  outcome (reload_spec w m) s = Ok file ->
  sys_modules s !! mod_name m = Some m.
Proof.
  unfold outcome, reload_spec, bind, gets.
  destruct (decide (sys_modules s !! mod_name m = Some m)) as [E|E];
    [intros _; exact E|discriminate].
Qed.

Lemma reload_spec_unbound w m s :
  sys_modules s !! mod_name m <> Some m ->
  reload_spec w m s = (Raise ImportError, s).
Proof.
  intros H. unfold reload_spec, bind, gets.
  destruct (decide (sys_modules s !! mod_name m = Some m)); [contradiction|].
  reflexivity.
Qed.

(** A reload that is refused executes nothing. *)
Lemma reload_refused w m e s :
  outcome (reload_spec w m) s = Raise e ->
  reload w (Some m) s = (Raise e, s).
Proof.
  intros H. unfold reload. unfold bind at 1.
  rewrite reload_spec_eq, H. reflexivity.
Qed.

(** A reload that goes through: the registrations of the file found are
    appended and the same module object comes back. *)
Lemma reload_ok w m file regs s :
  outcome (reload_spec w m) s = Ok file ->
  exec_source w file = Ran regs ->
  reload w (Some m) s = (Ok (Some m), set_components (fun l => l ++ regs) s).
Proof.
  intros Hspec Hexec. pose proof (reload_spec_bound w m file s Hspec) as Hsys.
  unfold reload. unfold bind at 1. rewrite reload_spec_eq, Hspec.
  unfold bind, gets, exec_module. cbn [mod_file]. rewrite Hexec. cbn.
  rewrite Hsys. reflexivity.
Qed.

(** A reload whose source raises: the exception leaves [reload]. *)
Lemma reload_fails w m file e regs s :
  outcome (reload_spec w m) s = Ok file ->
  exec_source w file = Failed e regs ->
  reload w (Some m) s = (Raise e, set_components (fun l => l ++ regs) s).
Proof.
  intros Hspec Hexec.
  unfold reload. unfold bind at 1. rewrite reload_spec_eq, Hspec.
  unfold bind, gets, exec_module. cbn [mod_file]. rewrite Hexec. reflexivity.
Qed.

(** [reload], case by case. *)
Lemma reload_cases w m s :
  reload w (Some m) s
  = match outcome (reload_spec w m) s with
    | Raise e => (Raise e, s)
    | Ok file =>
        (match exec_source w file with
         | Ran _ => Ok (Some m)
         | Failed e _ => Raise e
         end,
         set_components (fun l => l ++ registered (exec_source w file)) s)
    end.
Proof.
  destruct (outcome (reload_spec w m) s) as [file|e] eqn:Hspec.
  - destruct (exec_source w file) as [regs|e regs] eqn:Hexec.
    + apply (reload_ok w m file regs s Hspec Hexec).
    + apply (reload_fails w m file e regs s Hspec Hexec).
  - apply reload_refused. exact Hspec.
Qed.

Lemma reload_frame w module s :
  modules (exec_state (reload w module) s) = modules s
  /\ notified (exec_state (reload w module) s) = notified s.
Proof.
  unfold exec_state. destruct module as [m|]; [|split; reflexivity].
  rewrite reload_cases.
  destruct (outcome (reload_spec w m) s); split; reflexivity.
Qed.


(** The outcome of the checks, from [sys.modules] and [sys.meta_path]. *)
Lemma reload_spec_outcome w m s :
  outcome (reload_spec w m) s
  = if decide (sys_modules s !! mod_name m = Some m) then
      match (if String.eqb (parent_name (mod_name m)) "" then Ok None
             else match sys_modules s !! parent_name (mod_name m) with
                  | None => Raise ImportError
                  | Some parent =>
                      if has_path w parent then Ok (Some parent)
                      else Raise AttributeError
                  end) with
      | Raise e => Raise e
      | Ok parent =>
          match (match sys_find_spec w (mod_name m) parent with
                 | Some file => Some file
                 | None => find_appended w (mod_name m) (meta_path s)
                 end) with
          | Some file => Ok file
          | None => Raise ModuleNotFoundError
          end
      end
    else Raise ImportError.
Proof.
  unfold outcome, reload_spec, reload_parent, _find_spec, bind, gets.
  destruct (decide (sys_modules s !! mod_name m = Some m)); [|reflexivity].
  destruct (String.eqb (parent_name (mod_name m)) "").
  - cbn. destruct (sys_find_spec w (mod_name m) None) as [file|]; cbn;
      [reflexivity|].
    destruct (find_appended w (mod_name m) (meta_path s)); reflexivity.
  - destruct (sys_modules s !! parent_name (mod_name m)) as [parent|];
      [|reflexivity].
    destruct (has_path w parent); [|reflexivity].
    cbn. destruct (sys_find_spec w (mod_name m) (Some parent)) as [file|]; cbn;
      [reflexivity|].
    destruct (find_appended w (mod_name m) (meta_path s)); reflexivity.
Qed.

(** The checks read [sys.modules] and [sys.meta_path] only. *)
Lemma reload_spec_reads w m s s' :
  sys_modules s = sys_modules s' -> meta_path s = meta_path s' ->
  outcome (reload_spec w m) s = outcome (reload_spec w m) s'.
Proof.
  intros Hsm Hmp. rewrite !reload_spec_outcome, Hsm, Hmp. reflexivity.
Qed.

Example startup_loads_the_widget :
  outcome (run (Scenario.world (Scenario.registers Scenario.widget [("/widget", 7)]))
               Scenario.config_path Scenario.config) Scenario.initial
  = Ok Scenario.self
  /\ components (Scenario.started [("/widget", 7)])
     = [mkRegistration "/widget" 7 Scenario.widget]
  /\ modules (Scenario.started [("/widget", 7)]) !! KPath Scenario.widget
     = Some (Some (mkModule 1 "widget" Scenario.widget))
  /\ in_components (Scenario.world (Scenario.registers Scenario.widget []))
                   Scenario.self Scenario.widget = true.
Proof. repeat split. Qed.

(** ** The branches of the loop body *)

Lemma handle_change_source w self k p s :
  suffix p = ".py" ->
  handle_change w self (mkChange k p) s
  = bind (change_routes w self (mkChange k p)) hot_reload_routes s.
Proof.
  intros Hpy. unfold handle_change. cbn [cpath]. rewrite Hpy. reflexivity.
Qed.

Lemma handle_change_other_suffix w self k p s :
  suffix p <> ".py" ->
  handle_change w self (mkChange k p) s = (Ok tt, s).
Proof.
  intros Hpy. unfold handle_change. cbn [cpath].
  destruct (String.eqb_spec (suffix p) ".py"); [contradiction|reflexivity].
Qed.

Lemma change_routes_added w self p :
  change_routes w self (mkChange 1 p)
  = (let* module := import_file w p in
     modify (set_modules <[KPath (resolve w p) := module]>) ;;
     run_callbacks w self (watch_callbacks self) "added" p []).
Proof. reflexivity. Qed.

Lemma change_routes_modified w self p :
  change_routes w self (mkChange 2 p)
  = (let* routes := run_callbacks w self (watch_callbacks self) "modified" p [] in
     let* module := modules_getitem (KPath (resolve w p)) in
     let* module' := reload w module in
     modify (set_modules <[KPath (resolve w p) := module']>) ;;
     ret routes).
Proof. reflexivity. Qed.

Lemma change_routes_else w self k p :
  k <> 1%Z -> k <> 2%Z ->
  change_routes w self (mkChange k p)
  = (let* routes := run_callbacks w self (watch_callbacks self) "deleted" p [] in
     modules_delitem (KPath (resolve w p)) ;;
     ret routes).
Proof.
  intros H1 H2. unfold change_routes. cbn [kind cpath].
  destruct (Z.eqb_spec k 1); [contradiction|].
  destruct (Z.eqb_spec k 2); [contradiction|]. reflexivity.
Qed.

(** ** Removed events *)

Lemma change_routes_removed_known w root p v s :
  modules s !! KPath (resolve w p) = Some v ->
  change_routes w (dash root) (mkChange 3 p) s
  = (Ok [], set_modules (delete (KPath (resolve w p))) s).
Proof.
  intros Hk. rewrite change_routes_else by discriminate.
  change (watch_callbacks (dash root)) with init_callbacks.
  erewrite bind_ok; [|apply run_callbacks_deleted].
  unfold modules_delitem, bind, gets. rewrite Hk. reflexivity.
Qed.

Lemma change_routes_else_unknown w root k p s :
  k <> 1%Z -> k <> 2%Z ->
  modules s !! KPath (resolve w p) = None ->
  change_routes w (dash root) (mkChange k p) s = (Raise KeyError, s).
Proof.
  intros H1 H2 Hk. rewrite change_routes_else by assumption.
  change (watch_callbacks (dash root)) with init_callbacks.
  erewrite bind_ok; [|apply run_callbacks_deleted].
  unfold modules_delitem, bind, gets. rewrite Hk. reflexivity.
Qed.

Lemma handle_removed_known w root p v s :
  suffix p = ".py" ->
  modules s !! KPath (resolve w p) = Some v ->
  handle_change w (dash root) (mkChange 3 p) s
  = (Ok tt, set_notified (fun l => l ++ [[]])
              (set_modules (delete (KPath (resolve w p))) s)).
Proof.
  intros Hpy Hk. rewrite handle_change_source by assumption.
  erewrite bind_ok; [|apply (change_routes_removed_known w root p v); exact Hk].
  reflexivity.
Qed.

(** C1 (code at the failing input).  The scenario of the spec: widget.py
    registers /widget at startup, is edited to register /widget2, then
    deleted.  The Removed event deletes the module record, but the callback
    table is asked for the key "deleted" while [__init__] files the purge
    under "removed": the notification is empty and /widget2 stays in the
    registry. *)
Theorem removed_event_keeps_registrations :
  let edited := Scenario.world (Scenario.registers Scenario.widget [("/widget2", 8)]) in
  let gone := Scenario.world (Scenario.raises Scenario.widget FileNotFoundError) in
  let s := exec_state
             (watch_root Scenario.self
                [(edited, [Scenario.Modified Scenario.widget]);
                 (gone, [Scenario.Removed Scenario.widget])])
             (Scenario.started [("/widget", 7)]) in
  notified s = [["/widget"]; []]
  /\ components s = [mkRegistration "/widget2" 8 Scenario.widget]
  /\ same_source gone Scenario.widget
       (mkRegistration "/widget2" 8 Scenario.widget) = true
  /\ modules s !! KPath Scenario.widget = None.
Proof. repeat split. Qed.

(** ** Kinds other than 1 and 2 *)

(** C2 (counterexample).  A change of kind 4 on the loaded widget.py is not
    handled as a Modified one: it deletes the module record and notifies an
    empty list, where the Modified event purges /widget, reloads the module
    and notifies ["/widget"]. *)
Lemma unknown_kind_not_handled_as_modified :
  let w := Scenario.world (Scenario.registers Scenario.widget [("/widget2", 8)]) in
  let s := Scenario.started [("/widget", 7)] in
  let unknown := handle_change w Scenario.self (mkChange 4 Scenario.widget) s in
  let modified := handle_change w Scenario.self (mkChange 2 Scenario.widget) s in
  unknown <> modified
  /\ notified (snd unknown) = [[]]
  /\ notified (snd modified) = [["/widget"]]
  /\ modules (snd unknown) !! KPath Scenario.widget = None
  /\ modules (snd modified) !! KPath Scenario.widget
     = Some (Some (mkModule 1 "widget" Scenario.widget))
  /\ components (snd unknown) = [mkRegistration "/widget" 7 Scenario.widget]
  /\ components (snd modified) = [mkRegistration "/widget2" 8 Scenario.widget].
Proof.
  cbv zeta. split; [|repeat split].
  intros H. apply (f_equal (fun r => notified (snd r))) in H.
  vm_compute in H. discriminate H.
Qed.

(** C2 (amended).  A change on a source-suffix path whose kind is neither 1
    (Added) nor 2 (Modified) takes the last branch of the loop body, exactly
    as a Removed change (kind 3) on the same path does: with a module record
    for the path the record is deleted and the event completes, without one
    the deletion raises KeyError. *)
Theorem unknown_kind_handled_as_removed (w : World) (root p : Path) (k : Z) (s : State) :
  k <> 1%Z -> k <> 2%Z ->
  suffix p = ".py" ->
  handle_change w (dash root) (mkChange k p) s
  = handle_change w (dash root) (mkChange 3 p) s
  /\ match modules s !! KPath (resolve w p) with
     | Some _ =>
         outcome (handle_change w (dash root) (mkChange k p)) s = Ok tt
         /\ modules (exec_state (handle_change w (dash root) (mkChange k p)) s)
            = delete (KPath (resolve w p)) (modules s)
     | None =>
         outcome (handle_change w (dash root) (mkChange k p)) s = Raise KeyError
     end.
Proof.
  intros H1 H2 Hpy.
  assert (E : handle_change w (dash root) (mkChange k p) s
              = handle_change w (dash root) (mkChange 3 p) s).
  { rewrite !handle_change_source by assumption. unfold bind.
    rewrite (change_routes_else _ _ k) by assumption.
    rewrite (change_routes_else _ _ 3) by discriminate. reflexivity. }
  split; [exact E|].
  unfold outcome, exec_state. rewrite E.
  destruct (modules s !! KPath (resolve w p)) as [v|] eqn:Hk.
  - rewrite (handle_removed_known w root p v s Hpy Hk). split; reflexivity.
  - rewrite handle_change_source by assumption.
    erewrite bind_raise; [reflexivity|].
    apply change_routes_else_unknown; [discriminate|discriminate|exact Hk].
Qed.

Lemma unknown_kind_handled_as_removed_witness :
  let w := Scenario.world (Scenario.registers Scenario.widget [("/widget2", 8)]) in
  let s := Scenario.started [("/widget", 7)] in
  handle_change w Scenario.self (mkChange 4 Scenario.widget) s
  = handle_change w Scenario.self (mkChange 3 Scenario.widget) s
  /\ outcome (handle_change w Scenario.self (mkChange 4 Scenario.widget)) s = Ok tt
  /\ modules (exec_state (handle_change w Scenario.self (mkChange 4 Scenario.widget)) s)
     = delete (KPath Scenario.widget) (modules s).
Proof.
  cbv zeta.
  exact (unknown_kind_handled_as_removed
           (Scenario.world (Scenario.registers Scenario.widget [("/widget2", 8)]))
           Scenario.root Scenario.widget 4 (Scenario.started [("/widget", 7)])
           ltac:(discriminate) ltac:(discriminate) eq_refl).
Defined.

(** ** Modified events under the components directory *)

Lemma change_routes_modified_inside w root p s :
  in_components w (dash root) p = true ->
  change_routes w (dash root) (mkChange 2 p) s
  = (let* module := modules_getitem (KPath (resolve w p)) in
     let* module' := reload w module in
     modify (set_modules <[KPath (resolve w p) := module']>) ;;
     ret (List.map uri (stale w p (components s))))
      (set_components (fun _ => kept w p (components s)) s).
Proof.
  intros Hin. rewrite change_routes_modified.
  change (watch_callbacks (dash root)) with init_callbacks.
  erewrite bind_ok; [reflexivity|].
  rewrite run_callbacks_modified, Hin. reflexivity.
Qed.




(** ** Who calls the Notification Sink *)

Create HintDb quiet.

Lemma quiet_ret {A} (a : A) : quiet (ret a).
Proof. intros s. reflexivity. Qed.

Lemma quiet_raise {A} e : quiet (@raise A e).
Proof. intros s. reflexivity. Qed.

Lemma quiet_gets {A} (f : State -> A) : quiet (gets f).
Proof. intros s. reflexivity. Qed.

Lemma quiet_modify f :
  (forall s, notified (f s) = notified s) -> quiet (modify f).
Proof. intros H s. apply H. Qed.

Lemma quiet_bind {A B} (c : M A) (k : A -> M B) :
  quiet c -> (forall a, quiet (k a)) -> quiet (bind c k).
Proof.
  intros Hc Hk s. unfold bind. specialize (Hc s).
  destruct (c s) as [[a|e] s1]; simpl in *; [|assumption].
  rewrite Hk. assumption.
Qed.

Lemma quiet_try_except {A} (c h : M A) cls :
  quiet c -> quiet h -> quiet (try_except c cls h).
Proof.
  intros Hc Hh s. unfold try_except. specialize (Hc s).
  destruct (c s) as [[a|e] s1]; simpl in *; [assumption|].
  destruct (decide (e = cls)); simpl; [|assumption].
  rewrite Hh. assumption.
Qed.

#[local] Hint Resolve quiet_ret quiet_raise quiet_gets quiet_bind
  quiet_try_except : quiet.
#[local] Hint Extern 2 (quiet (modify _)) =>
  (apply quiet_modify; intros; reflexivity) : quiet.

Ltac quiet_cases :=
  repeat match goal with
         | |- quiet (if ?b then _ else _) => destruct b
         | |- quiet (match ?x with _ => _ end) => destruct x
         | |- forall _, _ => intro
         end.

Lemma quiet_exec_module w m : quiet (exec_module w m).
Proof. unfold exec_module, register_all. quiet_cases; auto with quiet. Qed.

#[local] Hint Resolve quiet_exec_module : quiet.

Lemma quiet_import_file w p : quiet (import_file w p).
Proof.
  unfold import_file, module_from_spec, echo.
  apply quiet_try_except; quiet_cases; auto 10 with quiet.
Qed.

Lemma quiet_reload w module : quiet (reload w module).
Proof. intros s. apply (reload_frame w module s). Qed.

Lemma quiet_components_remove c : quiet (components_remove c).
Proof.
  unfold components_remove. apply quiet_bind; [auto with quiet|]. intros l.
  destruct (list_remove c l); auto with quiet.
Qed.

#[local] Hint Resolve quiet_import_file quiet_reload quiet_components_remove
  : quiet.

Lemma quiet_purge_loop w path copy : forall routes,
  quiet (purge_loop w path copy routes).
Proof.
  induction copy as [|c rest IH]; intros routes; simpl; [auto with quiet|].
  destruct (same_source w path c); auto with quiet.
Qed.

#[local] Hint Resolve quiet_purge_loop : quiet.

Lemma quiet_call w self cb path : quiet (call w self cb path).
Proof.
  destruct cb; simpl;
    unfold watch_component_added, watch_component_modified, empty_list_callback;
    quiet_cases; auto with quiet.
Qed.

#[local] Hint Resolve quiet_call : quiet.

Lemma quiet_run_callbacks w self cbs key path : forall routes,
  quiet (run_callbacks w self cbs key path routes).
Proof.
  induction cbs as [|cb rest IH]; intros routes; simpl; auto with quiet.
Qed.

#[local] Hint Resolve quiet_run_callbacks : quiet.

Lemma quiet_modules_getitem k : quiet (modules_getitem k).
Proof.
  unfold modules_getitem. apply quiet_bind; [auto with quiet|]. intros d.
  destruct (d !! k); auto with quiet.
Qed.

Lemma quiet_modules_delitem k : quiet (modules_delitem k).
Proof.
  unfold modules_delitem. apply quiet_bind; [auto with quiet|]. intros d.
  destruct (d !! k); auto with quiet.
Qed.

#[local] Hint Resolve quiet_modules_getitem quiet_modules_delitem : quiet.

(** The three branches only compute [routes]: the call is made after them. *)
Lemma quiet_change_routes w self change : quiet (change_routes w self change).
Proof.
  unfold change_routes.
  destruct (kind change =? 1)%Z; [auto 10 with quiet|].
  destruct (kind change =? 2)%Z; auto 10 with quiet.
Qed.

(** ** One notification per completed event *)

(** One event: no call for another suffix; one call with the computed
    list, empty or not, when the branch returns; none when it raises. *)
Lemma handle_change_calls w self c s :
  if is_source c then
    match change_routes w self c s with
    | (Ok routes, s1) =>
        handle_change w self c s
        = (Ok tt, exec_state (hot_reload_routes routes) s1)
        /\ notified s1 = notified s
    | (Raise e, s1) =>
        handle_change w self c s = (Raise e, s1) /\ notified s1 = notified s
    end
  else handle_change w self c s = (Ok tt, s).
Proof.
  unfold handle_change, is_source.
  destruct (String.eqb (suffix (cpath c)) ".py"); [|reflexivity].
  unfold bind. pose proof (quiet_change_routes w self c s) as Hq.
  destruct (change_routes w self c s) as [[routes|e] s1]; simpl in *;
    split; (reflexivity || assumption).
Qed.

(** C4 (counterexample).  A batch of two source-suffix events, the first a
    Modified event for a file that was never loaded: the lookup of its
    module record raises KeyError, and the sink is called for neither
    event. *)
Lemma batch_with_failing_event_not_notified :
  let w := Scenario.world (Scenario.registers Scenario.widget [("/widget2", 8)]) in
  let batch := [Scenario.Modified Scenario.helper;
                Scenario.Modified Scenario.widget] in
  List.filter is_source batch = batch
  /\ watch_batch w Scenario.self batch (Scenario.started [("/widget", 7)])
     = (Raise KeyError, Scenario.started [("/widget", 7)])
  /\ notified (Scenario.started [("/widget", 7)]) = [].
Proof. repeat split. Qed.

(** C4 (amended).  Within a batch the sink is called once for each
    source-suffix event that completes, in the order of the events, each
    call carrying the route list computed for that event, empty or not.
    When the batch runs to its end that is one call per source-suffix
    event; when an event raises, the calls are those of the events before
    it, fewer than the source-suffix events. *)
Theorem batch_notifies_completed_events
    (w : World) (self : SloDash) (changes : list Change) (s : State) :
  exists calls,
    notified (exec_state (watch_batch w self changes) s) = notified s ++ calls
    /\ batch_calls w self s changes calls (outcome (watch_batch w self changes) s)
    /\ match outcome (watch_batch w self changes) s with
       | Ok _ => length calls = length (List.filter is_source changes)
       | Raise _ => length calls < length (List.filter is_source changes)
       end.
Proof.
  revert s. induction changes as [|c rest IH]; intros s.
  - exists []. split; [symmetry; apply app_nil_r|]. split; [constructor|reflexivity].
  - pose proof (handle_change_calls w self c s) as Hc.
    unfold exec_state, outcome in *. simpl watch_batch. unfold bind.
    simpl List.filter. destruct (is_source c) eqn:Hsrc.
    + destruct (change_routes w self c s) as [[routes|e] s1] eqn:Hr.
      * destruct Hc as [Hc Hn]. rewrite Hc.
        destruct (IH (snd (hot_reload_routes routes s1)))
          as (calls & Hcalls & Hrel & Hlen).
        exists (routes :: calls). split.
        { rewrite Hcalls. simpl. rewrite Hn, <- app_assoc. reflexivity. }
        split.
        { apply (calls_notify w self s c rest routes s1);
            [exact Hsrc|exact Hr|exact Hrel]. }
        destruct (fst (watch_batch w self rest _)); simpl; lia.
      * destruct Hc as [Hc Hn]. rewrite Hc. simpl.
        exists []. split; [rewrite Hn; symmetry; apply app_nil_r|].
        split; [apply (calls_abort w self s c rest e s1); assumption|].
        simpl. lia.
    + rewrite Hc.
      destruct (IH s) as (calls & Hcalls & Hrel & Hlen).
      exists calls. split; [exact Hcalls|]. split; [|exact Hlen].
      apply calls_skip; assumption.
Qed.

(** ** Loads and reloads that fail *)

(** [import_file] swallows AttributeError, and nothing else. *)
Lemma import_file_outcome w p s :
  outcome (import_file w p) s
  = match load_error w (resolve w p) with
    | None => Ok (Some (mkModule (next_id s) (stem p) (resolve w p)))
    | Some e => if decide (e = AttributeError) then Ok None else Raise e
    end.
Proof.
  unfold outcome, load_error, import_file, try_except, exec_module.
  destruct (loader_for w (resolve w p)); cbn; [|reflexivity].
  destruct (exec_source w (resolve w p)) as [regs|e regs]; cbn; [reflexivity|].
  destruct (decide (e = AttributeError)); reflexivity.
Qed.

Lemma handle_added w root p s :
  suffix p = ".py" ->
  handle_change w (dash root) (mkChange 1 p) s
  = match import_file w p s with
    | (Ok module, s1) =>
        (Ok tt,
         set_notified (fun l => l ++ [added_routes w root p (components s1)])
           (set_modules <[KPath (resolve w p) := module]> s1))
    | (Raise e, s1) => (Raise e, s1)
    end.
Proof.
  intros Hpy. rewrite handle_change_source by assumption.
  rewrite change_routes_added.
  change (watch_callbacks (dash root)) with init_callbacks.
  unfold bind at 1 2. destruct (import_file w p s) as [[module|e] s1]; [|reflexivity].
  unfold bind, modify. rewrite run_callbacks_added. reflexivity.
Qed.

(** A Modified event, step by step: the purge when the path lies under the
    components directory, the lookup of the module record, the reload,
    and only then the new record and the notification. *)
Lemma handle_modified w root p s :
  suffix p = ".py" ->
  let inside := in_components w (dash root) p in
  let base := if inside
              then set_components (fun _ => kept w p (components s)) s else s in
  let routes := if inside
                then List.map uri (stale w p (components s)) else [] in
  handle_change w (dash root) (mkChange 2 p) s
  = match modules s !! KPath (resolve w p) with
    | None => (Raise KeyError, base)
    | Some module =>
        match reload w module base with
        | (Ok module', s1) =>
            (Ok tt, set_notified (fun l => l ++ [routes])
                      (set_modules <[KPath (resolve w p) := module']> s1))
        | (Raise e, s1) => (Raise e, s1)
        end
    end.
Proof.
  intros Hpy inside base routes. rewrite handle_change_source by assumption.
  rewrite change_routes_modified.
  change (watch_callbacks (dash root)) with init_callbacks.
  unfold bind at 1 2. rewrite run_callbacks_modified.
  assert (Hm : modules base = modules s).
  { subst base inside. destruct (in_components w (dash root) p); reflexivity. }
  assert (Hrun : (if in_components w (dash root) p
                  then (Ok (List.map uri (stale w p (components s))),
                        set_components (fun _ => kept w p (components s)) s)
                  else (Ok [], s)) = (Ok routes, base)).
  { subst routes base inside. destruct (in_components w (dash root) p);
      reflexivity. }
  rewrite Hrun. unfold bind at 1. unfold modules_getitem, bind at 1, gets.
  rewrite Hm.
  destruct (modules s !! KPath (resolve w p)) as [module|]; [|reflexivity].
  unfold ret at 1. unfold bind.
  destruct (reload w module base) as [[module'|e] s1]; reflexivity.
Qed.

(** C5 (counterexample).  widget.py is loaded and registers /widget.  An
    Added event for it whose source raises AttributeError replaces the
    stored handle by None, leaves the half-executed new module bound in
    [sys.modules], and notifies ["/widget"]; one whose source raises
    SyntaxError ends the batch with no notification at all. *)
Lemma failed_load_changes_the_store :
  let s := Scenario.started [("/widget", 7)] in
  let caught := Scenario.world (Scenario.raises Scenario.widget AttributeError) in
  let uncaught := Scenario.world (Scenario.raises Scenario.widget SyntaxError) in
  let s1 := exec_state (handle_change caught Scenario.self
                          (Scenario.Added Scenario.widget)) s in
  let s2 := exec_state (handle_change uncaught Scenario.self
                          (Scenario.Added Scenario.widget)) s in
  modules s !! KPath Scenario.widget
  = Some (Some (mkModule 1 "widget" Scenario.widget))
  /\ modules s1 !! KPath Scenario.widget = Some None
  /\ sys_modules s1 !! "widget" = Some (mkModule 2 "widget" Scenario.widget)
  /\ notified s1 = [["/widget"]]
  /\ outcome (handle_change uncaught Scenario.self
                (Scenario.Added Scenario.widget)) s = Raise SyntaxError
  /\ notified s2 = [].
Proof. repeat split. Qed.

(** C5 (amended).  [import_file] catches AttributeError only.  A load that
    fails with it returns None, and the Added event stores that None under
    the resolved path, in place of any earlier handle, and still makes its
    notification, with the URIs registered under that path.  A load that
    fails with another exception, and a reload whose source raises, leave
    the event by that exception: the dict of module records is as it was
    and no notification is made for the event.  The same holds of a
    Modified event that raises for any other reason. *)
Theorem failed_load_effects (w : World) (root p : Path) (s : State) :
  suffix p = ".py" ->
  (forall e, load_error w (resolve w p) = Some e ->
     let r := handle_change w (dash root) (mkChange 1 p) s in
     if decide (e = AttributeError) then
       fst r = Ok tt
       /\ modules (snd r) = <[KPath (resolve w p) := None]> (modules s)
       /\ notified (snd r)
          = notified s
            ++ [added_routes w root p
                  (components (exec_state (import_file w p) s))]
     else
       fst r = Raise e
       /\ modules (snd r) = modules s
       /\ notified (snd r) = notified s)
  /\ (forall m file e regs,
        modules s !! KPath (resolve w p) = Some (Some m) ->
        outcome (reload_spec w m) s = Ok file ->
        exec_source w file = Failed e regs ->
        let r := handle_change w (dash root) (mkChange 2 p) s in
        fst r = Raise e
        /\ modules (snd r) = modules s
        /\ notified (snd r) = notified s
        /\ components (snd r)
           = (if in_components w (dash root) p
              then kept w p (components s) else components s) ++ regs)
  /\ (forall e,
        let r := handle_change w (dash root) (mkChange 2 p) s in
        fst r = Raise e ->
        modules (snd r) = modules s /\ notified (snd r) = notified s).
Proof.
  intros Hpy. split; [|split].
  - intros e He. cbv zeta. rewrite handle_added by assumption.
    pose proof (import_file_outcome w p s) as Ho.
    pose proof (import_file_frame w p s) as (Hm & Hn & _).
    unfold outcome, exec_state in *. rewrite He in Ho.
    destruct (import_file w p s) as [r s1]. simpl in *.
    destruct (decide (e = AttributeError)); subst r; simpl.
    + rewrite Hm, Hn. repeat split.
    + auto.
  - intros m file e regs Hk Hspec Hexec. cbv zeta.
    rewrite (handle_modified w root p s Hpy). cbv zeta. rewrite Hk.
    set (base := if in_components w (dash root) p
                 then set_components (fun _ => kept w p (components s)) s
                 else s).
    assert (Hspec' : outcome (reload_spec w m) base = Ok file).
    { rewrite <- Hspec. apply reload_spec_reads; subst base;
        destruct (in_components w (dash root) p); reflexivity. }
    rewrite (reload_fails w m file e regs base Hspec' Hexec).
    subst base. destruct (in_components w (dash root) p); repeat split.
  - intros e. cbv zeta.
    rewrite (handle_modified w root p s Hpy). cbv zeta.
    set (base := if in_components w (dash root) p
                 then set_components (fun _ => kept w p (components s)) s
                 else s).
    assert (Hb : modules base = modules s /\ notified base = notified s).
    { subst base. destruct (in_components w (dash root) p); split; reflexivity. }
    destruct Hb as [Hbm Hbn].
    destruct (modules s !! KPath (resolve w p)) as [module|];
      [|intros _; split; assumption].
    pose proof (reload_frame w module base) as (Hm & Hn).
    unfold exec_state in Hm, Hn.
    destruct (reload w module base) as [[module'|e'] s1]; cbn in *;
      [discriminate|].
    intros _. split; congruence.
Qed.

Lemma failed_load_effects_witness :
  let s := Scenario.started [("/widget", 7)] in
  let caught := Scenario.world (Scenario.raises Scenario.widget AttributeError) in
  let uncaught := Scenario.world (Scenario.raises Scenario.widget SyntaxError) in
  let r1 := handle_change caught Scenario.self (Scenario.Added Scenario.widget) s in
  let r2 := handle_change uncaught Scenario.self (Scenario.Modified Scenario.widget) s in
  (fst r1 = Ok tt
   /\ modules (snd r1) = <[KPath Scenario.widget := None]> (modules s)
   /\ notified (snd r1) = [["/widget"]])
  /\ (fst r2 = Raise SyntaxError
      /\ modules (snd r2) = modules s
      /\ notified (snd r2) = []
      /\ components (snd r2) = []).
Proof.
  cbv zeta. split.
  - exact (proj1 (failed_load_effects
             (Scenario.world (Scenario.raises Scenario.widget AttributeError))
             Scenario.root Scenario.widget (Scenario.started [("/widget", 7)])
             eq_refl) AttributeError eq_refl).
  - exact (proj1 (proj2 (failed_load_effects
             (Scenario.world (Scenario.raises Scenario.widget SyntaxError))
             Scenario.root Scenario.widget (Scenario.started [("/widget", 7)])
             eq_refl))
             (mkModule 1 "widget" Scenario.widget) Scenario.widget SyntaxError []
             eq_refl eq_refl eq_refl).
Defined.

(** ** Events for paths with no module record *)

(** C6 (counterexample).  lib/helper.py was never loaded.  A Removed or a
    Modified event for it raises KeyError, and the batch ends there: the
    Modified event for widget.py that follows, which on its own notifies
    ["/widget"], is not handled. *)
Lemma unknown_path_event_is_fatal :
  let w := Scenario.world (Scenario.registers Scenario.widget [("/widget2", 8)]) in
  let s := Scenario.started [("/widget", 7)] in
  modules s !! KPath Scenario.helper = None
  /\ outcome (handle_change w Scenario.self (Scenario.Removed Scenario.helper)) s
     = Raise KeyError
  /\ outcome (handle_change w Scenario.self (Scenario.Modified Scenario.helper)) s
     = Raise KeyError
  /\ watch_batch w Scenario.self
       [Scenario.Removed Scenario.helper; Scenario.Modified Scenario.widget] s
     = (Raise KeyError, s)
  /\ notified (exec_state (watch_batch w Scenario.self
                             [Scenario.Modified Scenario.widget]) s)
     = [["/widget"]].
Proof. repeat split. Qed.

(** C6 (amended).  A Modified or Removed event (any kind but Added) on a
    source-suffix path that has no module record raises KeyError at the
    lookup or deletion of the record.  The dict of module records is left
    as it was, no notification is made, and the exception ends the batch:
    the events after it are not handled. *)
Theorem unknown_path_event_raises
    (w : World) (root p : Path) (k : Z) (rest : list Change) (s : State) :
  suffix p = ".py" ->
  k <> 1%Z ->
  modules s !! KPath (resolve w p) = None ->
  let r := handle_change w (dash root) (mkChange k p) s in
  fst r = Raise KeyError
  /\ modules (snd r) = modules s
  /\ notified (snd r) = notified s
  /\ watch_batch w (dash root) (mkChange k p :: rest) s = r.
Proof.
  intros Hpy Hk1 Hnone. cbv zeta.
  assert (Hr : exists s1, change_routes w (dash root) (mkChange k p) s
                          = (Raise KeyError, s1)
                          /\ modules s1 = modules s /\ notified s1 = notified s).
  { destruct (Z.eq_dec k 2%Z) as [->|Hk2].
    - rewrite change_routes_modified.
      change (watch_callbacks (dash root)) with init_callbacks.
      unfold bind at 1. rewrite run_callbacks_modified.
      destruct (in_components w (dash root) p);
        (erewrite bind_raise;
         [|unfold modules_getitem, bind, gets; cbn [modules set_components];
           rewrite Hnone; reflexivity]);
        eexists; repeat split.
    - exists s. rewrite change_routes_else_unknown by assumption. auto. }
  destruct Hr as (s1 & Hr & Hm & Hn).
  assert (E : handle_change w (dash root) (mkChange k p) s = (Raise KeyError, s1)).
  { rewrite handle_change_source by assumption. apply bind_raise. exact Hr. }
  rewrite E. simpl watch_batch. repeat split; try assumption.
  apply bind_raise. exact E.
Qed.

Lemma unknown_path_event_raises_witness :
  let w := Scenario.world (Scenario.registers Scenario.widget [("/widget2", 8)]) in
  let s := Scenario.started [("/widget", 7)] in
  let r := handle_change w Scenario.self (Scenario.Modified Scenario.helper) s in
  fst r = Raise KeyError
  /\ modules (snd r) = modules s
  /\ notified (snd r) = notified s
  /\ watch_batch w Scenario.self
       [Scenario.Modified Scenario.helper; Scenario.Modified Scenario.widget] s
     = r.
Proof.
  cbv zeta.
  exact (unknown_path_event_raises
           (Scenario.world (Scenario.registers Scenario.widget [("/widget2", 8)]))
           Scenario.root Scenario.helper 2
           [Scenario.Modified Scenario.widget]
           (Scenario.started [("/widget", 7)])
           eq_refl ltac:(discriminate) eq_refl).
Defined.

(** ** Exceptions and the watch loop *)

Lemma watch_batch_app w self pre rest s :
  watch_batch w self (pre ++ rest) s
  = bind (watch_batch w self pre) (fun _ => watch_batch w self rest) s.
Proof.
  revert s. induction pre as [|c pre IH]; intros s; simpl; [reflexivity|].
  unfold bind. destruct (handle_change w self c s) as [[[]|e] s1].
  - rewrite IH. reflexivity.
  - reflexivity.
Qed.

(** C9 (counterexample).  lib/helper.py raises SyntaxError when executed.
    The Added event for it ends the batch and the whole watch loop: neither
    the Modified event for widget.py behind it nor the next batch is
    classified or notified. *)
Lemma bad_file_stops_later_events :
  let w := Scenario.world (Scenario.raises Scenario.helper SyntaxError) in
  let s := Scenario.started [("/widget", 7)] in
  let r := watch_root Scenario.self
             [(w, [Scenario.Added Scenario.helper;
                   Scenario.Modified Scenario.widget]);
              (w, [Scenario.Modified Scenario.widget])] s in
  fst r = Raise SyntaxError
  /\ notified (snd r) = []
  /\ notified (exec_state (watch_root Scenario.self
                             [(w, [Scenario.Modified Scenario.widget])]) s)
     = [["/widget"]].
Proof. repeat split. Qed.

(** C9 (amended).  A failure while one event is processed is not contained
    at the event: once the events before it have completed, the exception
    it raises leaves [watch_root] with the state of that moment.  No
    notification is made for the failing event, and neither the rest of the
    batch nor any later batch is classified or notified. *)
Theorem event_failure_ends_watch_loop
    (w : World) (self : SloDash) (pre rest : list Change) (c : Change)
    (batches : list (World * list Change)) (s : State) (e : Exn) :
  let s1 := exec_state (watch_batch w self pre) s in
  let s' := exec_state (handle_change w self c) s1 in
  outcome (watch_batch w self pre) s = Ok tt ->
  outcome (handle_change w self c) s1 = Raise e ->
  watch_root self ((w, pre ++ c :: rest) :: batches) s = (Raise e, s')
  /\ notified s' = notified s1.
Proof.
  intros s1 s' Hpre Hc.
  assert (Hpre' : watch_batch w self pre s = (Ok tt, s1)).
  { unfold outcome in Hpre. subst s1. unfold exec_state.
    destruct (watch_batch w self pre s) as [r st]. simpl in *.
    rewrite Hpre. reflexivity. }
  assert (Hc' : handle_change w self c s1 = (Raise e, s')).
  { unfold outcome in Hc. subst s'. unfold exec_state.
    destruct (handle_change w self c s1) as [r st]. simpl in *.
    rewrite Hc. reflexivity. }
  split.
  - simpl watch_root. apply bind_raise. rewrite watch_batch_app.
    erewrite bind_ok; [|exact Hpre']. simpl watch_batch.
    apply bind_raise. exact Hc'.
  - pose proof (handle_change_calls w self c s1) as H. rewrite Hc' in H.
    destruct (is_source c); [|discriminate H].
    destruct (change_routes w self c s1) as [[routes|e'] s2].
    + destruct H as [H _]. discriminate H.
    + destruct H as [H Hn]. injection H as _ ->. exact Hn.
Qed.

Lemma event_failure_ends_watch_loop_witness :
  let w := Scenario.world (Scenario.raises Scenario.helper SyntaxError) in
  let s := Scenario.started [("/widget", 7)] in
  let s1 := exec_state (watch_batch w Scenario.self
                          [Scenario.Modified Scenario.widget]) s in
  let s' := exec_state (handle_change w Scenario.self
                          (Scenario.Added Scenario.helper)) s1 in
  watch_root Scenario.self
    [(w, [Scenario.Modified Scenario.widget] ++ Scenario.Added Scenario.helper
           :: [Scenario.Removed Scenario.widget]);
     (w, [Scenario.Modified Scenario.widget])] s
  = (Raise SyntaxError, s')
  /\ notified s' = notified s1.
Proof.
  cbv zeta.
  apply (event_failure_ends_watch_loop
           (Scenario.world (Scenario.raises Scenario.helper SyntaxError))
           Scenario.self [Scenario.Modified Scenario.widget]
           [Scenario.Removed Scenario.widget] (Scenario.Added Scenario.helper)).
  - vm_compute. reflexivity.
  - vm_compute. reflexivity.
Defined.

(** ** The keys of the dict of module records *)

Lemma import_components_method_key w p paths : forall d s,
  match import_components w paths d s with
  | (Ok d', _) => d' !! KResolveMethod p = d !! KResolveMethod p
  | (Raise _, _) => True
  end.
Proof.
  induction paths as [|c rest IH]; intros d s; simpl; [reflexivity|].
  unfold bind. destruct (import_file w c s) as [[module|e] s1]; [|exact I].
  specialize (IH (<[KPath (resolve w c) := module]> d) s1).
  destruct (import_components w rest _ s1) as [[d'|e] s2]; [|exact I].
  rewrite IH. apply lookup_insert_ne. discriminate.
Qed.

(** Whenever [run] gets as far as building the [SloDash] object, the module
    of the main file sits under the bound method [path.resolve], whatever
    the project is. *)
Lemma run_main_key w config_path config s :
  match run w config_path config s with
  | (Ok _, s') =>
      exists main, modules s' !! KResolveMethod (cfg_main config) = Some main
  | (Raise _, _) => True
  end.
Proof.
  unfold run. destruct (cfg_runtime_tasks config) as [tasks|]; [|exact I].
  unfold bind at 1, ret at 1. cbv beta iota. unfold bind at 1.
  destruct (match cfg_preprocessor config with
            | Some p => import_file w p
            | None => ret None
            end s) as [[pre|e] s0]; [|exact I].
  unfold bind at 1. destruct (import_file w (cfg_main config) s0) as [[main|e] s1];
    [|exact I].
  unfold bind at 1.
  destruct (match iterdir w (cfg_components config) with
            | Some l => ret l
            | None => raise (iterdir_error w (cfg_components config))
            end s1) as [[entries|e] s2]; [|exact I].
  unfold bind at 1.
  pose proof (import_components_method_key w (cfg_main config)
                (List.filter (fun c => String.eqb (suffix c) ".py") entries)
                ∅ s2) as Hk.
  destruct (import_components w _ ∅ s2) as [[loaded|e] s3]; [|exact I].
  cbn. exists main.
  apply lookup_union_Some_raw. right. split.
  - rewrite Hk. apply lookup_empty.
  - apply lookup_singleton_eq.
Qed.

(** C7 (code at the failing input).  With [config["main"]] = app.py, [run]
    files the main module under the bound method [path.resolve] of the
    unresolved path object (line 93 lacks the call), while the component
    on line 100 is filed under its resolved path.  No record exists under
    the resolved /proj/app.py, so the lookup of a Modified event for the
    main file raises KeyError. *)
Theorem run_files_main_under_bound_method :
  let w := Scenario.world (Scenario.registers Scenario.widget [("/widget", 7)]) in
  let s := exec_state (run w Scenario.config_path Scenario.config)
                      Scenario.initial in
  resolve w (cfg_main Scenario.config) = Scenario.app_py
  /\ modules s !! KResolveMethod (cfg_main Scenario.config)
     = Some (Some (mkModule 0 "app" Scenario.app_py))
  /\ modules s !! KPath Scenario.app_py = None
  /\ modules s !! KPath Scenario.widget
     = Some (Some (mkModule 1 "widget" Scenario.widget))
  /\ handle_change w Scenario.self (Scenario.Modified Scenario.app_py) s
     = (Raise KeyError, s).
Proof. repeat split. Qed.

(** ** Events outside the components directory *)

Lemma handle_modified_outside w root p s :
  suffix p = ".py" ->
  in_components w (dash root) p = false ->
  handle_change w (dash root) (mkChange 2 p) s
  = match modules s !! KPath (resolve w p) with
    | None => (Raise KeyError, s)
    | Some module =>
        match reload w module s with
        | (Ok module', s1) =>
            (Ok tt, set_notified (fun l => l ++ [[]])
                      (set_modules <[KPath (resolve w p) := module']> s1))
        | (Raise e, s1) => (Raise e, s1)
        end
    end.
Proof.
  intros Hpy Hout. rewrite (handle_modified w root p s Hpy). cbv zeta.
  rewrite Hout. reflexivity.
Qed.




Example outside_event_still_notifies :
  let w := Scenario.world (Scenario.registers Scenario.widget [("/widget", 7)]) in
  let s := Scenario.started [("/widget", 7)] in
  let s' := exec_state (handle_change w Scenario.self
                          (Scenario.Added Scenario.helper)) s in
  notified s' = [[]]
  /\ components s' = [mkRegistration "/widget" 7 Scenario.widget]
  /\ modules s' !! KPath Scenario.helper
     = Some (Some (mkModule 2 "helper" Scenario.helper)).
Proof. repeat split. Qed.

(** lib/widget.py, outside the components directory, registers nothing.
    It is added after components/widget.py was loaded, and takes over the
    name "widget" in [sys.modules]; the finder of components/widget.py
    still stands first on [sys.meta_path].  A Modified event for
    lib/widget.py then executes components/widget.py, and the registry
    gains a second /widget entry. *)
Example modified_outside_executes_same_stem_file :
  let w := Scenario.world (Scenario.registers Scenario.widget [("/widget", 7)]) in
  let other := mkPath true ["proj"; "lib"; "widget.py"] in
  let s := exec_state (handle_change w Scenario.self (Scenario.Added other))
                      (Scenario.started [("/widget", 7)]) in
  let r := handle_change w Scenario.self (Scenario.Modified other) s in
  in_components w Scenario.self other = false
  /\ exec_source w other = Ran []
  /\ components s = [mkRegistration "/widget" 7 Scenario.widget]
  /\ outcome (reload_spec w (mkModule 2 "widget" other)) s = Ok Scenario.widget
  /\ fst r = Ok tt
  /\ components (snd r) = [mkRegistration "/widget" 7 Scenario.widget;
                           mkRegistration "/widget" 7 Scenario.widget]
  /\ notified (snd r) = [[]; []].
Proof. cbv zeta. repeat split. Qed.

(** ** [uri_checker] *)

(** C10 (counterexample).  [urlsplit] raises ValueError on a netloc with
    an opening bracket and no closing one, and [uri_checker] has no handler
    around [urlparse]: on this non-empty URI it neither returns the URI nor
    raises URIError. *)
Lemma uri_checker_passes_on_parse_errors :
  Tools.urlparse_lenient "http://[::1" = Raise ValueError
  /\ Tools.uri_checker Tools.urlparse_lenient "http://[::1" = Raise ValueError
  /\ forall check_bracketed_netloc checknetloc,
       Tools.uri_checker (Tools.urlparse check_bracketed_netloc checknetloc)
                         "http://[::1"
       = Raise ValueError.
Proof. split; [reflexivity|]. split; [reflexivity|]. intros c1 c2. reflexivity. Qed.

(** C10 (amended).  [uri_checker] returns the empty string for the empty
    string.  On a non-empty URI that [urlparse] parses, it returns the URI
    unchanged when the parsed path is not empty and raises URIError when
    it is: the test [scheme is not True] holds of every scheme, a str
    being never the object True.  On a non-empty URI that [urlparse]
    rejects, the exception of [urlparse] leaves [uri_checker]. *)
Theorem uri_checker_decides_by_path
    (urlparse : string -> Result Tools.ParseResult) :
  Tools.uri_checker urlparse "" = Ok ""
  /\ (forall r, Tools.is_not_True (Tools.PyStr (Tools.scheme r)) = true)
  /\ forall uri,
       uri <> "" ->
       Tools.uri_checker urlparse uri
       = match urlparse uri with
         | Ok r => if decide (Tools.path r = "") then Raise URIError else Ok uri
         | Raise e => Raise e
         end.
Proof.
  split; [reflexivity|]. split; [reflexivity|].
  intros uri Hne. unfold Tools.uri_checker, Tools.truthy.
  destruct (String.eqb_spec uri ""); [contradiction|]. cbn [negb].
  destruct (urlparse uri) as [r|e]; [|reflexivity].
  cbn [Tools.is_not_True]. rewrite andb_true_r.
  destruct (String.eqb_spec (Tools.path r) "");
    destruct (decide (Tools.path r = "")); try contradiction; reflexivity.
Qed.

Lemma uri_checker_decides_by_path_witness :
  Tools.uri_checker Tools.urlparse_lenient "/widget" = Ok "/widget"
  /\ Tools.uri_checker Tools.urlparse_lenient "http:" = Raise URIError
  /\ Tools.uri_checker Tools.urlparse_lenient "//host?q" = Raise URIError
  /\ Tools.uri_checker Tools.urlparse_lenient "//[host" = Raise ValueError.
Proof.
  split; [|split; [|split]].
  - exact (proj2 (proj2 (uri_checker_decides_by_path Tools.urlparse_lenient))
             "/widget" ltac:(discriminate)).
  - exact (proj2 (proj2 (uri_checker_decides_by_path Tools.urlparse_lenient))
             "http:" ltac:(discriminate)).
  - exact (proj2 (proj2 (uri_checker_decides_by_path Tools.urlparse_lenient))
             "//host?q" ltac:(discriminate)).
  - exact (proj2 (proj2 (uri_checker_decides_by_path Tools.urlparse_lenient))
             "//[host" ltac:(discriminate)).
Defined.

(** * Further properties of manager.py *)

(** ** [import_file] *)

Lemma import_file_ok w p regs s :
  loader_for w (resolve w p) = true ->
  exec_source w (resolve w p) = Ran regs ->
  import_file w p s
  = (Ok (Some (mkModule (next_id s) (stem p) (resolve w p))),
     mkState (modules s) (components s ++ regs)
             (<[stem p := mkModule (next_id s) (stem p) (resolve w p)]>
                (sys_modules s))
             (meta_path s
                ++ [mkModuleFinder [(stem p, str (resolve w p))]])
             (S (next_id s)) (echoed s) (notified s)).
Proof.
  intros Hl He. unfold import_file, try_except, exec_module. rewrite Hl.
  cbn. rewrite He. reflexivity.
Qed.

Lemma find_appended_app w name l1 l2 :
  Forall (fun finder => find_spec finder name = None) l1 ->
  find_appended w name (l1 ++ l2) = find_appended w name l2.
Proof.
  induction 1 as [|finder l1 Hf _ IH]; [reflexivity|].
  simpl. rewrite Hf. exact IH.
Qed.

(** X1.  A load that goes through returns a new module object for the
    resolved file, named by the stem; [sys.modules] binds the stem to it,
    the finder appended last to [sys.meta_path] maps the stem back to the
    resolved file, and the registrations of the file are appended to the
    registry.  When the stem has no dot, no finder standing before the
    new one knows it, and the str of the resolved path names that path
    again, [reload] accepts the module at once and executes the same file
    again. *)
Theorem import_file_binds_module
    (w : World) (p : Path) (regs : list Registration) (s : State) :
  loader_for w (resolve w p) = true ->
  exec_source w (resolve w p) = Ran regs ->
  let m := mkModule (next_id s) (stem p) (resolve w p) in
  let s' := exec_state (import_file w p) s in
  outcome (import_file w p) s = Ok (Some m)
  /\ sys_modules s' !! stem p = Some m
  /\ (exists finder,
        last (meta_path s') = Some finder
        /\ find_spec finder (stem p) = Some (stem p, str (resolve w p)))
  /\ components s' = components s ++ regs
  /\ (parent_name (stem p) = "" ->
      sys_find_spec w (stem p) None = None ->
      Forall (fun finder => find_spec finder (stem p) = None) (meta_path s) ->
      of_str (str (resolve w p)) = resolve w p ->
      reload w (Some m) s'
      = (Ok (Some m), set_components (fun l => l ++ regs) s')).
Proof.
  intros Hl He m s'. subst s'. unfold outcome, exec_state.
  rewrite (import_file_ok w p regs s Hl He). cbn [fst snd].
  split; [reflexivity|]. split; [apply lookup_insert_eq|]. split.
  { eexists. split; [apply last_snoc|].
    unfold find_spec. cbn. rewrite String.eqb_refl. reflexivity. }
  split; [reflexivity|].
  intros Hdot Hsys Hold Hstr.
  apply (reload_ok w m (resolve w p) regs); [|exact He].
  rewrite reload_spec_outcome. subst m. cbn [sys_modules meta_path mod_name].
  rewrite lookup_insert_eq.
  destruct (decide _) as [_|Hne]; [|exfalso; apply Hne; reflexivity].
  rewrite Hdot. cbn [String.eqb]. rewrite Hsys.
  rewrite (find_appended_app w (stem p) _ _ Hold).
  unfold find_appended, find_spec. cbn [path_map List.find fst snd].
  rewrite String.eqb_refl. cbn [snd]. rewrite Hstr, Hl. reflexivity.
Qed.

Lemma import_file_binds_module_witness :
  let w := Scenario.world (Scenario.registers Scenario.widget [("/widget", 7)]) in
  let m := mkModule 0 "widget" Scenario.widget in
  let s' := exec_state (import_file w Scenario.widget) Scenario.initial in
  outcome (import_file w Scenario.widget) Scenario.initial = Ok (Some m)
  /\ sys_modules s' !! "widget" = Some m
  /\ (exists finder,
        last (meta_path s') = Some finder
        /\ find_spec finder "widget"
           = Some ("widget", "/proj/components/widget.py"))
  /\ components s' = [] ++ [mkRegistration "/widget" 7 Scenario.widget]
  /\ reload w (Some m) s'
     = (Ok (Some m),
        set_components
          (fun l => l ++ [mkRegistration "/widget" 7 Scenario.widget]) s').
Proof.
  cbv zeta.
  destruct (import_file_binds_module
              (Scenario.world (Scenario.registers Scenario.widget [("/widget", 7)]))
              Scenario.widget [mkRegistration "/widget" 7 Scenario.widget]
              Scenario.initial eq_refl eq_refl)
    as (H1 & H2 & H3 & H4 & H5).
  split; [exact H1|]. split; [exact H2|]. split; [exact H3|].
  split; [exact H4|].
  exact (H5 eq_refl eq_refl ltac:(constructor) eq_refl).
Defined.

(** X2.  [import_file] returns None exactly when it prints "File not
    found", and prints nothing otherwise; whatever the outcome, it leaves
    the dict of module records alone, and it appends one finder to
    [sys.meta_path] whenever a loader exists for the file, also when the
    source then raises. *)
Theorem import_file_none_iff_echo (w : World) (p : Path) (s : State) :
  let r := import_file w p s in
  (fst r = Ok None <-> echoed (snd r) = echoed s ++ ["File not found"])
  /\ (fst r <> Ok None -> echoed (snd r) = echoed s)
  /\ modules (snd r) = modules s
  /\ length (meta_path (snd r))
     = length (meta_path s) + (if loader_for w (resolve w p) then 1 else 0).
Proof.
  assert (Hne : forall l : list string, l <> l ++ ["File not found"]).
  { intros l H. apply (f_equal length) in H. rewrite length_app in H.
    simpl in H. lia. }
  cbv zeta. unfold import_file, try_except, exec_module.
  destruct (loader_for w (resolve w p)); cbn.
  - destruct (exec_source w (resolve w p)) as [regs|e regs]; cbn.
    + rewrite length_app. cbn.
      split; [split; [discriminate|intros H; exfalso; exact (Hne _ H)]|].
      repeat split; lia.
    + destruct (decide (e = AttributeError)); cbn; rewrite length_app; cbn.
      * split; [split; reflexivity|]. split; [congruence|]. split; [reflexivity|lia].
      * split; [split; [congruence|intros H; exfalso; exact (Hne _ H)]|].
        repeat split; lia.
  - split; [split; reflexivity|].
    split; [intros H; exfalso; apply H; reflexivity|].
    split; [reflexivity|].
    change (length (meta_path s) = length (meta_path s) + 0). lia.
Qed.

(** ** Added events *)

Lemma filter_none {A} (f : A -> bool) (l : list A) :
  Forall (fun x => f x = false) l -> List.filter f l = [].
Proof.
  induction 1 as [|x l Hx _ IH]; [reflexivity|]. simpl. rewrite Hx. exact IH.
Qed.

Lemma filter_all {A} (f : A -> bool) (l : list A) :
  Forall (fun x => f x = true) l -> List.filter f l = l.
Proof.
  induction 1 as [|x l Hx _ IH]; [reflexivity|]. simpl. rewrite Hx, IH.
  reflexivity.
Qed.

Lemma handle_added_ok w root p regs s :
  suffix p = ".py" ->
  loader_for w (resolve w p) = true ->
  exec_source w (resolve w p) = Ran regs ->
  handle_change w (dash root) (mkChange 1 p) s
  = (Ok tt,
     mkState (<[KPath (resolve w p)
                := Some (mkModule (next_id s) (stem p) (resolve w p))]>
                (modules s))
             (components s ++ regs)
             (<[stem p := mkModule (next_id s) (stem p) (resolve w p)]>
                (sys_modules s))
             (meta_path s
                ++ [mkModuleFinder [(stem p, str (resolve w p))]])
             (S (next_id s)) (echoed s)
             (notified s ++ [added_routes w root p (components s ++ regs)])).
Proof.
  intros Hpy Hl He. rewrite handle_added by assumption.
  rewrite (import_file_ok w p regs s Hl He). reflexivity.
Qed.

Lemma modules_getitem_some k v s :
  modules s !! k = Some v -> modules_getitem k s = (Ok v, s).
Proof. intros H. unfold modules_getitem, bind, gets. rewrite H. reflexivity. Qed.

Lemma modules_getitem_none k s :
  modules s !! k = None -> modules_getitem k s = (Raise KeyError, s).
Proof. intros H. unfold modules_getitem, bind, gets. rewrite H. reflexivity. Qed.

Lemma reload_rebound w m m' s :
  sys_modules s !! mod_name m = Some m' -> m' <> m ->
  reload w (Some m) s = (Raise ImportError, s).
Proof.
  intros H Hne. apply reload_refused. unfold outcome.
  rewrite reload_spec_unbound; [reflexivity|]. rewrite H. congruence.
Qed.

(** ** Two files with one stem *)

(** X3.  Modules are bound in [sys.modules] by stem alone.  When two
    source files with the same stem but different resolved paths are
    added, both get a module record, but the second load takes over the
    stem: a later Modified event for the first file raises ImportError at
    [reload]. *)
Theorem same_stem_breaks_reload
    (w : World) (root p1 p2 : Path) (regs1 regs2 : list Registration)
    (s : State) :
  suffix p1 = ".py" -> suffix p2 = ".py" ->
  stem p1 = stem p2 ->
  resolve w p1 <> resolve w p2 ->
  loader_for w (resolve w p1) = true -> loader_for w (resolve w p2) = true ->
  exec_source w (resolve w p1) = Ran regs1 ->
  exec_source w (resolve w p2) = Ran regs2 ->
  let s2 := exec_state (watch_batch w (dash root)
                          [mkChange 1 p1; mkChange 1 p2]) s in
  outcome (watch_batch w (dash root) [mkChange 1 p1; mkChange 1 p2]) s = Ok tt
  /\ is_Some (modules s2 !! KPath (resolve w p1))
  /\ is_Some (modules s2 !! KPath (resolve w p2))
  /\ outcome (handle_change w (dash root) (mkChange 2 p1)) s2 = Raise ImportError.
Proof.
  intros Hpy1 Hpy2 Hstem Hne Hl1 Hl2 He1 He2.
  assert (Hb : exists s2,
             watch_batch w (dash root) [mkChange 1 p1; mkChange 1 p2] s
             = (Ok tt, s2)
             /\ modules s2 !! KPath (resolve w p1)
                = Some (Some (mkModule (next_id s) (stem p1) (resolve w p1)))
             /\ is_Some (modules s2 !! KPath (resolve w p2))
             /\ sys_modules s2 !! stem p1
                = Some (mkModule (S (next_id s)) (stem p2) (resolve w p2))).
  { simpl watch_batch.
    erewrite bind_ok; [|apply (handle_added_ok w root p1 regs1); assumption].
    erewrite bind_ok; [|apply (handle_added_ok w root p2 regs2); assumption].
    eexists. split; [reflexivity|]. cbn [modules sys_modules next_id].
    split; [|split].
    - rewrite lookup_insert_ne by congruence. apply lookup_insert_eq.
    - rewrite lookup_insert_eq. eauto.
    - rewrite Hstem. apply lookup_insert_eq. }
  destruct Hb as (s2 & Hb & Hk1 & Hk2 & Hsys).
  cbv zeta. unfold outcome, exec_state. rewrite Hb. cbn [fst snd].
  split; [reflexivity|]. split; [rewrite Hk1; eauto|]. split; [exact Hk2|].
  assert (Hmm : mkModule (S (next_id s)) (stem p2) (resolve w p2)
                <> mkModule (next_id s) (stem p1) (resolve w p1)).
  { intros E. injection E as E _ _. lia. }
  destruct (in_components w (dash root) p1) eqn:Hin.
  - rewrite handle_change_source by assumption.
    erewrite bind_raise; [reflexivity|].
    rewrite (change_routes_modified_inside w root p1 s2 Hin).
    erewrite bind_ok; [|apply modules_getitem_some; exact Hk1].
    erewrite bind_raise; [reflexivity|].
    eapply reload_rebound; [exact Hsys|exact Hmm].
  - rewrite handle_modified_outside by assumption. rewrite Hk1.
    erewrite reload_rebound; [reflexivity|exact Hsys|exact Hmm].
Qed.

Lemma same_stem_breaks_reload_witness :
  let w := Scenario.world (Scenario.registers Scenario.widget [("/widget", 7)]) in
  let other := mkPath true ["proj"; "lib"; "widget.py"] in
  let batch := [mkChange 1 Scenario.widget; mkChange 1 other] in
  let s2 := exec_state (watch_batch w Scenario.self batch) Scenario.initial in
  outcome (watch_batch w Scenario.self batch) Scenario.initial = Ok tt
  /\ is_Some (modules s2 !! KPath (resolve w Scenario.widget))
  /\ is_Some (modules s2 !! KPath (resolve w other))
  /\ outcome (handle_change w Scenario.self (mkChange 2 Scenario.widget)) s2
     = Raise ImportError.
Proof.
  cbv zeta.
  exact (same_stem_breaks_reload
           (Scenario.world (Scenario.registers Scenario.widget [("/widget", 7)]))
           Scenario.root Scenario.widget (mkPath true ["proj"; "lib"; "widget.py"])
           [mkRegistration "/widget" 7 Scenario.widget] []
           Scenario.initial
           eq_refl eq_refl eq_refl ltac:(discriminate)
           eq_refl eq_refl eq_refl eq_refl).
Defined.

(** X4.  An Added event for a source file under the components directory
    whose load goes through files the new module under the resolved path
    and removes nothing from the registry.  When the file registers its
    components under the event's own path and no earlier registration
    carries that path, the notification lists exactly the URIs the file
    registered, in order. *)
Theorem added_event_notifies_new_routes
    (w : World) (root p : Path) (regs : list Registration) (s : State) :
  suffix p = ".py" ->
  in_components w (dash root) p = true ->
  loader_for w (resolve w p) = true ->
  exec_source w (resolve w p) = Ran regs ->
  Forall (fun c => source_path c = p) regs ->
  Forall (fun c => source_path c <> p) (components s) ->
  let s' := exec_state (handle_change w (dash root) (mkChange 1 p)) s in
  outcome (handle_change w (dash root) (mkChange 1 p)) s = Ok tt
  /\ modules s'
     = <[KPath (resolve w p)
         := Some (mkModule (next_id s) (stem p) (resolve w p))]> (modules s)
  /\ components s' = components s ++ regs
  /\ notified s' = notified s ++ [List.map uri regs].
Proof.
  intros Hpy Hin Hl He Hregs Hold. cbv zeta. unfold outcome, exec_state.
  rewrite (handle_added_ok w root p regs s Hpy Hl He). cbn [fst snd].
  repeat split. cbn [notified]. f_equal. f_equal.
  unfold added_routes. rewrite Hin. f_equal.
  rewrite List.filter_app.
  rewrite (filter_none _ (components s)), (filter_all _ regs); [reflexivity| |].
  - eapply Forall_impl; [exact Hregs|].
    intros c Hc. cbn. apply bool_decide_eq_true_2. exact Hc.
  - eapply Forall_impl; [exact Hold|].
    intros c Hc. cbn. apply bool_decide_eq_false_2. exact Hc.
Qed.

Lemma added_event_notifies_new_routes_witness :
  let w := Scenario.world (Scenario.registers Scenario.widget
                             [("/a", 1); ("/b", 2)]) in
  let s' := exec_state (handle_change w Scenario.self
                          (Scenario.Added Scenario.widget)) Scenario.initial in
  outcome (handle_change w Scenario.self (Scenario.Added Scenario.widget))
          Scenario.initial = Ok tt
  /\ modules s'
     = <[KPath Scenario.widget
         := Some (mkModule 0 "widget" Scenario.widget)]> ∅
  /\ components s' = [] ++ [mkRegistration "/a" 1 Scenario.widget;
                            mkRegistration "/b" 2 Scenario.widget]
  /\ notified s' = [] ++ [["/a"; "/b"]].
Proof.
  cbv zeta.
  exact (added_event_notifies_new_routes
           (Scenario.world (Scenario.registers Scenario.widget
                              [("/a", 1); ("/b", 2)]))
           Scenario.root Scenario.widget
           [mkRegistration "/a" 1 Scenario.widget;
            mkRegistration "/b" 2 Scenario.widget]
           Scenario.initial eq_refl eq_refl eq_refl eq_refl
           ltac:(repeat constructor) ltac:(constructor)).
Defined.

(** ** What each kind of event leaves alone *)

Lemma handle_modified_inside w root p s :
  suffix p = ".py" ->
  in_components w (dash root) p = true ->
  handle_change w (dash root) (mkChange 2 p) s
  = (let* module := modules_getitem (KPath (resolve w p)) in
     let* module' := reload w module in
     modify (set_modules <[KPath (resolve w p) := module']>) ;;
     hot_reload_routes (List.map uri (stale w p (components s))))
      (set_components (fun _ => kept w p (components s)) s).
Proof.
  intros Hpy Hin.
  rewrite handle_change_source by assumption. unfold bind at 1.
  rewrite (change_routes_modified_inside w root p s Hin). unfold bind.
  destruct (modules_getitem (KPath (resolve w p)) _) as [[module|e] s1];
    [|reflexivity].
  destruct (reload w module s1) as [[module'|e] s2]; reflexivity.
Qed.

(** X5.  A Modified event, on any path and whatever its outcome, leaves the
    set of paths that have a module record as it was, and touches no
    record but the one of the event's resolved path. *)
Theorem modified_event_keeps_keys
    (w : World) (root p : Path) (s : State) :
  let s' := exec_state (handle_change w (dash root) (mkChange 2 p)) s in
  dom (modules s') = dom (modules s)
  /\ forall k, k <> KPath (resolve w p) -> modules s' !! k = modules s !! k.
Proof.
  cbv zeta. unfold exec_state.
  destruct (String.eqb_spec (suffix p) ".py") as [Hpy|Hpy].
  2:{ rewrite handle_change_other_suffix by assumption. split; reflexivity. }
  assert (Hcont : forall st routes,
            modules st = modules s ->
            let r := (let* module := modules_getitem (KPath (resolve w p)) in
                      let* module' := reload w module in
                      modify (set_modules <[KPath (resolve w p) := module']>) ;;
                      hot_reload_routes routes) st in
            dom (modules (snd r)) = dom (modules s)
            /\ forall k, k <> KPath (resolve w p) ->
                         modules (snd r) !! k = modules s !! k).
  { intros st routes Hm. cbv zeta.
    destruct (modules s !! KPath (resolve w p)) as [v|] eqn:Hk.
    - erewrite bind_ok; [|apply modules_getitem_some; rewrite Hm; exact Hk].
      pose proof (reload_frame w v st) as (Hrm & _). unfold exec_state in Hrm.
      unfold bind. destruct (reload w v st) as [[v'|e] s1]; cbn in *.
      + rewrite Hrm, Hm. split.
        * rewrite dom_insert_L. apply subseteq_union_1_L.
          apply singleton_subseteq_l. eapply elem_of_dom_2. exact Hk.
        * intros k Hne. apply lookup_insert_ne. congruence.
      + rewrite Hrm, Hm. split; reflexivity.
    - erewrite bind_raise; [|apply modules_getitem_none; rewrite Hm; exact Hk].
      cbn. rewrite Hm. split; reflexivity. }
  destruct (in_components w (dash root) p) eqn:Hin.
  - rewrite (handle_modified_inside w root p s Hpy Hin).
    apply Hcont. reflexivity.
  - rewrite handle_modified_outside by assumption.
    specialize (Hcont s [] eq_refl). cbv zeta in Hcont.
    destruct (modules s !! KPath (resolve w p)) as [v|] eqn:Hk.
    + erewrite bind_ok in Hcont; [|apply modules_getitem_some; exact Hk].
      unfold bind in Hcont.
      destruct (reload w v s) as [[v'|e] s1]; exact Hcont.
    + split; reflexivity.
Qed.

Lemma handle_else_known w root k p v s :
  k <> 1%Z -> k <> 2%Z ->
  suffix p = ".py" ->
  modules s !! KPath (resolve w p) = Some v ->
  handle_change w (dash root) (mkChange k p) s
  = (Ok tt, set_notified (fun l => l ++ [[]])
              (set_modules (delete (KPath (resolve w p))) s)).
Proof.
  intros H1 H2 Hpy Hk. rewrite handle_change_source by assumption.
  erewrite bind_ok; [reflexivity|].
  rewrite change_routes_else by assumption.
  change (watch_callbacks (dash root)) with init_callbacks.
  erewrite bind_ok; [|apply run_callbacks_deleted].
  unfold modules_delitem, bind, gets. rewrite Hk. reflexivity.
Qed.

Lemma handle_else_unknown w root k p s :
  k <> 1%Z -> k <> 2%Z ->
  suffix p = ".py" ->
  modules s !! KPath (resolve w p) = None ->
  handle_change w (dash root) (mkChange k p) s = (Raise KeyError, s).
Proof.
  intros H1 H2 Hpy Hk. rewrite handle_change_source by assumption.
  apply bind_raise. apply change_routes_else_unknown; assumption.
Qed.

(** X6.  An event of any kind but Added and Modified executes no source:
    whether it completes or raises KeyError, the registry, [sys.modules],
    [sys.meta_path] and the console are as before, and so is every module
    record but the one of the event's resolved path.  The module of a
    deleted file stays bound in [sys.modules]. *)
Theorem removed_event_executes_nothing
    (w : World) (root p : Path) (k : Z) (s : State) :
  k <> 1%Z -> k <> 2%Z ->
  let s' := exec_state (handle_change w (dash root) (mkChange k p)) s in
  components s' = components s
  /\ sys_modules s' = sys_modules s
  /\ meta_path s' = meta_path s
  /\ echoed s' = echoed s
  /\ forall q, q <> KPath (resolve w p) -> modules s' !! q = modules s !! q.
Proof.
  intros H1 H2. cbv zeta. unfold exec_state.
  destruct (String.eqb_spec (suffix p) ".py") as [Hpy|Hpy].
  2:{ rewrite handle_change_other_suffix by assumption.
      do 4 (split; [reflexivity|]). reflexivity. }
  destruct (modules s !! KPath (resolve w p)) as [v|] eqn:Hk.
  - rewrite (handle_else_known w root k p v s H1 H2 Hpy Hk). cbn.
    do 4 (split; [reflexivity|]).
    intros q Hq. apply lookup_delete_ne. congruence.
  - rewrite (handle_else_unknown w root k p s H1 H2 Hpy Hk).
    do 4 (split; [reflexivity|]). reflexivity.
Qed.

Lemma removed_event_executes_nothing_witness :
  let w := Scenario.world (Scenario.raises Scenario.widget FileNotFoundError) in
  let s := Scenario.started [("/widget", 7)] in
  let s' := exec_state (handle_change w Scenario.self
                          (Scenario.Removed Scenario.widget)) s in
  components s' = components s
  /\ sys_modules s' = sys_modules s
  /\ meta_path s' = meta_path s
  /\ echoed s' = echoed s
  /\ forall q, q <> KPath Scenario.widget -> modules s' !! q = modules s !! q.
Proof.
  cbv zeta.
  exact (removed_event_executes_nothing
           (Scenario.world (Scenario.raises Scenario.widget FileNotFoundError))
           Scenario.root Scenario.widget 3 (Scenario.started [("/widget", 7)])
           ltac:(discriminate) ltac:(discriminate)).
Defined.

(** X7.  A batch in which no path has the suffix .py is ignored: whatever
    the kinds and the callback table, nothing is loaded, changed or
    notified. *)
Theorem non_source_batch_is_ignored
    (w : World) (self : SloDash) (changes : list Change) (s : State) :
  Forall (fun c => is_source c = false) changes ->
  watch_batch w self changes s = (Ok tt, s).
Proof.
  induction 1 as [|c rest Hc _ IH]; [reflexivity|].
  simpl watch_batch. erewrite bind_ok; [exact IH|].
  unfold handle_change. unfold is_source in Hc. rewrite Hc. reflexivity.
Qed.

Lemma non_source_batch_is_ignored_witness :
  let w := Scenario.world (Scenario.raises Scenario.widget SyntaxError) in
  let readme := mkPath true ["proj"; "components"; "README.md"] in
  watch_batch w Scenario.self
    [mkChange 2 readme; mkChange 3 readme; mkChange 1 (mkPath true ["proj"; ".py"])]
    (Scenario.started [("/widget", 7)])
  = (Ok tt, Scenario.started [("/widget", 7)]).
Proof.
  cbv zeta.
  exact (non_source_batch_is_ignored
           (Scenario.world (Scenario.raises Scenario.widget SyntaxError))
           Scenario.self _ (Scenario.started [("/widget", 7)])
           ltac:(repeat constructor)).
Defined.

(** ** The keys of the dict under the watch loop *)

Lemma modified_event_dom w root p s :
  dom (modules (exec_state (handle_change w (dash root) (mkChange 2 p)) s))
  = dom (modules s).
Proof.
  unfold exec_state.
  destruct (String.eqb_spec (suffix p) ".py") as [Hpy|Hpy].
  2:{ rewrite handle_change_other_suffix by assumption. reflexivity. }
  assert (Hcont : forall st routes,
            modules st = modules s ->
            dom (modules (snd
              ((let* module := modules_getitem (KPath (resolve w p)) in
                let* module' := reload w module in
                modify (set_modules <[KPath (resolve w p) := module']>) ;;
                hot_reload_routes routes) st)))
            = dom (modules s)).
  { intros st routes Hm.
    destruct (modules s !! KPath (resolve w p)) as [v|] eqn:Hk.
    - erewrite bind_ok; [|apply modules_getitem_some; rewrite Hm; exact Hk].
      pose proof (reload_frame w v st) as (Hrm & _). unfold exec_state in Hrm.
      unfold bind. destruct (reload w v st) as [[v'|e] s1]; cbn in *.
      + rewrite Hrm, Hm, dom_insert_L. apply subseteq_union_1_L.
        apply singleton_subseteq_l. eapply elem_of_dom_2. exact Hk.
      + rewrite Hrm, Hm. reflexivity.
    - erewrite bind_raise; [|apply modules_getitem_none; rewrite Hm; exact Hk].
      cbn. rewrite Hm. reflexivity. }
  destruct (in_components w (dash root) p) eqn:Hin.
  - rewrite (handle_modified_inside w root p s Hpy Hin).
    apply Hcont. reflexivity.
  - rewrite handle_modified_outside by assumption.
    specialize (Hcont s [] eq_refl).
    destruct (modules s !! KPath (resolve w p)) as [v|] eqn:Hk.
    + erewrite bind_ok in Hcont; [|apply modules_getitem_some; exact Hk].
      unfold bind in Hcont.
      destruct (reload w v s) as [[v'|e] s1]; exact Hcont.
    + reflexivity.
Qed.

Lemma else_event_dom w root p k s :
  k <> 1%Z -> k <> 2%Z ->
  dom (modules (exec_state (handle_change w (dash root) (mkChange k p)) s))
  ⊆ dom (modules s).
Proof.
  intros H1 H2. unfold exec_state.
  destruct (String.eqb_spec (suffix p) ".py") as [Hpy|Hpy].
  2:{ rewrite handle_change_other_suffix by assumption. reflexivity. }
  destruct (modules s !! KPath (resolve w p)) as [v|] eqn:Hk.
  - rewrite (handle_else_known w root k p v s H1 H2 Hpy Hk). cbn.
    rewrite dom_delete_L. apply subseteq_difference_l. reflexivity.
  - rewrite (handle_else_unknown w root k p s H1 H2 Hpy Hk). reflexivity.
Qed.

Lemma handle_change_new_keys w root c s :
  dom (modules (exec_state (handle_change w (dash root) c) s))
  ⊆ dom (modules s)
    ∪ (if (kind c =? 1)%Z && is_source c
       then {[KPath (resolve w (cpath c))]} else ∅).
Proof.
  destruct c as [k p]. unfold is_source. cbn [kind cpath].
  destruct (String.eqb_spec (suffix p) ".py") as [Hpy|Hpy].
  2:{ unfold exec_state. rewrite handle_change_other_suffix by assumption.
      rewrite andb_false_r. apply union_subseteq_l. }
  rewrite andb_true_r. destruct (Z.eqb_spec k 1) as [->|H1].
  - unfold exec_state. rewrite handle_added by assumption.
    pose proof (import_file_frame w p s) as (Hm & _). unfold exec_state in Hm.
    destruct (import_file w p s) as [[module|e] s1]; cbn in *.
    + rewrite dom_insert_L, Hm, (comm_L union). reflexivity.
    + rewrite Hm. apply union_subseteq_l.
  - destruct (Z.eq_dec k 2%Z) as [->|H2].
    + rewrite modified_event_dom. apply union_subseteq_l.
    + etransitivity; [apply else_event_dom; assumption|apply union_subseteq_l].
Qed.

(** X8.  Over a whole batch, whatever its outcome, the watch loop files
    module records under resolved paths only: every key the dict holds
    afterwards was there before, or is the resolved path of an Added
    event of the batch on a source-suffix path. *)
Theorem watch_batch_new_keys
    (w : World) (root : Path) (changes : list Change) (s : State) (k : Key) :
  k ∈ dom (modules (exec_state (watch_batch w (dash root) changes) s)) ->
  k ∈ dom (modules s)
  \/ exists c, c ∈ changes /\ kind c = 1%Z /\ is_source c = true
               /\ k = KPath (resolve w (cpath c)).
Proof.
  revert s. induction changes as [|c rest IH]; intros s Hk.
  - left. exact Hk.
  - unfold exec_state in Hk. simpl watch_batch in Hk. unfold bind in Hk.
    pose proof (handle_change_new_keys w root c s) as Hc.
    unfold exec_state in Hc.
    destruct (handle_change w (dash root) c s) as [[[]|e] s1]; cbn [snd] in *.
    + destruct (IH s1 Hk) as [Hin|(c' & Hc' & Hrest)].
      * apply Hc in Hin. apply elem_of_union in Hin as [Hin|Hin]; [left; exact Hin|].
        right. exists c.
        destruct (Z.eqb_spec (kind c) 1) as [E|E]; cbn [andb] in Hin;
          [|apply elem_of_empty in Hin; contradiction].
        destruct (is_source c) eqn:Hs; [|apply elem_of_empty in Hin; contradiction].
        apply elem_of_singleton in Hin.
        split; [apply elem_of_cons; left; reflexivity|]. auto.
      * right. exists c'. split; [apply elem_of_cons; right; exact Hc'|exact Hrest].
    + apply Hc in Hk. apply elem_of_union in Hk as [Hin|Hin]; [left; exact Hin|].
      right. exists c.
      destruct (Z.eqb_spec (kind c) 1) as [E|E]; cbn [andb] in Hin;
        [|apply elem_of_empty in Hin; contradiction].
      destruct (is_source c) eqn:Hs; [|apply elem_of_empty in Hin; contradiction].
      apply elem_of_singleton in Hin.
      split; [apply elem_of_cons; left; reflexivity|]. auto.
Qed.

Lemma watch_batch_new_keys_witness :
  let w := Scenario.world (Scenario.registers Scenario.widget [("/widget", 7)]) in
  let batch := [Scenario.Added Scenario.helper; Scenario.Removed Scenario.widget] in
  KPath Scenario.helper ∈ dom (modules (Scenario.started [("/widget", 7)]))
  \/ exists c, c ∈ batch /\ kind c = 1%Z /\ is_source c = true
               /\ KPath Scenario.helper = KPath (resolve w (cpath c)).
Proof.
  cbv zeta.
  apply (watch_batch_new_keys
           (Scenario.world (Scenario.registers Scenario.widget [("/widget", 7)]))
           Scenario.root
           [Scenario.Added Scenario.helper; Scenario.Removed Scenario.widget]
           (Scenario.started [("/widget", 7)]) (KPath Scenario.helper)).
  apply elem_of_dom. vm_compute. eauto.
Defined.

(** ** The two callbacks *)




(** X10.  [watch_component_added] only reads: it returns the state it was
    given.  Every URI it answers with belongs to a registration that
    [watch_component_modified] would remove for the same path: the answer
    is a sublist of the URIs of those registrations. *)
Theorem added_routes_within_stale (w : World) (root p : Path) (s : State) :
  watch_component_added w (dash root) p s
  = (Ok (added_routes w root p (components s)), s)
  /\ sublist (added_routes w root p (components s))
             (List.map uri (stale w p (components s))).
Proof.
  split.
  - unfold watch_component_added, added_routes, bind, gets, ret.
    destruct (in_components w (dash root) p); reflexivity.
  - unfold added_routes, stale.
    destruct (in_components w (dash root) p); [|apply sublist_nil_l].
    induction (components s) as [|c l IH]; [constructor|]. simpl.
    destruct (bool_decide_reflect (source_path c = p)) as [E|E].
    + assert (Hs : same_source w p c = true).
      { unfold same_source. rewrite E. apply String.eqb_refl. }
      rewrite Hs. simpl. apply sublist_skip. exact IH.
    + destruct (same_source w p c); simpl; [apply sublist_cons|]; exact IH.
Qed.

(** ** [run] *)

Lemma import_components_dom w paths : forall d s,
  match import_components w paths d s with
  | (Ok d', _) =>
      dom d' = dom d ∪ list_to_set (List.map (fun c => KPath (resolve w c)) paths)
  | (Raise _, _) => True
  end.
Proof.
  induction paths as [|c rest IH]; intros d s; simpl.
  - rewrite (right_id_L ∅ union). reflexivity.
  - unfold bind. destruct (import_file w c s) as [[module|e] s1]; [|exact I].
    specialize (IH (<[KPath (resolve w c) := module]> d) s1).
    destruct (import_components w rest _ s1) as [[d'|e] s2]; [|exact I].
    rewrite IH, dom_insert_L.
    rewrite (comm_L union {[KPath (resolve w c)]} (dom d)).
    rewrite <- (assoc_L union). reflexivity.
Qed.

Lemma import_components_frame w paths : forall d s,
  modules (snd (import_components w paths d s)) = modules s.
Proof.
  induction paths as [|c rest IH]; intros d s; simpl; [reflexivity|].
  unfold bind. pose proof (import_file_frame w c s) as (Hm & _).
  unfold exec_state in Hm.
  destruct (import_file w c s) as [[module|e] s1]; cbn in *; [|exact Hm].
  rewrite IH. exact Hm.
Qed.

(** What a completed [run] went through. *)
Lemma run_inversion w config_path config s self s' :
  run w config_path config s = (Ok self, s') ->
  exists pre s0 main s1 entries loaded s3,
    match cfg_preprocessor config with
    | Some p => import_file w p
    | None => ret None
    end s = (Ok pre, s0)
    /\ import_file w (cfg_main config) s0 = (Ok main, s1)
    /\ iterdir w (cfg_components config) = Some entries
    /\ import_components w
         (List.filter (fun c => String.eqb (suffix c) ".py") entries) ∅ s1
       = (Ok loaded, s3)
    /\ self = dash (parent config_path)
    /\ s' = set_modules
              (fun _ => loaded ∪ {[KResolveMethod (cfg_main config) := main]}) s3.
Proof.
  unfold run. destruct (cfg_runtime_tasks config) as [tasks|]; [|discriminate].
  unfold bind at 1, ret at 1. cbv beta iota. unfold bind at 1.
  destruct (match cfg_preprocessor config with
            | Some p => import_file w p
            | None => ret None
            end s) as [[pre|e] s0] eqn:Hp; [|discriminate].
  unfold bind at 1.
  destruct (import_file w (cfg_main config) s0) as [[main|e] s1] eqn:Hmain;
    [|discriminate].
  destruct (iterdir w (cfg_components config)) as [entries|]; [|discriminate].
  unfold bind at 1. unfold ret at 1. unfold bind at 1.
  destruct (import_components w _ ∅ s1) as [[loaded|e] s3] eqn:Hl; [|discriminate].
  cbn. intros H. injection H as <- <-.
  exists pre, s0, main, s1, entries, loaded, s3.
  split; [reflexivity|]. split; [exact Hmain|]. split; [reflexivity|].
  split; [exact Hl|]. split; reflexivity.
Qed.

(** X11.  When [run] gets to build the [SloDash] object, its [self.path]
    is the parent of the configuration path, and the dict of module
    records holds exactly: the main module under the bound method
    [path.resolve], and one record under the resolved path of every entry
    of the components directory whose suffix is .py; entries with another
    suffix are not loaded. *)
Theorem run_store_keys
    (w : World) (config_path : Path) (config : Config) (s s' : State)
    (self : SloDash) (entries : list Path) :
  run w config_path config s = (Ok self, s') ->
  iterdir w (cfg_components config) = Some entries ->
  self = dash (parent config_path)
  /\ forall k,
       k ∈ dom (modules s')
       <-> k = KResolveMethod (cfg_main config)
           \/ exists c, c ∈ entries /\ suffix c = ".py"
                        /\ k = KPath (resolve w c).
Proof.
  intros Hrun Hdir.
  destruct (run_inversion _ _ _ _ _ _ Hrun)
    as (pre & s0 & main & s1 & entries' & loaded & s3
        & _ & _ & Hdir' & Hl & -> & ->).
  rewrite Hdir in Hdir'. injection Hdir' as <-.
  split; [reflexivity|]. intros k. cbn [modules set_modules].
  pose proof (import_components_dom w
                (List.filter (fun c => String.eqb (suffix c) ".py") entries)
                ∅ s1) as Hd.
  rewrite Hl in Hd. rewrite dom_union_L, Hd, dom_empty_L, dom_singleton_L.
  rewrite (left_id_L ∅ union).
  rewrite elem_of_union, elem_of_singleton, elem_of_list_to_set.
  rewrite list_elem_of_In, List.in_map_iff. split.
  - intros [(c & <- & Hc) | ->]; [right|left; reflexivity].
    apply List.filter_In in Hc as [Hc Hs]. exists c.
    split; [apply list_elem_of_In; exact Hc|].
    split; [apply String.eqb_eq; exact Hs|reflexivity].
  - intros [ -> | (c & Hc & Hs & ->)]; [right; reflexivity|left].
    exists c. split; [reflexivity|]. apply List.filter_In.
    split; [apply list_elem_of_In; exact Hc|apply String.eqb_eq; exact Hs].
Qed.

Lemma run_store_keys_witness :
  Scenario.self = dash (parent Scenario.config_path)
  /\ forall k,
       k ∈ dom (modules (Scenario.started [("/widget", 7)]))
       <-> k = KResolveMethod (mkPath false ["app.py"])
           \/ exists c, c ∈ [mkPath false ["components"; "widget.py"];
                             mkPath false ["components"; "README.md"]]
                        /\ suffix c = ".py"
                        /\ k = KPath
                                 (resolve
                                    (Scenario.world
                                       (Scenario.registers Scenario.widget
                                                           [("/widget", 7)])) c).
Proof.
  exact (run_store_keys
           (Scenario.world (Scenario.registers Scenario.widget [("/widget", 7)]))
           Scenario.config_path Scenario.config Scenario.initial
           (Scenario.started [("/widget", 7)]) Scenario.self
           [mkPath false ["components"; "widget.py"];
            mkPath false ["components"; "README.md"]]
           eq_refl eq_refl).
Defined.

(** [run] stops at line 84 for a config without "runtime_tasks". *)
Lemma run_no_tasks w config_path config s :
  cfg_runtime_tasks config = None ->
  run w config_path config s = (Raise KeyError, s).
Proof. intros H. unfold run. rewrite H. reflexivity. Qed.

(** [run] past line 84. *)
Lemma run_tasks w config_path config tasks s :
  cfg_runtime_tasks config = Some tasks ->
  run w config_path config s
  = ((match cfg_preprocessor config with
      | Some p => import_file w p
      | None => ret None
      end) ;;
     let* main := import_file w (cfg_main config) in
     let* entries :=
       match iterdir w (cfg_components config) with
       | Some l => ret l
       | None => raise (iterdir_error w (cfg_components config))
       end in
     let* loaded :=
       import_components w
         (List.filter (fun c => String.eqb (suffix c) ".py") entries) ∅ in
     SloDash_init (loaded ∪ {[ KResolveMethod (cfg_main config) := main ]})
                  (parent config_path)) s.
Proof. intros H. unfold run. rewrite H. reflexivity. Qed.

(** X12.  When [iterdir] fails on the components path (there is no such
    directory, or the path is a regular file), [run] never builds the
    [SloDash] object: it raises, and the dict of module records is not
    installed.  When the config has "runtime_tasks" and no preprocessor
    and the main file loads, the exception is the OSError of [iterdir],
    raised after the main file has been executed: its registrations are in
    the registry and its module is bound in [sys.modules]. *)
Theorem run_without_components_directory
    (w : World) (config_path : Path) (config : Config) (s : State) :
  iterdir w (cfg_components config) = None ->
  let s' := exec_state (run w config_path config) s in
  (exists e, outcome (run w config_path config) s = Raise e)
  /\ modules s' = modules s
  /\ (cfg_runtime_tasks config <> None ->
      cfg_preprocessor config = None ->
      forall regs,
        loader_for w (resolve w (cfg_main config)) = true ->
        exec_source w (resolve w (cfg_main config)) = Ran regs ->
        outcome (run w config_path config) s
        = Raise (iterdir_error w (cfg_components config))
        /\ components s' = components s ++ regs
        /\ sys_modules s' !! stem (cfg_main config)
           = Some (mkModule (next_id s) (stem (cfg_main config))
                            (resolve w (cfg_main config)))).
Proof.
  intros Hdir. cbv zeta. unfold outcome, exec_state.
  destruct (cfg_runtime_tasks config) as [tasks|] eqn:Ht.
  2:{ rewrite (run_no_tasks w config_path config s Ht). cbn.
      split; [eauto|]. split; [reflexivity|]. intros H; contradiction. }
  rewrite (run_tasks w config_path config tasks s Ht).
  assert (Hgen : exists e s', run w config_path config s = (Raise e, s')
                              /\ modules s' = modules s).
  { rewrite (run_tasks w config_path config tasks s Ht).
    rewrite Hdir. unfold bind at 1.
    assert (Hpre : modules (snd (match cfg_preprocessor config with
                                 | Some p => import_file w p
                                 | None => ret None
                                 end s)) = modules s).
    { destruct (cfg_preprocessor config) as [p|]; [|reflexivity].
      apply (import_file_frame w p s). }
    destruct (match cfg_preprocessor config with
              | Some p => import_file w p
              | None => ret None
              end s) as [[pre|e] s0]; cbn in Hpre; [|eauto].
    unfold bind at 1.
    pose proof (import_file_frame w (cfg_main config) s0) as (Hm & _).
    unfold exec_state in Hm.
    destruct (import_file w (cfg_main config) s0) as [[main|e] s1]; cbn in *.
    - eexists _, _. split; [reflexivity|]. rewrite Hm. exact Hpre.
    - eexists _, _. split; [reflexivity|]. rewrite Hm. exact Hpre. }
  rewrite <- (run_tasks w config_path config tasks s Ht).
  destruct Hgen as (e & s' & Hrun & Hm). rewrite Hrun. cbn [fst snd].
  split; [eauto|]. split; [exact Hm|].
  intros _ Hnone regs Hl Hexec. revert Hrun.
  rewrite (run_tasks w config_path config tasks s Ht). rewrite Hnone, Hdir.
  unfold bind at 1. unfold ret at 1. unfold bind at 1.
  rewrite (import_file_ok w (cfg_main config) regs s Hl Hexec). cbn.
  intros H. injection H as <- <-. cbn.
  split; [reflexivity|]. split; [reflexivity|]. apply lookup_insert_eq.
Qed.

(** The components path of the config names a regular file. *)
Lemma run_without_components_directory_witness :
  let w := mkWorld Scenario.lexical_resolve
                   (fun p => String.eqb (suffix p) ".py")
                   (Scenario.registers Scenario.app_py [("/home", 5)])
                   (fun _ => None)
                   (fun _ => NotADirectoryError)
                   (fun _ => false)
                   (fun _ _ => None) in
  let config := mkConfig (mkPath false ["app.py"]) (mkPath false ["notes.txt"])
                         None (Some []) in
  let s' := exec_state (run w Scenario.config_path config) Scenario.initial in
  (exists e, outcome (run w Scenario.config_path config) Scenario.initial = Raise e)
  /\ modules s' = ∅
  /\ outcome (run w Scenario.config_path config) Scenario.initial
     = Raise NotADirectoryError
  /\ components s' = [] ++ [mkRegistration "/home" 5 Scenario.app_py]
  /\ sys_modules s' !! "app" = Some (mkModule 0 "app" Scenario.app_py).
Proof.
  cbv zeta.
  pose proof (run_without_components_directory
                (mkWorld Scenario.lexical_resolve
                   (fun p => String.eqb (suffix p) ".py")
                   (Scenario.registers Scenario.app_py [("/home", 5)])
                   (fun _ => None)
                   (fun _ => NotADirectoryError)
                   (fun _ => false)
                   (fun _ _ => None))
                Scenario.config_path
                (mkConfig (mkPath false ["app.py"]) (mkPath false ["notes.txt"])
                          None (Some []))
                Scenario.initial eq_refl) as (H1 & H2 & H3).
  split; [exact H1|]. split; [exact H2|].
  exact (H3 ltac:(discriminate) eq_refl
            [mkRegistration "/home" 5 Scenario.app_py] eq_refl eq_refl).
Defined.

(** X13.  A main file whose load fails with anything but AttributeError
    makes [run] raise before the components directory is read: no
    [SloDash] object is built and no module record installed.  The
    exception is the one of the main file whenever the config has
    "runtime_tasks" and the preprocessor, if there is one, gets through
    [import_file] (it loads, or fails with AttributeError). *)
Theorem run_propagates_main_failure
    (w : World) (config_path : Path) (config : Config) (s : State) (e : Exn) :
  load_error w (resolve w (cfg_main config)) = Some e ->
  e <> AttributeError ->
  (exists e', outcome (run w config_path config) s = Raise e')
  /\ modules (exec_state (run w config_path config) s) = modules s
  /\ (cfg_runtime_tasks config <> None ->
      (forall pp, cfg_preprocessor config = Some pp ->
                  load_error w (resolve w pp) = None
                  \/ load_error w (resolve w pp) = Some AttributeError) ->
      outcome (run w config_path config) s = Raise e).
Proof.
  intros Herr Hne. unfold outcome, exec_state.
  destruct (cfg_runtime_tasks config) as [tasks|] eqn:Ht.
  2:{ rewrite (run_no_tasks w config_path config s Ht). cbn.
      split; [eauto|]. split; [reflexivity|]. intros H; contradiction. }
  assert (Hmain : forall s0, exists s1,
             import_file w (cfg_main config) s0 = (Raise e, s1)
             /\ modules s1 = modules s0).
  { intros s0.
    pose proof (import_file_outcome w (cfg_main config) s0) as Ho.
    pose proof (import_file_frame w (cfg_main config) s0) as (Hm & _).
    rewrite Herr in Ho. destruct (decide (e = AttributeError)); [contradiction|].
    unfold outcome, exec_state in *.
    destruct (import_file w (cfg_main config) s0) as [r s1]. cbn in *.
    subst r. eauto. }
  assert (Hrun : exists e' s1,
             run w config_path config s = (Raise e', s1)
             /\ modules s1 = modules s
             /\ ((forall pp, cfg_preprocessor config = Some pp ->
                    load_error w (resolve w pp) = None
                    \/ load_error w (resolve w pp) = Some AttributeError) ->
                 e' = e)).
  { rewrite (run_tasks w config_path config tasks s Ht). unfold bind at 1.
    assert (Hpre : modules (snd (match cfg_preprocessor config with
                                 | Some p => import_file w p
                                 | None => ret None
                                 end s)) = modules s).
    { destruct (cfg_preprocessor config) as [p|]; [|reflexivity].
      apply (import_file_frame w p s). }
    assert (Hpp : (forall pp, cfg_preprocessor config = Some pp ->
                     load_error w (resolve w pp) = None
                     \/ load_error w (resolve w pp) = Some AttributeError) ->
                  exists pre, fst (match cfg_preprocessor config with
                                   | Some p => import_file w p
                                   | None => ret None
                                   end s) = Ok pre).
    { intros H. destruct (cfg_preprocessor config) as [pp|]; [|cbn; eauto].
      pose proof (import_file_outcome w pp s) as Ho. unfold outcome in Ho.
      rewrite Ho. destruct (H pp eq_refl) as [-> | ->]; [eauto|].
      destruct (decide (AttributeError = AttributeError)); [eauto|contradiction]. }
    destruct (match cfg_preprocessor config with
              | Some p => import_file w p
              | None => ret None
              end s) as [[pre|e0] s0]; cbn [fst snd] in *.
    - destruct (Hmain s0) as (s1 & Hs1 & Hm1).
      unfold bind at 1. rewrite Hs1.
      exists e, s1. split; [reflexivity|]. split; [congruence|]. intros _.
      reflexivity.
    - exists e0, s0. split; [reflexivity|]. split; [exact Hpre|].
      intros H. destruct (Hpp H) as (pre & Hpre'). discriminate Hpre'. }
  destruct Hrun as (e' & s1 & -> & Hm & He). cbn [fst snd].
  split; [eauto|]. split; [exact Hm|]. intros _ H. rewrite (He H). reflexivity.
Qed.

Lemma run_propagates_main_failure_witness :
  let w := Scenario.world (Scenario.raises Scenario.app_py SyntaxError) in
  let config := mkConfig (mkPath false ["app.py"]) (mkPath false ["components"])
                         (Some (mkPath false ["pre.txt"])) (Some []) in
  (exists e', outcome (run w Scenario.config_path config) Scenario.initial
              = Raise e')
  /\ modules (exec_state (run w Scenario.config_path config) Scenario.initial)
     = modules Scenario.initial
  /\ outcome (run w Scenario.config_path config) Scenario.initial
     = Raise SyntaxError.
Proof.
  cbv zeta.
  pose proof (run_propagates_main_failure
                (Scenario.world (Scenario.raises Scenario.app_py SyntaxError))
                Scenario.config_path
                (mkConfig (mkPath false ["app.py"]) (mkPath false ["components"])
                          (Some (mkPath false ["pre.txt"])) (Some []))
                Scenario.initial SyntaxError
                eq_refl ltac:(discriminate)) as (H1 & H2 & H3).
  split; [exact H1|]. split; [exact H2|].
  apply H3; [discriminate|].
  intros pp Hpp. injection Hpp as <-. right. reflexivity.
Defined.

(** * Further properties of react/tools.py *)

(** ** [find_component_in_app] *)

Section FindComponentProperties.

Variable Instance : Type.
Variable isinstance : Instance -> nat -> bool.

Lemma find_in_spec (instance : Instance) (l : list Registration) :
  match find_in Instance isinstance instance l with
  | FoundComponent c =>
      exists pre post,
        l = pre ++ c :: post
        /\ isinstance instance (component c) = true
        /\ Forall (fun c' => isinstance instance (component c') = false) pre
  | PyFalse => Forall (fun c => isinstance instance (component c) = false) l
  end.
Proof.
  induction l as [|c l IH]; simpl; [constructor|].
  destruct (isinstance instance (component c)) eqn:E.
  - exists [], l. split; [reflexivity|]. split; [exact E|constructor].
  - destruct (find_in Instance isinstance instance l) as [c'|].
    + destruct IH as (pre & post & -> & Hc & Hpre).
      exists (c :: pre), post. split; [reflexivity|]. split; [exact Hc|].
      constructor; assumption.
    + constructor; assumption.
Qed.

(** X14.  [find_component_in_app] only reads the registry.  It returns the
    first registration, in registry order, whose class the instance is an
    instance of, and False exactly when there is none. *)
Theorem find_component_in_app_first_match (instance : Instance) (s : State) :
  exists r,
    find_component_in_app Instance isinstance instance s = (Ok r, s)
    /\ match r with
       | FoundComponent c =>
           exists pre post,
             components s = pre ++ c :: post
             /\ isinstance instance (component c) = true
             /\ Forall (fun c' => isinstance instance (component c') = false) pre
       | PyFalse =>
           Forall (fun c => isinstance instance (component c) = false)
                  (components s)
       end.
Proof.
  exists (find_in Instance isinstance instance (components s)).
  split; [reflexivity|]. apply find_in_spec.
Qed.

Lemma find_in_kept w p instance l c :
  find_in Instance isinstance instance l = FoundComponent c ->
  same_source w p c = false ->
  find_in Instance isinstance instance (kept w p l) = FoundComponent c.
Proof.
  unfold kept. induction l as [|c' l IH]; simpl; [discriminate|].
  destruct (isinstance instance (component c')) eqn:E.
  - intros H Hs. injection H as ->. rewrite Hs. simpl. rewrite E. reflexivity.
  - intros H Hs. destruct (same_source w p c'); simpl; [auto|].
    rewrite E. auto.
Qed.

(** X15.  After [watch_component_modified] has purged a file under the
    components directory, [find_component_in_app] never answers with a
    registration of that file, and an instance that resolved to a
    registration of another file before the purge resolves to the same
    registration after it. *)
Theorem purge_hides_stale_components
    (w : World) (root p : Path) (instance : Instance) (s : State) :
  in_components w (dash root) p = true ->
  let s' := exec_state (watch_component_modified w (dash root) p) s in
  (forall c,
     outcome (find_component_in_app Instance isinstance instance) s'
     = Ok (FoundComponent c) ->
     same_source w p c = false /\ c ∈ components s)
  /\ (forall c,
        outcome (find_component_in_app Instance isinstance instance) s
        = Ok (FoundComponent c) ->
        same_source w p c = false ->
        outcome (find_component_in_app Instance isinstance instance) s'
        = Ok (FoundComponent c)).
Proof.
  intros Hin. cbv zeta. unfold exec_state, outcome.
  rewrite (watch_component_modified_inside w p root s Hin).
  unfold find_component_in_app, bind, gets, ret. cbn. split.
  - intros c H. injection H as H.
    pose proof (find_in_spec instance (kept w p (components s))) as Hs.
    rewrite H in Hs. destruct Hs as (pre & post & Hl & _ & _).
    assert (Hc : c ∈ kept w p (components s)).
    { rewrite Hl. apply elem_of_app. right. apply elem_of_cons. left. reflexivity. }
    apply list_elem_of_In in Hc. apply List.filter_In in Hc as [Hc Hs].
    split; [apply negb_true_iff; exact Hs|apply list_elem_of_In; exact Hc].
  - intros c H Hs. injection H as H. f_equal.
    apply find_in_kept; assumption.
Qed.

End FindComponentProperties.

Lemma purge_hides_stale_components_witness :
  let w := Scenario.world (Scenario.registers Scenario.widget [("/widget2", 8)]) in
  let isinstance := fun (cls : nat) (registered_cls : nat) =>
                      Nat.eqb cls registered_cls in
  let s := Scenario.started [("/widget", 7)] in
  let s' := exec_state (watch_component_modified w Scenario.self Scenario.widget) s in
  outcome (find_component_in_app nat isinstance 7) s
  = Ok (FoundComponent (mkRegistration "/widget" 7 Scenario.widget))
  /\ outcome (find_component_in_app nat isinstance 7) s' = Ok PyFalse
  /\ forall c,
       outcome (find_component_in_app nat isinstance 7) s'
       = Ok (FoundComponent c) ->
       same_source w Scenario.widget c = false /\ c ∈ components s.
Proof.
  cbv zeta. split; [reflexivity|]. split; [reflexivity|].
  exact (proj1 (purge_hides_stale_components nat
                  (fun cls registered_cls => Nat.eqb cls registered_cls)
                  (Scenario.world (Scenario.registers Scenario.widget [("/widget2", 8)]))
                  Scenario.root Scenario.widget 7
                  (Scenario.started [("/widget", 7)]) eq_refl)).
Defined.

(** ** [uri_checker] *)

(** X16.  [uri_checker] never returns anything but its argument: a
    successful result is the URI itself, for every [urlparse]; and an
    exception raised by [urlparse] leaves [uri_checker] unchanged. *)
Theorem uri_checker_returns_its_argument
    (urlparse : string -> Result Tools.ParseResult) (uri : string) :
  (forall u, Tools.uri_checker urlparse uri = Ok u -> u = uri)
  /\ (forall e, uri <> "" -> urlparse uri = Raise e ->
                Tools.uri_checker urlparse uri = Raise e).
Proof.
  unfold Tools.uri_checker, Tools.truthy. split.
  - intros u. destruct (String.eqb_spec uri "") as [->|Hne]; cbn [negb].
    + intros H. injection H as <-. reflexivity.
    + destruct (urlparse uri) as [r|e]; [|discriminate].
      destruct (_ && _); [|discriminate]. intros H. injection H as <-. reflexivity.
  - intros e Hne Hp. destruct (String.eqb_spec uri ""); [contradiction|].
    cbn [negb]. rewrite Hp. reflexivity.
Qed.

(** ** [SloDebugHandler] *)

Lemma items_get_set_eq {V} (d : list (string * V)) k v :
  items_get (items_set d k v) k = Some v.
Proof.
  induction d as [|[k' v'] d IH]; simpl.
  - rewrite String.eqb_refl. reflexivity.
  - destruct (String.eqb_spec k' k) as [->|Hne]; simpl.
    + rewrite String.eqb_refl. reflexivity.
    + destruct (String.eqb_spec k' k); [contradiction|exact IH].
Qed.

Lemma items_get_set_ne {V} (d : list (string * V)) k k' v :
  k' <> k -> items_get (items_set d k v) k' = items_get d k'.
Proof.
  intros Hne. induction d as [|[k0 v0] d IH]; simpl.
  - destruct (String.eqb_spec k k'); [congruence|reflexivity].
  - destruct (String.eqb_spec k0 k) as [->|H0]; simpl.
    + destruct (String.eqb_spec k k'); [congruence|reflexivity].
    + destruct (String.eqb_spec k0 k'); [reflexivity|exact IH].
Qed.

Lemma items_set_same {V} (d : list (string * V)) k v :
  items_get d k = Some v -> items_set d k v = d.
Proof.
  induction d as [|[k' v'] d IH]; simpl; [discriminate|].
  destruct (String.eqb_spec k' k) as [->|Hne].
  - intros H. injection H as ->. reflexivity.
  - intros H. rewrite (IH H). reflexivity.
Qed.

Lemma items_set_set {V} (d : list (string * V)) k v1 v2 :
  items_set (items_set d k v1) k v2 = items_set d k v2.
Proof.
  induction d as [|[k' v'] d IH]; simpl.
  - rewrite String.eqb_refl. reflexivity.
  - destruct (String.eqb_spec k' k) as [->|Hne]; simpl.
    + rewrite String.eqb_refl. reflexivity.
    + destruct (String.eqb_spec k' k); [contradiction|]. rewrite IH. reflexivity.
Qed.

Lemma items_get_del_eq {V} (d : list (string * V)) k :
  items_get (items_del d k) k = None.
Proof.
  unfold items_del. induction d as [|[k' v'] d IH]; simpl; [reflexivity|].
  destruct (String.eqb_spec k' k) as [->|Hne]; simpl; [exact IH|].
  destruct (String.eqb_spec k' k); [contradiction|exact IH].
Qed.

Lemma items_get_del_ne {V} (d : list (string * V)) k k' :
  k' <> k -> items_get (items_del d k) k' = items_get d k'.
Proof.
  intros Hne. unfold items_del. induction d as [|[k0 v0] d IH]; simpl; [reflexivity|].
  destruct (String.eqb_spec k0 k) as [->|H0]; simpl.
  - destruct (String.eqb_spec k k'); [congruence|exact IH].
  - destruct (String.eqb_spec k0 k'); [reflexivity|exact IH].
Qed.

Lemma list_position_lt {A} (l : list A) i n :
  list_position l i = Some n -> n < length l.
Proof.
  unfold list_position. cbv zeta.
  destruct ((0 <=? i)%Z && (i <? Z.of_nat (length l))%Z) eqn:E1.
  - apply andb_true_iff in E1 as [E1 E1'].
    apply Z.leb_le in E1. apply Z.ltb_lt in E1'.
    intros H. injection H as <-. lia.
  - destruct ((- Z.of_nat (length l) <=? i)%Z && (i <? 0)%Z) eqn:E2;
      [|discriminate].
    apply andb_true_iff in E2 as [E2 E2'].
    apply Z.leb_le in E2. apply Z.ltb_lt in E2'.
    intros H. injection H as <-. lia.
Qed.

Lemma list_position_length {A} (l l' : list A) i :
  length l = length l' -> list_position l i = list_position l' i.
Proof. unfold list_position. intros ->. reflexivity. Qed.

Lemma list_position_last {A} (l : list A) (x : A) :
  list_position (l ++ [x]) (-1) = Some (length l).
Proof.
  unfold list_position. cbv zeta. rewrite length_app. simpl length.
  destruct ((0 <=? -1)%Z && (-1 <? Z.of_nat (length l + 1))%Z) eqn:E1;
    [discriminate E1|].
  destruct ((- Z.of_nat (length l + 1) <=? -1)%Z && (-1 <? 0)%Z) eqn:E2.
  - f_equal. lia.
  - apply andb_false_iff in E2 as [E|E]; [apply Z.leb_gt in E; lia|discriminate E].
Qed.

Lemma drop_nth_last {A} (l : list A) (x : A) :
  drop_nth (l ++ [x]) (length l) = l.
Proof.
  unfold drop_nth. rewrite firstn_app, Nat.sub_diag, firstn_all. simpl.
  rewrite skipn_all2 by (rewrite length_app; simpl; lia).
  rewrite !app_nil_r. reflexivity.
Qed.

Lemma put_nth_length {A} (l : list A) n v :
  n < length l -> length (put_nth l n v) = length l.
Proof.
  intros H. unfold put_nth. rewrite length_app, length_firstn. simpl.
  rewrite length_skipn. lia.
Qed.

Lemma put_nth_get {A} (l : list A) n v :
  n < length l -> nth_error (put_nth l n v) n = Some v.
Proof.
  intros H. unfold put_nth.
  rewrite nth_error_app2 by (rewrite length_firstn; lia).
  rewrite length_firstn. replace (n - Nat.min n (length l)) with 0 by lia.
  reflexivity.
Qed.

Lemma put_nth_same {A} (l : list A) n v :
  nth_error l n = Some v -> put_nth l n v = l.
Proof.
  intros H. unfold put_nth. apply nth_error_split in H as (l1 & l2 & -> & <-).
  rewrite firstn_app, Nat.sub_diag, firstn_all. simpl. rewrite app_nil_r.
  rewrite skipn_app, skipn_all2 by lia.
  replace (S (length l1) - length l1) with 1 by lia. reflexivity.
Qed.

Lemma put_nth_put_nth {A} (l : list A) n v1 v2 :
  n < length l -> put_nth (put_nth l n v1) n v2 = put_nth l n v2.
Proof.
  intros H. unfold put_nth.
  rewrite firstn_app, length_firstn, firstn_firstn.
  replace (n - Nat.min n (length l)) with 0 by lia.
  replace (Nat.min n n) with n by lia. simpl. rewrite app_nil_r.
  rewrite skipn_app, length_firstn.
  rewrite (skipn_all2 (n:=S n)) by (rewrite length_firstn; lia).
  replace (S n - Nat.min n (length l)) with 1 by lia. reflexivity.
Qed.

Lemma json_get_replace data key x v :
  json_getitem data key = Ok x -> not_str data ->
  json_getitem (json_replace data key v) key = Ok v.
Proof.
  destruct data as [| | | | |l|d]; destruct key as [k|i]; simpl;
    try discriminate; try contradiction.
  - destruct (list_position l i) as [n|] eqn:Hp; [|discriminate].
    intros _ _. pose proof (list_position_lt _ _ _ Hp) as Hn.
    cbn [json_getitem].
    rewrite (list_position_length (put_nth l n v) l) by (apply put_nth_length; exact Hn).
    rewrite Hp, put_nth_get by exact Hn. reflexivity.
  - intros _ _. rewrite items_get_set_eq. reflexivity.
Qed.

Lemma json_replace_same data key x :
  json_getitem data key = Ok x -> not_str data -> json_replace data key x = data.
Proof.
  destruct data as [| | | | |l|d]; destruct key as [k|i]; simpl;
    try discriminate; try contradiction.
  - destruct (list_position l i) as [n|] eqn:Hp; [|discriminate].
    destruct (nth_error l n) as [y|] eqn:Hy; [|discriminate].
    intros H _. injection H as ->.
    rewrite put_nth_same by exact Hy. reflexivity.
  - destruct (items_get d k) as [y|] eqn:Hy; [|discriminate].
    intros H _. injection H as ->. rewrite items_set_same by exact Hy. reflexivity.
Qed.

Lemma json_replace_replace data key x v1 v2 :
  json_getitem data key = Ok x -> not_str data ->
  json_replace (json_replace data key v1) key v2 = json_replace data key v2.
Proof.
  destruct data as [| | | | |l|d]; destruct key as [k|i]; simpl;
    try discriminate; try contradiction.
  - destruct (list_position l i) as [n|] eqn:Hp; [|discriminate].
    intros _ _. pose proof (list_position_lt _ _ _ Hp) as Hn.
    cbn [json_replace].
    rewrite (list_position_length (put_nth l n v1) l) by (apply put_nth_length; exact Hn).
    rewrite Hp, put_nth_put_nth by exact Hn. reflexivity.
  - intros _ _. rewrite items_set_set. reflexivity.
Qed.

Lemma json_replace_not_str data key v :
  not_str data -> not_str (json_replace data key v).
Proof.
  destruct data as [| | | | |l|d]; destruct key as [k|i]; simpl; auto.
  destruct (list_position l i); simpl; auto.
Qed.

Lemma json_get_container data key x :
  json_getitem data key = Ok x -> (forall s, x <> JStr s) -> not_str data.
Proof.
  destruct data as [| | | | s|l|d]; destruct key as [k|i]; simpl;
    try discriminate; auto.
  destruct (list_position _ i); [|discriminate].
  intros H Hx. injection H as <-. exact (Hx _ eq_refl).
Qed.

Section SloDebugHandlerProperties.

Variable env : Env.

Lemma _load_state h : snd (_load env h) = h.
Proof.
  unfold _load, hbind, hgets, read_file.
  destruct (node_at (disk h) (handler_path h)) as [[|[text|data|]]|]; cbn;
    try reflexivity.
  - destruct (json_loads env text); reflexivity.
  - destruct (node_at (disk h) (parent (handler_path h))) as [[|]|]; reflexivity.
Qed.

Lemma _load_ok_file h data :
  fst (_load env h) = Ok data ->
  exists fd, node_at (disk h) (handler_path h) = Some (File fd).
Proof.
  unfold _load, hbind, hgets, read_file.
  destruct (node_at (disk h) (handler_path h)) as [[|fd]|]; cbn.
  - discriminate.
  - eauto.
  - destruct (node_at (disk h) (parent (handler_path h))) as [[|]|]; discriminate.
Qed.

Lemma _load_eq h data : fst (_load env h) = Ok data -> _load env h = (Ok data, h).
Proof.
  intros H. pose proof (_load_state h) as Hs.
  destruct (_load env h) as [r h']. cbn in *. subst. reflexivity.
Qed.

Lemma _dump_after_load h data (data' : JSON) :
  fst (_load env h) = Ok data ->
  _dump data' h
  = (Ok tt, set_disk <[handler_path h := File (Dumped data')]> h).
Proof.
  intros H. destruct (_load_ok_file h data H) as (fd & Hfd).
  unfold _dump, hbind, hgets, write_file. rewrite Hfd. reflexivity.
Qed.

Lemma _load_after_dump h fd data' :
  node_at (disk h) (handler_path h) = Some (File fd) ->
  _load env (set_disk <[handler_path h := File (Dumped data')]> h)
  = (Ok data', set_disk <[handler_path h := File (Dumped data')]> h).
Proof.
  intros Hfd. unfold _load, hbind, hgets, read_file. cbn [disk handler_path set_disk].
  unfold node_at in *. destruct (parts (handler_path h)); [discriminate|].
  rewrite lookup_insert_eq. reflexivity.
Qed.

(** X17.  [add_json] on a file whose loaded value holds a list under [key]
    rewrites the file so that a later load finds that list with the item
    appended at its end, and every str key other than [key] with the value
    it had. *)
Theorem add_json_appends
    (h : Host) (key : PyKey) (item data : JSON) (l : list JSON) :
  fst (_load env h) = Ok data ->
  json_getitem data key = Ok (JList l) ->
  let h' := snd (add_json env key item h) in
  fst (add_json env key item h) = Ok tt
  /\ exists data',
       _load env h' = (Ok data', h')
       /\ json_getitem data' key = Ok (JList (l ++ [item]))
       /\ forall k, KStr k <> key ->
                    json_getitem data' (KStr k) = json_getitem data (KStr k).
Proof.
  intros Hload Hget.
  assert (Hadd : add_json env key item h
                 = (Ok tt, set_disk <[handler_path h
                      := File (Dumped (json_replace data key (JList (l ++ [item]))))]> h)).
  { unfold add_json. unfold hbind at 1. rewrite (_load_eq h data Hload).
    unfold hbind at 1. unfold lift at 1. rewrite Hget.
    unfold hbind at 1. unfold lift at 1. cbn [json_append].
    apply (_dump_after_load h data). exact Hload. }
  cbv zeta. rewrite Hadd. cbn [fst snd]. split; [reflexivity|].
  destruct (_load_ok_file h data Hload) as (fd & Hfd).
  assert (Hc : not_str data).
  { apply (json_get_container data key (JList l) Hget). discriminate. }
  exists (json_replace data key (JList (l ++ [item]))). split; [|split].
  - apply (_load_after_dump h fd). exact Hfd.
  - apply (json_get_replace data key (JList l)); assumption.
  - intros k Hk. destruct data as [| | | | |l0|d]; destruct key as [k0|i];
      simpl in Hget; try discriminate; try contradiction.
    + simpl. destruct (list_position l0 i); reflexivity.
    + simpl. rewrite items_get_set_ne by congruence. reflexivity.
Qed.


(** X19.  [delete_json] on a file whose loaded value holds a dict under
    [base_key] that has the str key [sub] rewrites the file so that a later
    load finds that dict without [sub] and with every other key as it was;
    deleting the same key once more raises KeyError. *)
Theorem delete_json_removes_entry
    (h : Host) (base : PyKey) (sub : string) (data : JSON)
    (d : list (string * JSON)) :
  fst (_load env h) = Ok data ->
  json_getitem data base = Ok (JDict d) ->
  is_Some (items_get d sub) ->
  let h' := snd (delete_json env base (KStr sub) h) in
  fst (delete_json env base (KStr sub) h) = Ok tt
  /\ (exists data',
        _load env h' = (Ok data', h')
        /\ json_getitem data' base = Ok (JDict (items_del d sub)))
  /\ items_get (items_del d sub) sub = None
  /\ (forall k, k <> sub -> items_get (items_del d sub) k = items_get d k)
  /\ delete_json env base (KStr sub) h' = (Raise KeyError, h').
Proof.
  intros Hload Hget [x Hx].
  assert (Hdel : delete_json env base (KStr sub) h
                 = (Ok tt, set_disk <[handler_path h
                      := File (Dumped (json_replace data base
                                         (JDict (items_del d sub))))]> h)).
  { unfold delete_json. unfold hbind at 1. rewrite (_load_eq h data Hload).
    unfold hbind at 1. unfold lift at 1. rewrite Hget.
    unfold hbind at 1. unfold lift at 1. cbn [json_delitem]. rewrite Hx.
    apply (_dump_after_load h data). exact Hload. }
  cbv zeta. rewrite Hdel. cbn [fst snd]. split; [reflexivity|].
  destruct (_load_ok_file h data Hload) as (fd & Hfd).
  assert (Hc : not_str data).
  { apply (json_get_container data base (JDict d) Hget). discriminate. }
  pose proof (_load_after_dump h fd
                (json_replace data base (JDict (items_del d sub))) Hfd) as Hl'.
  pose proof (json_get_replace data base (JDict d) (JDict (items_del d sub))
                Hget Hc) as Hg'.
  split; [eexists; split; [exact Hl'|exact Hg']|].
  split; [apply items_get_del_eq|].
  split; [intros k Hk; apply items_get_del_ne; exact Hk|].
  unfold delete_json. unfold hbind at 1. rewrite Hl'.
  unfold hbind at 1. unfold lift at 1. rewrite Hg'.
  unfold hbind at 1. unfold lift at 1. cbn [json_delitem].
  rewrite items_get_del_eq. reflexivity.
Qed.

(** X20.  [analyse] creates the file at most once and never overwrites:
    when the path exists it returns True and changes nothing; otherwise it
    writes the template there, returns False, and the next call returns
    True without touching the file; when the file cannot be created the
    exception leaves the file system as it was. *)
Theorem analyse_creates_once (h : Host) :
  match analyse env h with
  | (Ok true, h') => h' = h /\ exists_ (disk h) (handler_path h) = true
  | (Ok false, h') =>
      exists_ (disk h) (handler_path h) = false
      /\ h' = set_disk <[handler_path h
                         := File (Raw (SLO_DEBUG_HANDLER env))]> h
      /\ analyse env h' = (Ok true, h')
  | (Raise e, h') => h' = h /\ exists_ (disk h) (handler_path h) = false
  end.
Proof.
  unfold analyse, hbind, hgets, hret, _create_file, write_file, exists_.
  cbv beta.
  destruct (node_at (disk h) (handler_path h)) as [node|] eqn:Hn.
  - split; reflexivity.
  - cbv beta iota. rewrite Hn.
    destruct (node_at (disk h) (parent (handler_path h))) as [[|fd]|];
      try (split; reflexivity).
    split; [reflexivity|]. split; [reflexivity|].
    cbn [disk handler_path set_disk]. unfold node_at in *.
    destruct (parts (handler_path h)); [discriminate|].
    rewrite lookup_insert_eq. reflexivity.
Qed.

(** X21.  While [SloDebugHandler.path] names a directory, as the default
    [Path()] does, [analyse] answers True and creates nothing, and both
    [add_json] and [delete_json] raise IsADirectoryError. *)
Theorem handler_on_directory
    (h : Host) (key sub_key : PyKey) (item : JSON) :
  is_dir (disk h) (handler_path h) = true ->
  analyse env h = (Ok true, h)
  /\ add_json env key item h = (Raise IsADirectoryError, h)
  /\ delete_json env key sub_key h = (Raise IsADirectoryError, h).
Proof.
  unfold is_dir. intros Hd.
  destruct (node_at (disk h) (handler_path h)) as [[|fd]|] eqn:Hn;
    try discriminate.
  split; [|split].
  - unfold analyse, hbind, hgets, exists_. rewrite Hn. reflexivity.
  - unfold add_json, hbind, _load, hbind, hgets, read_file. rewrite Hn. reflexivity.
  - unfold delete_json, hbind, _load, hbind, hgets, read_file. rewrite Hn. reflexivity.
Qed.

(** X22.  Appending an item with [add_json] and deleting the last entry
    of the same list with [delete_json(key, -1)] gives back the value the
    file held: a load after the two calls returns what a load returned
    before them. *)
Theorem add_then_delete_last
    (h : Host) (key : PyKey) (item data : JSON) (l : list JSON) :
  fst (_load env h) = Ok data ->
  json_getitem data key = Ok (JList l) ->
  let h1 := snd (add_json env key item h) in
  let h2 := snd (delete_json env key (KInt (-1)) h1) in
  fst (add_json env key item h) = Ok tt
  /\ fst (delete_json env key (KInt (-1)) h1) = Ok tt
  /\ _load env h2 = (Ok data, h2).
Proof.
  intros Hload Hget.
  destruct (_load_ok_file h data Hload) as (fd & Hfd).
  assert (Hc : not_str data).
  { apply (json_get_container data key (JList l) Hget). discriminate. }
  set (data1 := json_replace data key (JList (l ++ [item]))).
  set (h1 := set_disk <[handler_path h := File (Dumped data1)]> h).
  assert (Hadd : add_json env key item h = (Ok tt, h1)).
  { unfold add_json. unfold hbind at 1. rewrite (_load_eq h data Hload).
    unfold hbind at 1. unfold lift at 1. rewrite Hget.
    unfold hbind at 1. unfold lift at 1. cbn [json_append].
    apply (_dump_after_load h data). exact Hload. }
  assert (Hl1 : _load env h1 = (Ok data1, h1)).
  { apply (_load_after_dump h fd). exact Hfd. }
  assert (Hg1 : json_getitem data1 key = Ok (JList (l ++ [item]))).
  { apply (json_get_replace data key (JList l)); assumption. }
  assert (Hdel : delete_json env key (KInt (-1)) h1
                 = (Ok tt, set_disk <[handler_path h1
                      := File (Dumped (json_replace data1 key (JList l)))]> h1)).
  { unfold delete_json. unfold hbind at 1. rewrite Hl1.
    unfold hbind at 1. unfold lift at 1. rewrite Hg1.
    unfold hbind at 1. unfold lift at 1. cbn [json_delitem].
    rewrite list_position_last, drop_nth_last.
    apply (_dump_after_load h1 data1). rewrite Hl1. reflexivity. }
  cbv zeta. rewrite Hadd. cbn [fst snd]. rewrite Hdel. cbn [fst snd].
  split; [reflexivity|]. split; [reflexivity|].
  assert (Hback : json_replace data1 key (JList l) = data).
  { subst data1. rewrite (json_replace_replace data key (JList l)) by assumption.
    apply json_replace_same; assumption. }
  rewrite Hback.
  destruct (_load_ok_file h1 data1) as (fd1 & Hfd1); [rewrite Hl1; reflexivity|].
  apply (_load_after_dump h1 fd1). exact Hfd1.
Qed.

End SloDebugHandlerProperties.

Lemma add_json_appends_witness :
  let data := JDict [("components", JList [JStr "/a"]); ("version", JNum 1)] in
  let h := HostScenario.host (Dumped data) in
  let h' := snd (add_json HostScenario.env (KStr "components") (JStr "/b") h) in
  fst (add_json HostScenario.env (KStr "components") (JStr "/b") h) = Ok tt
  /\ exists data',
       _load HostScenario.env h' = (Ok data', h')
       /\ json_getitem data' (KStr "components") = Ok (JList ([JStr "/a"] ++ [JStr "/b"]))
       /\ forall k, KStr k <> KStr "components" ->
                    json_getitem data' (KStr k) = json_getitem data (KStr k).
Proof.
  cbv zeta.
  exact (add_json_appends HostScenario.env
           (HostScenario.host
              (Dumped (JDict [("components", JList [JStr "/a"]); ("version", JNum 1)])))
           (KStr "components") (JStr "/b")
           (JDict [("components", JList [JStr "/a"]); ("version", JNum 1)])
           [JStr "/a"] eq_refl eq_refl).
Defined.

Lemma delete_json_removes_entry_witness :
  let data := JDict [("routes", JDict [("/a", JNum 1); ("/b", JNum 2)])] in
  let h := HostScenario.host (Dumped data) in
  let d := [("/a", JNum 1); ("/b", JNum 2)] in
  let h' := snd (delete_json HostScenario.env (KStr "routes") (KStr "/a") h) in
  fst (delete_json HostScenario.env (KStr "routes") (KStr "/a") h) = Ok tt
  /\ (exists data',
        _load HostScenario.env h' = (Ok data', h')
        /\ json_getitem data' (KStr "routes") = Ok (JDict (items_del d "/a")))
  /\ items_get (items_del d "/a") "/a" = None
  /\ (forall k, k <> "/a" -> items_get (items_del d "/a") k = items_get d k)
  /\ delete_json HostScenario.env (KStr "routes") (KStr "/a") h'
     = (Raise KeyError, h').
Proof.
  cbv zeta.
  exact (delete_json_removes_entry HostScenario.env
           (HostScenario.host
              (Dumped (JDict [("routes", JDict [("/a", JNum 1); ("/b", JNum 2)])])))
           (KStr "routes") "/a"
           (JDict [("routes", JDict [("/a", JNum 1); ("/b", JNum 2)])])
           [("/a", JNum 1); ("/b", JNum 2)]
           eq_refl eq_refl (ex_intro _ (JNum 1) eq_refl)).
Defined.

Lemma handler_on_directory_witness :
  analyse HostScenario.env HostScenario.fresh = (Ok true, HostScenario.fresh)
  /\ add_json HostScenario.env (KStr "components") (JStr "/a") HostScenario.fresh
     = (Raise IsADirectoryError, HostScenario.fresh)
  /\ delete_json HostScenario.env (KStr "components") (KInt 0) HostScenario.fresh
     = (Raise IsADirectoryError, HostScenario.fresh).
Proof.
  exact (handler_on_directory HostScenario.env HostScenario.fresh
           (KStr "components") (KInt 0) (JStr "/a") eq_refl).
Defined.

Lemma add_then_delete_last_witness :
  let data := JDict [("components", JList [JStr "/a"])] in
  let h := HostScenario.host (Raw "{}") in
  let h0 := snd (_dump data h) in
  let h1 := snd (add_json HostScenario.env (KStr "components") (JStr "/b") h0) in
  let h2 := snd (delete_json HostScenario.env (KStr "components") (KInt (-1)) h1) in
  fst (add_json HostScenario.env (KStr "components") (JStr "/b") h0) = Ok tt
  /\ fst (delete_json HostScenario.env (KStr "components") (KInt (-1)) h1) = Ok tt
  /\ _load HostScenario.env h2 = (Ok data, h2).
Proof.
  cbv zeta.
  exact (add_then_delete_last HostScenario.env
           (snd (_dump (JDict [("components", JList [JStr "/a"])])
                       (HostScenario.host (Raw "{}"))))
           (KStr "components") (JStr "/b")
           (JDict [("components", JList [JStr "/a"])]) [JStr "/a"]
           eq_refl eq_refl).
Defined.

(** * Further properties of manager.py: [generate] *)

(** ** Paths and trees *)

Lemma proper_prefixes_snoc {A} (l : list A) (x : A) :
  proper_prefixes (l ++ [x]) = l :: proper_prefixes l.
Proof.
  induction l as [|y l IH]; [reflexivity|].
  simpl. rewrite IH. reflexivity.
Qed.

Lemma parent_snoc a l x : parent (mkPath a (l ++ [x])) = mkPath a l.
Proof. unfold parent, parents. cbn. rewrite proper_prefixes_snoc. reflexivity. Qed.

Lemma parent_joinpath p x : parent (joinpath p x) = p.
Proof. destruct p as [a l]. unfold joinpath. cbn. apply parent_snoc. Qed.

Lemma node_at_snoc d a l x :
  node_at d (mkPath a (l ++ [x])) = d !! mkPath a (l ++ [x]).
Proof. unfold node_at. cbn. destruct l; reflexivity. Qed.

Lemma node_at_top d p : parts p = [] -> node_at d p = Some Dir.
Proof. unfold node_at. intros ->. reflexivity. Qed.

Lemma node_at_insert_eq d p n :
  parts p <> [] -> node_at (<[p := n]> d) p = Some n.
Proof.
  unfold node_at. destruct (parts p); [contradiction|].
  intros _. apply lookup_insert_eq.
Qed.

Lemma node_at_insert_ne d p q n :
  q <> p -> node_at (<[p := n]> d) q = node_at d q.
Proof.
  unfold node_at. intros H. destruct (parts q); [reflexivity|].
  apply lookup_insert_ne. congruence.
Qed.

Lemma path_prefix_refl p : path_prefix p p.
Proof. split; reflexivity. Qed.

Lemma path_prefix_snoc q a l x :
  path_prefix q (mkPath a (l ++ [x]))
  <-> q = mkPath a (l ++ [x]) \/ path_prefix q (mkPath a l).
Proof.
  destruct q as [b m]. unfold path_prefix. cbn. split.
  - intros [-> [k Hk]].
    destruct k as [|y k _] using rev_ind.
    + left. rewrite app_nil_r in Hk. congruence.
    + right. split; [reflexivity|]. rewrite app_assoc in Hk.
      apply app_inj_tail in Hk as [-> _]. exists k. reflexivity.
  - intros [H|[-> [k ->]]].
    + injection H as -> ->. split; reflexivity.
    + split; [reflexivity|]. exists (k ++ [x]). rewrite app_assoc. reflexivity.
Qed.

Lemma path_prefix_top q a :
  path_prefix q (mkPath a []) <-> q = mkPath a [].
Proof.
  destruct q as [b m]. unfold path_prefix. cbn. split.
  - intros [-> H]. apply prefix_nil_inv in H. rewrite H. reflexivity.
  - intros H. injection H as -> ->. split; reflexivity.
Qed.

Lemma path_prefix_length q p : path_prefix q p -> length (parts q) <= length (parts p).
Proof. intros [_ H]. apply prefix_length. exact H. Qed.

(** In a directory tree everything above an entry is a directory. *)
Lemma wf_above_dir d a l :
  wf_disk d ->
  is_Some (node_at d (mkPath a l)) ->
  forall q, path_prefix q (mkPath a l) -> q <> mkPath a l ->
            node_at d q = Some Dir.
Proof.
  intros Hwf. induction l as [|x l IH] using rev_ind; intros Hn q Hq Hne.
  - apply path_prefix_top in Hq. contradiction.
  - apply path_prefix_snoc in Hq as [Hq|Hq]; [contradiction|].
    destruct Hn as [n Hn]. rewrite node_at_snoc in Hn.
    apply Hwf in Hn. rewrite parent_snoc in Hn.
    destruct (decide (q = mkPath a l)) as [->|Hq']; [exact Hn|].
    apply IH; [rewrite Hn; eauto|exact Hq|exact Hq'].
Qed.

Lemma wf_insert_dir d p :
  wf_disk d -> node_at d (parent p) = Some Dir -> wf_disk (<[p := Dir]> d).
Proof.
  intros Hwf Hp q n Hq.
  destruct (decide (parent q = p)) as [E|E].
  - destruct (decide (parts p = [])) as [Ep|Ep].
    + apply node_at_top. rewrite E. exact Ep.
    + rewrite E. apply node_at_insert_eq. exact Ep.
  - rewrite node_at_insert_ne by exact E.
    destruct (decide (q = p)) as [->|Hne]; [exact Hp|].
    rewrite lookup_insert_ne in Hq by congruence. eapply Hwf. exact Hq.
Qed.

Lemma wf_insert_file d p fd :
  wf_disk d -> node_at d (parent p) = Some Dir ->
  node_at d p <> Some Dir -> parts p <> [] ->
  wf_disk (<[p := File fd]> d).
Proof.
  intros Hwf Hp Hnd Hparts q n Hq.
  destruct (decide (q = p)) as [->|Hne].
  - rewrite node_at_insert_ne; [exact Hp|].
    intros E. destruct p as [a l]. destruct l as [|x l _] using rev_ind;
      [contradiction|]. rewrite parent_snoc in E. injection E as E.
    apply (f_equal length) in E. rewrite length_app in E. simpl in E. lia.
  - rewrite lookup_insert_ne in Hq by congruence.
    pose proof (Hwf q n Hq) as Hd.
    destruct (decide (parent q = p)) as [E|E].
    + rewrite E in Hd. contradiction.
    + rewrite node_at_insert_ne by exact E. exact Hd.
Qed.

(** ** [mkdir(parents=True, exist_ok=True)] *)

Lemma os_mkdir_exists p h node :
  node_at (disk h) p = Some node -> os_mkdir p h = (Raise FileExistsError, h).
Proof. intros H. unfold os_mkdir. rewrite H. reflexivity. Qed.

Lemma os_mkdir_new p h :
  node_at (disk h) p = None -> node_at (disk h) (parent p) = Some Dir ->
  os_mkdir p h = (Ok tt, set_disk <[p := Dir]> h).
Proof. intros H Hp. unfold os_mkdir. rewrite H, Hp. reflexivity. Qed.

Lemma os_mkdir_orphan p h :
  node_at (disk h) p = None -> node_at (disk h) (parent p) = None ->
  os_mkdir p h = (Raise FileNotFoundError, h).
Proof. intros H Hp. unfold os_mkdir. rewrite H, Hp. reflexivity. Qed.

(** In a directory tree with no file at or above the path, the call
    succeeds: afterwards the path and everything above it are directories
    and every other node is as before. *)
Lemma mkdir_parents_rev_spec a rparts : forall h,
  wf_disk (disk h) ->
  (forall q, path_prefix q (mkPath a (rev rparts)) -> is_file (disk h) q = false) ->
  exists h',
    mkdir_parents_rev a rparts h = (Ok tt, h')
    /\ typed h' = typed h /\ handler_path h' = handler_path h
    /\ wf_disk (disk h')
    /\ forall q, node_at (disk h') q
                 = if decide (path_prefix q (mkPath a (rev rparts)))
                   then Some Dir else node_at (disk h) q.
Proof.
  induction rparts as [|x r IH]; intros h Hwf Hfiles.
  - exists h. cbn [mkdir_parents_rev rev].
    rewrite (os_mkdir_exists _ h Dir) by (apply node_at_top; reflexivity).
    destruct (decide (FileExistsError = FileNotFoundError)); [discriminate|].
    unfold is_dir. rewrite node_at_top by reflexivity.
    repeat split; [exact Hwf|]. intros q.
    destruct (decide (path_prefix q (mkPath a []))) as [Hq|Hq]; [|reflexivity].
    apply path_prefix_top in Hq as ->. apply node_at_top. reflexivity.
  - cbn [rev] in *.
    assert (Hparent : parent (mkPath a (rev r ++ [x])) = mkPath a (rev r))
      by apply parent_snoc.
    assert (Hparts : parts (mkPath a (rev r ++ [x])) <> []).
    { cbn. destruct (rev r); discriminate. }
    remember (mkPath a (rev r ++ [x])) as self eqn:Eself.
    assert (Hself : forall n, node_at (disk h) self = Some n -> n = Dir).
    { intros n Hn. specialize (Hfiles self (path_prefix_refl self)).
      unfold is_file in Hfiles. rewrite Hn in Hfiles.
      destruct n; [reflexivity|discriminate]. }
    assert (Hpar : forall q, path_prefix q (mkPath a (rev r)) ->
                             is_file (disk h) q = false).
    { intros q Hq. apply Hfiles. rewrite Eself. apply path_prefix_snoc.
      right. exact Hq. }
    cbn [mkdir_parents_rev rev]. rewrite <- Eself.
    destruct (node_at (disk h) self) as [n|] eqn:Hn.
    + rewrite (Hself n eq_refl) in Hn.
      rewrite (os_mkdir_exists _ h Dir Hn).
      destruct (decide (FileExistsError = FileNotFoundError)); [discriminate|].
      unfold is_dir. rewrite Hn. exists h. repeat split; [exact Hwf|]. intros q.
      destruct (decide (path_prefix q self)) as [Hq|Hq]; [|reflexivity].
      destruct (decide (q = self)) as [->|Hne]; [exact Hn|].
      rewrite Eself in *.
      apply (wf_above_dir (disk h) a (rev r ++ [x]) Hwf); [rewrite Hn; eauto| |];
        assumption.
    + destruct (node_at (disk h) (mkPath a (rev r))) as [[|fd]|] eqn:Hp.
      * rewrite os_mkdir_new by (rewrite ?Hparent; assumption).
        eexists. split; [reflexivity|]. cbn [typed handler_path disk set_disk].
        repeat split.
        { apply wf_insert_dir; [exact Hwf|]. rewrite Hparent. exact Hp. }
        intros q. destruct (decide (q = self)) as [->|Hne].
        { rewrite node_at_insert_eq by exact Hparts.
          destruct (decide (path_prefix self self)) as [_|H]; [reflexivity|].
          exfalso. apply H. apply path_prefix_refl. }
        rewrite node_at_insert_ne by exact Hne.
        destruct (decide (path_prefix q self)) as [Hq|Hq]; [|reflexivity].
        rewrite Eself in Hq, Hne.
        apply path_prefix_snoc in Hq as [Hq|Hq]; [contradiction|].
        destruct (decide (q = mkPath a (rev r))) as [->|Hne']; [exact Hp|].
        apply (wf_above_dir (disk h) a (rev r) Hwf); [rewrite Hp; eauto| |];
          assumption.
      * specialize (Hpar (mkPath a (rev r)) (path_prefix_refl _)).
        unfold is_file in Hpar. rewrite Hp in Hpar. discriminate.
      * rewrite os_mkdir_orphan by (rewrite ?Hparent; assumption).
        destruct (decide (FileNotFoundError = FileNotFoundError)); [|contradiction].
        destruct (IH h Hwf Hpar) as (h2 & Hrun & Ht & Hh & Hwf2 & Hspec).
        rewrite Hrun. unfold mkdir_exist_ok.
        assert (Hnp : ~ path_prefix self (mkPath a (rev r))).
        { intros H. apply path_prefix_length in H. rewrite Eself in H. cbn in H.
          rewrite length_app in H. simpl in H. lia. }
        assert (Hn2 : node_at (disk h2) self = None).
        { rewrite Hspec. destruct (decide _); [contradiction|exact Hn]. }
        assert (Hp2 : node_at (disk h2) (parent self) = Some Dir).
        { rewrite Hparent, Hspec.
          destruct (decide _) as [_|H]; [reflexivity|].
          exfalso. apply H. apply path_prefix_refl. }
        rewrite (os_mkdir_new self h2 Hn2 Hp2).
        eexists. split; [reflexivity|]. cbn [typed handler_path disk set_disk].
        split; [exact Ht|]. split; [exact Hh|].
        split; [apply wf_insert_dir; assumption|].
        intros q. destruct (decide (q = self)) as [->|Hne].
        { rewrite node_at_insert_eq by exact Hparts.
          destruct (decide (path_prefix self self)) as [_|H]; [reflexivity|].
          exfalso. apply H. apply path_prefix_refl. }
        rewrite node_at_insert_ne by exact Hne. rewrite Hspec.
        destruct (decide (path_prefix q (mkPath a (rev r)))) as [Hq|Hq];
          destruct (decide (path_prefix q self)) as [Hq'|Hq']; try reflexivity.
        -- exfalso. apply Hq'. rewrite Eself. apply path_prefix_snoc. right. exact Hq.
        -- rewrite Eself in Hq', Hne.
           apply path_prefix_snoc in Hq' as [Hq'|Hq']; contradiction.
Qed.

Lemma mkdir_parents_spec p h :
  wf_disk (disk h) ->
  (forall q, path_prefix q p -> is_file (disk h) q = false) ->
  exists h',
    mkdir_parents p h = (Ok tt, h')
    /\ typed h' = typed h /\ handler_path h' = handler_path h
    /\ wf_disk (disk h')
    /\ forall q, node_at (disk h') q
                 = if decide (path_prefix q p) then Some Dir
                   else node_at (disk h) q.
Proof.
  destruct p as [a l]. unfold mkdir_parents. cbn [is_absolute parts].
  intros Hwf Hfiles.
  pose proof (mkdir_parents_rev_spec a (rev l) h Hwf) as H.
  rewrite rev_involutive in H. exact (H Hfiles).
Qed.

Lemma write_file_spec p fd h :
  wf_disk (disk h) ->
  parts p <> [] ->
  is_dir (disk h) p = false ->
  node_at (disk h) (parent p) = Some Dir ->
  exists h',
    write_file p fd h = (Ok tt, h')
    /\ typed h' = typed h /\ handler_path h' = handler_path h
    /\ wf_disk (disk h')
    /\ forall q, node_at (disk h') q
                 = if decide (q = p) then Some (File fd) else node_at (disk h) q.
Proof.
  intros Hwf Hparts Hnd Hp.
  assert (Hnd' : node_at (disk h) p <> Some Dir).
  { unfold is_dir in Hnd. intros E. rewrite E in Hnd. discriminate. }
  exists (set_disk <[p := File fd]> h). split.
  { unfold write_file. destruct (node_at (disk h) p) as [[|fd0]|];
      [contradiction|reflexivity|]. rewrite Hp. reflexivity. }
  cbn [typed handler_path disk set_disk]. repeat split.
  { apply wf_insert_file; assumption. }
  intros q. destruct (decide (q = p)) as [->|Hne].
  - apply node_at_insert_eq. exact Hparts.
  - apply node_at_insert_ne. exact Hne.
Qed.

(** ** Joined paths *)

Lemma joinpath_parts p x : parts (joinpath p x) <> [].
Proof. destruct p as [a l]. cbn. destruct l; discriminate. Qed.

Lemma joinpath_inj p x y : joinpath p x = joinpath p y -> x = y.
Proof.
  destruct p as [a l]. unfold joinpath. cbn. intros H. injection H as H.
  apply app_inj_tail in H as [_ H]. exact H.
Qed.

Lemma path_prefix_joinpath q p x :
  path_prefix q (joinpath p x) <-> q = joinpath p x \/ path_prefix q p.
Proof. destruct p as [a l]. unfold joinpath. cbn. apply path_prefix_snoc. Qed.

Lemma joinpath_not_prefix p x : ~ path_prefix (joinpath p x) p.
Proof.
  intros H. apply path_prefix_length in H. destruct p as [a l]. cbn in H.
  rewrite length_app in H. simpl in H. lia.
Qed.

Lemma joinpath2_not_prefix p x y : ~ path_prefix (joinpath (joinpath p x) y) p.
Proof.
  intros H. apply path_prefix_length in H. destruct p as [a l]. cbn in H.
  rewrite !length_app in H. simpl in H. lia.
Qed.

Lemma joinpath2_neq p x y z : joinpath (joinpath p x) y <> joinpath p z.
Proof.
  intros H. apply (f_equal (fun q => length (parts q))) in H.
  destruct p as [a l]. cbn in H. rewrite !length_app in H. simpl in H. lia.
Qed.

Lemma joinpath_neq p x : joinpath p x <> p.
Proof.
  intros H. apply (f_equal (fun q => length (parts q))) in H.
  destruct p as [a l]. cbn in H. rewrite !length_app in H. simpl in H. lia.
Qed.

(** ** [generate] *)

Section GenerateProperties.

Variable env : Env.

Lemma generate_body path overwrite h :
  is_file (disk h) path = false ->
  exists_ (disk h) path && negb overwrite && any_iterdir (disk h) path = false ->
  generate env path overwrite h
  = (hbind (mkdir_parents path) (fun _ =>
     hbind (mkdir_parents (joinpath path "components")) (fun _ =>
     hbind (mkdir_parents (joinpath path "scss")) (fun _ =>
     hbind (write_file (config_file path) (Raw (CONFIG env))) (fun _ =>
     hbind (write_file (main_file path) (Raw (MAIN_FILE env))) (fun _ =>
     write_file (component_file path) (Raw (COMPONENT_FILE env)))))))) h.
Proof.
  intros Hf Hc. unfold generate. unfold hbind at 1. unfold hgets at 1.
  rewrite Hf, Hc. reflexivity.
Qed.

Lemma hbind_ok {A B} (c : HM A) (k : A -> HM B) h a h1 :
  c h = (Ok a, h1) -> hbind c k h = k a h1.
Proof. unfold hbind. intros ->. reflexivity. Qed.

Lemma hbind_raise {A B} (c : HM A) (k : A -> HM B) h e h1 :
  c h = (Raise e, h1) -> hbind c k h = (Raise e, h1).
Proof. unfold hbind. intros ->. reflexivity. Qed.

(** The tree after a run that meets no file in the way of a directory and
    no directory in the way of a file. *)
Lemma generate_spec path overwrite h :
  wf_disk (disk h) ->
  (forall q, path_prefix q path -> is_file (disk h) q = false) ->
  exists_ (disk h) path && negb overwrite && any_iterdir (disk h) path = false ->
  is_file (disk h) (joinpath path "components") = false ->
  is_file (disk h) (joinpath path "scss") = false ->
  is_dir (disk h) (config_file path) = false ->
  is_dir (disk h) (main_file path) = false ->
  is_dir (disk h) (component_file path) = false ->
  exists h',
    generate env path overwrite h = (Ok tt, h')
    /\ typed h' = typed h /\ handler_path h' = handler_path h
    /\ wf_disk (disk h')
    /\ forall q, node_at (disk h') q = generated env path (disk h) q.
Proof.
  intros Hwf Habove Hcond Hcomp Hscss Hcfg Hmain Hex.
  rewrite generate_body by (try apply Habove; try apply path_prefix_refl; assumption).
  (* path *)
  destruct (mkdir_parents_spec path h Hwf Habove) as (h1 & R1 & T1 & P1 & W1 & S1).
  rewrite (hbind_ok _ _ _ _ _ R1).
  (* components *)
  assert (A2 : forall q, path_prefix q (joinpath path "components") ->
                         is_file (disk h1) q = false).
  { intros q Hq. unfold is_file. rewrite S1.
    destruct (decide (path_prefix q path)); [reflexivity|].
    apply path_prefix_joinpath in Hq as [->|Hq]; [exact Hcomp|contradiction]. }
  destruct (mkdir_parents_spec _ h1 W1 A2) as (h2 & R2 & T2 & P2 & W2 & S2).
  rewrite (hbind_ok _ _ _ _ _ R2).
  (* scss *)
  assert (A3 : forall q, path_prefix q (joinpath path "scss") ->
                         is_file (disk h2) q = false).
  { intros q Hq. unfold is_file. rewrite S2.
    destruct (decide (path_prefix q (joinpath path "components"))); [reflexivity|].
    rewrite S1. destruct (decide (path_prefix q path)); [reflexivity|].
    apply path_prefix_joinpath in Hq as [->|Hq]; [exact Hscss|contradiction]. }
  destruct (mkdir_parents_spec _ h2 W2 A3) as (h3 & R3 & T3 & P3 & W3 & S3).
  rewrite (hbind_ok _ _ _ _ _ R3).
  (* what the three mkdir leave at a node that is no directory to make *)
  assert (S3' : forall q,
            ~ path_prefix q (joinpath path "scss") ->
            ~ path_prefix q (joinpath path "components") ->
            node_at (disk h3) q = node_at (disk h) q).
  { intros q Hs Hc. rewrite S3, S2, S1.
    destruct (decide _); [contradiction|]. destruct (decide _); [contradiction|].
    destruct (decide (path_prefix q path)) as [Hp|]; [|reflexivity].
    exfalso. apply Hc. apply path_prefix_joinpath. right. exact Hp. }
  assert (Dpath : node_at (disk h3) path = Some Dir).
  { rewrite S3. destruct (decide _) as [|H]; [reflexivity|].
    exfalso. apply H. apply path_prefix_joinpath. right. apply path_prefix_refl. }
  assert (Dcomp : node_at (disk h3) (joinpath path "components") = Some Dir).
  { rewrite S3. destruct (decide _); [reflexivity|]. rewrite S2.
    destruct (decide _) as [|H]; [reflexivity|].
    exfalso. apply H. apply path_prefix_refl. }
  assert (Nfile : forall x y, y <> x ->
            ~ path_prefix (joinpath path y) (joinpath path x)).
  { intros x y Hxy H. apply path_prefix_joinpath in H as [H|H].
    - apply joinpath_inj in H. contradiction.
    - exact (joinpath_not_prefix _ _ H). }
  assert (Nex : forall x,
            ~ path_prefix (component_file path) (joinpath path x)).
  { intros x H. apply path_prefix_joinpath in H as [H|H].
    - exact (joinpath2_neq _ _ _ _ H).
    - exact (joinpath2_not_prefix _ _ _ H). }
  (* config *)
  assert (C4 : is_dir (disk h3) (config_file path) = false).
  { unfold is_dir. rewrite S3' by (apply Nfile; discriminate). exact Hcfg. }
  destruct (write_file_spec (config_file path) (Raw (CONFIG env)) h3 W3
              (joinpath_parts _ _) C4)
    as (h4 & R4 & T4 & P4 & W4 & S4).
  { unfold config_file. rewrite parent_joinpath. exact Dpath. }
  rewrite (hbind_ok _ _ _ _ _ R4).
  (* app.py *)
  assert (Hmc : main_file path <> config_file path).
  { intros H. apply joinpath_inj in H. discriminate. }
  assert (C5 : is_dir (disk h4) (main_file path) = false).
  { unfold is_dir. rewrite S4. destruct (decide _); [contradiction|].
    rewrite S3' by (apply Nfile; discriminate). exact Hmain. }
  destruct (write_file_spec (main_file path) (Raw (MAIN_FILE env)) h4 W4
              (joinpath_parts _ _) C5)
    as (h5 & R5 & T5 & P5 & W5 & S5).
  { unfold main_file. rewrite parent_joinpath, S4.
    destruct (decide _) as [E|]; [|exact Dpath].
    symmetry in E. exfalso. exact (joinpath_neq _ _ E). }
  rewrite (hbind_ok _ _ _ _ _ R5).
  (* components/example_component.py *)
  assert (Hem : component_file path <> main_file path)
    by apply joinpath2_neq.
  assert (Hec : component_file path <> config_file path)
    by apply joinpath2_neq.
  assert (C6 : is_dir (disk h5) (component_file path) = false).
  { unfold is_dir. rewrite S5. destruct (decide _); [contradiction|].
    rewrite S4. destruct (decide _); [contradiction|].
    rewrite S3' by apply Nex. exact Hex. }
  destruct (write_file_spec (component_file path) (Raw (COMPONENT_FILE env)) h5 W5
              (joinpath_parts _ _) C6)
    as (h6 & R6 & T6 & P6 & W6 & S6).
  { unfold component_file. rewrite parent_joinpath, S5.
    destruct (decide _) as [E|].
    { apply joinpath_inj in E. discriminate. }
    rewrite S4. destruct (decide _) as [E|]; [|exact Dcomp].
    apply joinpath_inj in E. discriminate. }
  exists h6. split; [exact R6|].
  split; [congruence|]. split; [congruence|]. split; [exact W6|].
  intros q. unfold generated. rewrite S6, S5, S4, S3, S2, S1. reflexivity.
Qed.

(** What [generated] holds at the nodes [generate] makes, and elsewhere. *)
Lemma made_not_files path q :
  path_prefix q (joinpath path "scss")
  \/ path_prefix q (joinpath path "components") ->
  q <> component_file path /\ q <> main_file path /\ q <> config_file path.
Proof.
  intros Hq. repeat split; intros ->;
    destruct Hq as [Hq|Hq]; apply path_prefix_joinpath in Hq as [Hq|Hq];
    solve [ apply joinpath_inj in Hq; discriminate
          | exact (joinpath_not_prefix _ _ Hq)
          | exact (joinpath2_neq _ _ _ _ Hq)
          | exact (joinpath2_not_prefix _ _ _ Hq) ].
Qed.

Lemma main_not_config path : main_file path <> config_file path.
Proof. intros H. apply joinpath_inj in H. discriminate. Qed.

Lemma generated_config path d :
  generated env path d (config_file path) = Some (File (Raw (CONFIG env))).
Proof.
  unfold generated.
  destruct (decide _) as [E|]; [symmetry in E; exfalso; exact (joinpath2_neq _ _ _ _ E)|].
  destruct (decide _) as [E|]; [symmetry in E; exfalso; exact (main_not_config _ E)|].
  destruct (decide _); [reflexivity|contradiction].
Qed.

Lemma generated_main path d :
  generated env path d (main_file path) = Some (File (Raw (MAIN_FILE env))).
Proof.
  unfold generated.
  destruct (decide _) as [E|]; [symmetry in E; exfalso; exact (joinpath2_neq _ _ _ _ E)|].
  destruct (decide _); [reflexivity|contradiction].
Qed.

Lemma generated_component path d :
  generated env path d (component_file path)
  = Some (File (Raw (COMPONENT_FILE env))).
Proof. unfold generated. destruct (decide _); [reflexivity|contradiction]. Qed.

Lemma generated_dir path d q :
  path_prefix q (joinpath path "scss")
  \/ path_prefix q (joinpath path "components") ->
  generated env path d q = Some Dir.
Proof.
  intros Hq. destruct (made_not_files path q Hq) as (H1 & H2 & H3).
  unfold generated.
  destruct (decide _); [contradiction|]. destruct (decide _); [contradiction|].
  destruct (decide _); [contradiction|].
  destruct (decide _); [reflexivity|].
  destruct (decide _); [reflexivity|]. destruct Hq; contradiction.
Qed.

Lemma generated_frame path d q :
  q <> config_file path -> q <> main_file path -> q <> component_file path ->
  ~ path_prefix q (joinpath path "components") ->
  ~ path_prefix q (joinpath path "scss") ->
  generated env path d q = node_at d q.
Proof.
  intros H1 H2 H3 Hc Hs. unfold generated.
  destruct (decide _); [contradiction|]. destruct (decide _); [contradiction|].
  destruct (decide _); [contradiction|]. destruct (decide _); [contradiction|].
  destruct (decide _); [contradiction|].
  destruct (decide _) as [Hp|]; [|reflexivity].
  exfalso. apply Hc. apply path_prefix_joinpath. right. exact Hp.
Qed.

(** Running over a generated tree changes no node. *)
Lemma generated_twice path d d' q :
  (forall q, node_at d' q = generated env path d q) ->
  generated env path d' q = generated env path d q.
Proof.
  intros S. unfold generated at 1.
  destruct (decide (q = component_file path)) as [->|H3];
    [symmetry; apply generated_component|].
  destruct (decide (q = main_file path)) as [->|H2];
    [symmetry; apply generated_main|].
  destruct (decide (q = config_file path)) as [->|H1];
    [symmetry; apply generated_config|].
  destruct (decide (path_prefix q (joinpath path "scss"))) as [Hs|Hs];
    [symmetry; apply generated_dir; left; exact Hs|].
  destruct (decide (path_prefix q (joinpath path "components"))) as [Hc|Hc];
    [symmetry; apply generated_dir; right; exact Hc|].
  destruct (decide (path_prefix q path)) as [Hp|Hp]; [|apply S].
  exfalso. apply Hc. apply path_prefix_joinpath. right. exact Hp.
Qed.

Lemma any_iterdir_child d p q n :
  d !! q = Some n -> child_of p q = true -> any_iterdir d p = true.
Proof.
  intros Hq Hc. unfold any_iterdir. apply existsb_exists. exists (q, n).
  split; [|exact Hc]. apply list_elem_of_In. apply elem_of_map_to_list. exact Hq.
Qed.

Lemma mkdir_parents_file p fd h :
  parts p <> [] ->
  node_at (disk h) p = Some (File fd) ->
  mkdir_parents p h = (Raise FileExistsError, h).
Proof.
  destruct p as [a l]. destruct l as [|x l _] using rev_ind; [contradiction|].
  intros _ Hn. unfold mkdir_parents. cbn [is_absolute parts].
  rewrite rev_app_distr. cbn [rev app mkdir_parents_rev].
  rewrite rev_involutive. rewrite (os_mkdir_exists _ h _ Hn).
  destruct (decide (FileExistsError = FileNotFoundError)); [discriminate|].
  unfold is_dir. rewrite Hn. reflexivity.
Qed.

(** X23.  In a directory tree where no file stands at or above [path],
    at components or at scss, and no directory stands where one of the
    three files goes, [generate] completes, unless it stops at a non-empty
    [path] without [overwrite].  Afterwards the three files hold their
    templates; [path], everything above it, components and scss are
    directories; every other node is as before; the tree is still a
    directory tree and nothing was printed. *)
Theorem generate_builds_project (path : Path) (overwrite : bool) (h : Host) :
  wf_disk (disk h) ->
  (forall q, path_prefix q path -> is_file (disk h) q = false) ->
  exists_ (disk h) path && negb overwrite && any_iterdir (disk h) path = false ->
  is_file (disk h) (joinpath path "components") = false ->
  is_file (disk h) (joinpath path "scss") = false ->
  is_dir (disk h) (config_file path) = false ->
  is_dir (disk h) (main_file path) = false ->
  is_dir (disk h) (component_file path) = false ->
  let h' := snd (generate env path overwrite h) in
  fst (generate env path overwrite h) = Ok tt
  /\ typed h' = typed h
  /\ wf_disk (disk h')
  /\ node_at (disk h') (config_file path) = Some (File (Raw (CONFIG env)))
  /\ node_at (disk h') (main_file path) = Some (File (Raw (MAIN_FILE env)))
  /\ node_at (disk h') (component_file path)
     = Some (File (Raw (COMPONENT_FILE env)))
  /\ (forall q, path_prefix q path -> node_at (disk h') q = Some Dir)
  /\ node_at (disk h') (joinpath path "components") = Some Dir
  /\ node_at (disk h') (joinpath path "scss") = Some Dir
  /\ (forall q,
        q <> config_file path -> q <> main_file path ->
        q <> component_file path ->
        ~ path_prefix q (joinpath path "components") ->
        ~ path_prefix q (joinpath path "scss") ->
        node_at (disk h') q = node_at (disk h) q).
Proof.
  intros Hwf Habove Hcond Hcomp Hscss Hcfg Hmain Hex.
  destruct (generate_spec path overwrite h Hwf Habove Hcond Hcomp Hscss Hcfg Hmain Hex)
    as (h' & R & T & _ & W & S).
  cbv zeta. rewrite R. cbn [fst snd].
  split; [reflexivity|]. split; [exact T|]. split; [exact W|].
  split; [rewrite S; apply generated_config|].
  split; [rewrite S; apply generated_main|].
  split; [rewrite S; apply generated_component|].
  split.
  { intros q Hq. rewrite S. apply generated_dir. left.
    apply path_prefix_joinpath. right. exact Hq. }
  split; [rewrite S; apply generated_dir; right; apply path_prefix_refl|].
  split; [rewrite S; apply generated_dir; left; apply path_prefix_refl|].
  intros q H1 H2 H3 Hc Hs. rewrite S. apply generated_frame; assumption.
Qed.

(** X24.  Running [generate] again on the project it has just built:
    with [overwrite] it completes and leaves every node of the tree as it
    is; without [overwrite] it prints "Path is not empty" and touches
    nothing. *)
Theorem generate_again (path : Path) (overwrite : bool) (h : Host) :
  wf_disk (disk h) ->
  (forall q, path_prefix q path -> is_file (disk h) q = false) ->
  exists_ (disk h) path && negb overwrite && any_iterdir (disk h) path = false ->
  is_file (disk h) (joinpath path "components") = false ->
  is_file (disk h) (joinpath path "scss") = false ->
  is_dir (disk h) (config_file path) = false ->
  is_dir (disk h) (main_file path) = false ->
  is_dir (disk h) (component_file path) = false ->
  let h1 := snd (generate env path overwrite h) in
  fst (generate env path true h1) = Ok tt
  /\ (forall q, node_at (disk (snd (generate env path true h1))) q
               = node_at (disk h1) q)
  /\ generate env path false h1
     = (Ok tt, set_typed (fun l => l ++ ["Path is not empty"]) h1).
Proof.
  intros Hwf Habove Hcond Hcomp Hscss Hcfg Hmain Hex.
  destruct (generate_spec path overwrite h Hwf Habove Hcond Hcomp Hscss Hcfg Hmain Hex)
    as (h1 & R & T & _ & W & S).
  cbv zeta. rewrite R. cbn [snd].
  assert (Dabove : forall q, path_prefix q path -> node_at (disk h1) q = Some Dir).
  { intros q Hq. rewrite S. apply generated_dir. left.
    apply path_prefix_joinpath. right. exact Hq. }
  assert (Fabove : forall q, path_prefix q path -> is_file (disk h1) q = false).
  { intros q Hq. unfold is_file. rewrite (Dabove q Hq). reflexivity. }
  destruct (generate_spec path true h1 W Fabove) as (h2 & R2 & _ & _ & _ & S2).
  { rewrite andb_false_r. reflexivity. }
  { unfold is_file. rewrite S, generated_dir; [reflexivity|].
    right. apply path_prefix_refl. }
  { unfold is_file. rewrite S, generated_dir; [reflexivity|].
    left. apply path_prefix_refl. }
  { unfold is_dir. rewrite S, generated_config. reflexivity. }
  { unfold is_dir. rewrite S, generated_main. reflexivity. }
  { unfold is_dir. rewrite S, generated_component. reflexivity. }
  rewrite R2. cbn [fst snd]. split; [reflexivity|]. split.
  { intros q. rewrite S2, S. apply generated_twice. exact S. }
  unfold generate, hbind, hgets.
  rewrite (Fabove path (path_prefix_refl path)).
  unfold exists_. rewrite (Dabove path (path_prefix_refl path)).
  assert (Hany : any_iterdir (disk h1) path = true).
  { apply (any_iterdir_child _ _ (config_file path) (File (Raw (CONFIG env)))).
    - pose proof (S (config_file path)) as Hc. rewrite generated_config in Hc.
      unfold node_at in Hc.
      destruct (parts (config_file path)) eqn:E; [|exact Hc].
      exfalso. exact (joinpath_parts _ _ E).
    - unfold child_of, config_file. rewrite parent_joinpath.
      rewrite bool_decide_eq_true_2 by reflexivity.
      rewrite bool_decide_eq_false_2 by apply joinpath_parts. reflexivity. }
  rewrite Hany. reflexivity.
Qed.

(** X25.  [generate] refuses without touching the tree: on a path that is
    a regular file it prints "Path is a file, not a directory", and on a
    directory that has an entry, without [overwrite], it prints "Path is
    not empty". *)
Theorem generate_refuses (path : Path) (overwrite : bool) (h : Host) :
  (is_file (disk h) path = true ->
   generate env path overwrite h
   = (Ok tt, set_typed (fun l => l ++ ["Path is a file, not a directory"]) h))
  /\ (forall q n,
        is_dir (disk h) path = true ->
        disk h !! q = Some n -> parent q = path -> parts q <> [] ->
        generate env path false h
        = (Ok tt, set_typed (fun l => l ++ ["Path is not empty"]) h)).
Proof.
  split.
  - intros Hf. unfold generate, hbind, hgets. rewrite Hf. reflexivity.
  - intros q n Hd Hq Hp Hparts. unfold generate, hbind, hgets.
    unfold is_dir in Hd. unfold is_file, exists_.
    destruct (node_at (disk h) path) as [[|fd]|]; try discriminate.
    rewrite (any_iterdir_child _ _ q n Hq); [reflexivity|].
    unfold child_of. rewrite bool_decide_eq_true_2 by exact Hp.
    rewrite bool_decide_eq_false_2 by exact Hparts. reflexivity.
Qed.

(** X26.  When components under [path] is a regular file, [generate] with
    [overwrite] raises FileExistsError at the second [mkdir], before any
    file is written: no node of the tree changes. *)
Theorem generate_blocked_by_file (path : Path) (fd : FileData) (h : Host) :
  wf_disk (disk h) ->
  node_at (disk h) (joinpath path "components") = Some (File fd) ->
  exists h',
    generate env path true h = (Raise FileExistsError, h')
    /\ typed h' = typed h
    /\ forall q, node_at (disk h') q = node_at (disk h) q.
Proof.
  intros Hwf Hc.
  assert (Hentry : disk h !! joinpath path "components" = Some (File fd)).
  { unfold node_at in Hc.
    destruct (parts (joinpath path "components")) eqn:E; [discriminate|exact Hc]. }
  assert (Dpath : node_at (disk h) path = Some Dir).
  { apply Hwf in Hentry. rewrite parent_joinpath in Hentry. exact Hentry. }
  assert (Dabove : forall q, path_prefix q path -> node_at (disk h) q = Some Dir).
  { intros q Hq. destruct (decide (q = path)) as [->|Hne]; [exact Dpath|].
    destruct path as [a l].
    apply (wf_above_dir (disk h) a l Hwf); [rewrite Dpath; eauto| |]; assumption. }
  assert (Fabove : forall q, path_prefix q path -> is_file (disk h) q = false).
  { intros q Hq. unfold is_file. rewrite (Dabove q Hq). reflexivity. }
  rewrite generate_body;
    [|apply Fabove; apply path_prefix_refl|rewrite andb_false_r; reflexivity].
  destruct (mkdir_parents_spec path h Hwf Fabove) as (h1 & R1 & T1 & _ & _ & S1).
  rewrite (hbind_ok _ _ _ _ _ R1).
  assert (Same : forall q, node_at (disk h1) q = node_at (disk h) q).
  { intros q. rewrite S1. destruct (decide (path_prefix q path)) as [Hq|];
      [symmetry; apply Dabove; exact Hq|reflexivity]. }
  exists h1. split; [|split; [exact T1|exact Same]].
  apply hbind_raise. apply (mkdir_parents_file _ fd); [apply joinpath_parts|].
  rewrite Same. exact Hc.
Qed.

End GenerateProperties.

Lemma wf_disk_empty : wf_disk ∅.
Proof. intros q n H. rewrite lookup_empty in H. discriminate. Qed.

Lemma no_file_on_empty_disk q : is_file ∅ q = false.
Proof.
  unfold is_file, node_at. destruct (parts q); [reflexivity|].
  rewrite lookup_empty. reflexivity.
Qed.

Lemma generate_builds_project_witness :
  let env := HostScenario.env in
  let path := mkPath true ["proj"; "site"] in
  let h := HostScenario.fresh in
  let h' := snd (generate env path false h) in
  fst (generate env path false h) = Ok tt
  /\ typed h' = typed h
  /\ wf_disk (disk h')
  /\ node_at (disk h') (config_file path) = Some (File (Raw "config"))
  /\ node_at (disk h') (main_file path) = Some (File (Raw "main"))
  /\ node_at (disk h') (component_file path) = Some (File (Raw "component"))
  /\ (forall q, path_prefix q path -> node_at (disk h') q = Some Dir)
  /\ node_at (disk h') (joinpath path "components") = Some Dir
  /\ node_at (disk h') (joinpath path "scss") = Some Dir
  /\ (forall q,
        q <> config_file path -> q <> main_file path ->
        q <> component_file path ->
        ~ path_prefix q (joinpath path "components") ->
        ~ path_prefix q (joinpath path "scss") ->
        node_at (disk h') q = node_at (disk h) q).
Proof.
  cbv zeta.
  exact (generate_builds_project HostScenario.env
           (mkPath true ["proj"; "site"]) false HostScenario.fresh
           wf_disk_empty (fun q _ => no_file_on_empty_disk q)
           eq_refl eq_refl eq_refl eq_refl eq_refl eq_refl).
Defined.

Lemma generate_again_witness :
  let env := HostScenario.env in
  let path := mkPath true ["proj"; "site"] in
  let h1 := snd (generate env path false HostScenario.fresh) in
  fst (generate env path true h1) = Ok tt
  /\ (forall q, node_at (disk (snd (generate env path true h1))) q
               = node_at (disk h1) q)
  /\ generate env path false h1
     = (Ok tt, set_typed (fun l => l ++ ["Path is not empty"]) h1).
Proof.
  cbv zeta.
  exact (generate_again HostScenario.env
           (mkPath true ["proj"; "site"]) false HostScenario.fresh
           wf_disk_empty (fun q _ => no_file_on_empty_disk q)
           eq_refl eq_refl eq_refl eq_refl eq_refl eq_refl).
Defined.

Lemma generate_blocked_by_file_witness :
  let h := mkHost (<[mkPath true ["proj"; "components"] := File (Raw "notes")]>
                     (<[HostScenario.proj := Dir]> ∅))
                  [] (mkPath false []) in
  exists h',
    generate HostScenario.env HostScenario.proj true h
    = (Raise FileExistsError, h')
    /\ typed h' = typed h
    /\ forall q, node_at (disk h') q = node_at (disk h) q.
Proof.
  cbv zeta.
  refine (generate_blocked_by_file HostScenario.env HostScenario.proj
            (Raw "notes")
            (mkHost (<[mkPath true ["proj"; "components"] := File (Raw "notes")]>
                       (<[HostScenario.proj := Dir]> ∅))
                    [] (mkPath false []))
            _ eq_refl).
  apply wf_insert_file; [apply wf_insert_dir; [apply wf_disk_empty|]| | |];
    try reflexivity; discriminate.
Defined.
